(** * Logfire emission core: a shallow embedding and its properties

    The development follows [logfire/_main.py]: attribute encoding
    ([user_attributes]), tag merging ([_merge_tags_into_attributes],
    [uniquify_sequence]), span exit ([_exit_span]), the [LogfireSpan]
    life cycle and the [Logfire] front end ([span], [log], the level
    methods, [with_trace_sample_rate]).  The fallback exporter, whose
    module is only exercised by [tests/exporters/test_fallback_exporter.py],
    is modelled at the end. *)

From Stdlib Require Import ZArith String Ascii List Bool Floats Lia.
From Stdlib Require Import DecimalString DecimalPos DecimalZ.
From stdpp Require Import gmap strings list.

Open Scope Z_scope.
Open Scope string_scope.

(** ** Python values

    Attribute values are [Any] in the source.  The cases the code tells
    apart are [None], [bool], [int], [float], [str]; tags are a
    [list[str]] and the null-args entry is a [tuple] of key names.  Every
    other object is opaque and named by a handle. *)

Inductive pyval : Type :=
| VNone
| VBool (b : bool)
| VInt (z : Z)
| VFloat (f : float)
| VStr (s : string)
| VList (l : list string)
| VTuple (l : list string)
| VOther (handle : string).

Definition is_None (v : pyval) : bool :=
  match v with VNone => true | _ => false end.

(** [str(value)] for an [int]: the decimal numeral, with a leading minus
    sign for negative numbers. *)
Definition str_int (z : Z) : string := NilZero.string_of_int (Z.to_int z).

(** [str(value)] for a [bool]. *)
Definition str_bool (b : bool) : string := if b then "True" else "False".

(** [v != 1] as Python evaluates it: [True == 1], an [int] or a [float]
    is compared by value, every other object differs from [1]. *)
Definition py_ne_one (v : pyval) : bool :=
  match v with
  | VBool b => negb b
  | VInt z => negb (Z.eqb z 1)
  | VFloat f => negb (PrimFloat.eqb f 1%float)
  | _ => true
  end.

(** ** Dictionaries

    A Python [dict] keeps insertion order and has unique keys; the order
    is observable (it decides the order of the null-args tuple), so a
    dictionary is an association list and the operations below are the
    ones of [dict]. *)

Abbreviation dict V := (list (string * V)).

Definition keys {V} (d : dict V) : list string := map fst d.

(** [d.get(k)] / [d[k]] *)
Fixpoint dict_get {V} (k : string) (d : dict V) : option V :=
  match d with
  | [] => None
  | (k', v) :: d' => if String.eqb k k' then Some v else dict_get k d'
  end.

(** [k in d] *)
Definition dict_mem {V} (k : string) (d : dict V) : bool :=
  match dict_get k d with Some _ => true | None => false end.

(** [d[k] = v]: an existing key keeps its position, a new key goes last. *)
Fixpoint dict_set {V} (k : string) (v : V) (d : dict V) : dict V :=
  match d with
  | [] => [(k, v)]
  | (k', v') :: d' =>
      if String.eqb k k' then (k', v) :: d' else (k', v') :: dict_set k v d'
  end.

(** [{k: v for k, v in d.items() if k != key}] *)
Definition dict_without {V} (key : string) (d : dict V) : dict V :=
  filter (fun kv => fst kv ≠ key) d.

(** [d.pop(k, default)] *)
Definition dict_pop {V} (k : string) (default : V) (d : dict V) : V * dict V :=
  match dict_get k d with
  | Some v => (v, dict_without k d)
  | None => (default, d)
  end.

(** [{**d1, **d2}] *)
Definition dict_update {V} (d1 d2 : dict V) : dict V :=
  fold_left (fun acc kv => dict_set (fst kv) (snd kv) acc) d2 d1.

(** ** Warnings, exceptions and the state the code acts on *)

Inductive warning : Type :=
| UserWarning (msg : string).

(** Exceptions raised by the code of [_main.py] itself. *)
Inductive pyexn : Type :=
| ValueError (msg : string)
| RuntimeError (msg : string)
| TypeError
| KeyError (key : string)
| AssertionError.

Inductive result (A : Type) : Type :=
| Ok (a : A)
| Raise (e : pyexn).
Arguments Ok {A} a.
Arguments Raise {A} e.

Inductive StatusCode : Type := UNSET | OK | ERROR.

Record Status : Type := mkStatus {
  status_code : StatusCode;
  description : option string
}.

(** An exception object as [_exit_span] inspects it: [str(exc_value)],
    whether the object is an instance of [Exception] (and not only of
    [BaseException]), and the JSON payload when it is a pydantic
    [ValidationError] (and pydantic is installed). *)
Record exception : Type := mkException {
  exc_str : string;
  exc_is_Exception : bool;
  exc_validation_json : option string
}.

(** The event [Span.record_exception] adds. *)
Record Event : Type := mkEvent {
  ev_exception : exception;
  ev_attributes : dict pyval;
  ev_escaped : bool
}.

Record Span : Type := mkSpan {
  sp_name : string;
  sp_attributes : dict pyval;
  sp_status : Status;
  sp_events : list Event;
  sp_start_time : Z;
  sp_end_time : option Z
}.

(** What the calls of one run have done so far: the warnings issued
    through [warnings.warn] (oldest first), the messages the tracing SDK
    wrote to its logger, the spans the tracer's span processor received
    on [end] (oldest first), the stack of attached context tokens and the
    clock. *)
Record World : Type := mkWorld {
  w_warnings : list warning;
  w_log : list string;
  w_finished : list Span;
  w_context : list nat;
  w_clock : Z
}.

Definition M (A : Type) : Type := World -> World * result A.

Definition ret {A} (a : A) : M A := fun w => (w, Ok a).

Definition bind {A B} (c : M A) (k : A -> M B) : M B :=
  fun w =>
    match c w with
    | (w', Ok a) => k a w'
    | (w', Raise e) => (w', Raise e)
    end.

Definition raise {A} (e : pyexn) : M A := fun w => (w, Raise e).

Definition lift {A} (r : result A) : M A := fun w => (w, r).

Declare Scope py_scope.
Delimit Scope py_scope with py.
Notation "x <- c ;; k" := (bind c (fun x => k))
  (at level 100, c at next level, right associativity) : py_scope.
Notation "c ;;; k" := (bind c (fun _ => k))
  (at level 100, right associativity) : py_scope.
Open Scope py_scope.

(** The world after some more warnings. *)
Definition with_warnings (w : World) (ws : list warning) : World :=
  mkWorld (w_warnings w ++ ws) (w_log w) (w_finished w) (w_context w) (w_clock w).

(** [warnings.warn(msg)] and [warnings.warn(msg, UserWarning)] under the
    default filters: the warning is reported and the call goes on. *)
Definition warn (msg : string) : M unit :=
  fun w => (with_warnings w [UserWarning msg], Ok tt).

(** ** Tags *)

Section Uniquify.
Context {T : Type} `{Countable T}.

(** The comprehension of [uniquify_sequence], with its [seen] set:
    [x] is kept when it is not in [seen], and is then added to it. *)
Fixpoint uniquify_loop (seen : gset T) (seq : list T) : list T :=
  match seq with
  | [] => []
  | x :: rest =>
      if decide (x ∈ seen) then uniquify_loop seen rest
      else x :: uniquify_loop ({[x]} ∪ seen) rest
  end.

Definition uniquify_sequence (seq : list T) : list T := uniquify_loop ∅ seq.

(** The specification's [dedup]: keep the head, drop its later copies. *)
Fixpoint dedup_first (seq : list T) : list T :=
  match seq with
  | [] => []
  | x :: rest => x :: filter (fun y => y ≠ x) (dedup_first rest)
  end.
End Uniquify.

(** ** Constants and collaborators that live outside [_main.py]

    The reserved attribute keys and the level table come from
    [logfire/_constants.py]; they are parameters here. *)

Class Constants : Type := {
  ATTRIBUTES_JSON_SCHEMA_KEY : string;
  ATTRIBUTES_LOG_LEVEL_NAME_KEY : string;
  ATTRIBUTES_LOG_LEVEL_NUM_KEY : string;
  ATTRIBUTES_MESSAGE_KEY : string;
  ATTRIBUTES_MESSAGE_TEMPLATE_KEY : string;
  ATTRIBUTES_SAMPLE_RATE_KEY : string;
  ATTRIBUTES_SPAN_TYPE_KEY : string;
  ATTRIBUTES_TAGS_KEY : string;
  ATTRIBUTES_VALIDATION_ERROR_KEY : string;
  NULL_ARGS_KEY : string;
  LEVEL_NUMBERS : dict Z
}.

(** Modelled from the spec: [OTLP_MAX_INT_SIZE] of [logfire/_constants.py]
    is missing from the sources; the specification gives the bound of the
    signed 64-bit range, [2^63 - 1]. *)
Definition OTLP_MAX_INT_SIZE : Z := 2 ^ 63 - 1.

(** A frame and a stack of a [rich.traceback] trace, as far as
    [_filter_frames] reads them. *)
Record Frame : Type := mkFrame {
  filename : string;
  name : string;
  lineno : Z
}.

Record Stack : Type := mkStack {
  frames : list Frame
}.

(** The functions [_main.py] imports: stack inspection, message
    formatting (which may warn, and never raises), JSON schema and JSON
    encoding, and the traceback machinery.  [traceback] is the type of
    the traceback objects handed to [__exit__]. *)
Class Externals : Type := {
  traceback : Type;
  get_caller_stack_info : Z -> dict pyval;
  logfire_format : string -> dict pyval -> option string -> Z -> list warning * string;
  logfire_json_schema : dict pyval -> string;
  logfire_json_dumps : pyval -> string;
  json_dumps_traceback : list Stack -> string;
  Traceback_from_exception : string -> exception -> traceback -> list Stack
}.

Section Encoding.
Context {C : Constants} {E : Externals}.

(** [cast('list[str]', v) + tags]: list concatenation; for any [v] that
    is not a list, [+] with a list raises [TypeError]. *)
Definition list_add (v : pyval) (tags : list string) : result (list string) :=
  match v with
  | VList l => Ok (l ++ tags)%list
  | _ => Raise TypeError
  end.

Definition _merge_tags_into_attributes (attributes : dict pyval) (tags : list string)
  : result (option (list string) * dict pyval) :=
  let finish (res : list string) (attributes : dict pyval) :=
    match res with
    | _ :: _ => Ok (Some (uniquify_sequence res), attributes)
    | [] => Ok (None, attributes)
    end in
  match dict_get ATTRIBUTES_TAGS_KEY attributes with
  | Some v =>
      match list_add v tags with
      | Ok res => finish res (dict_without ATTRIBUTES_TAGS_KEY attributes)
      | Raise e => Raise e
      end
  | None => finish tags attributes
  end.

(** The text of the warning for an oversized integer, an f-string over
    [value] and the bound. *)
Definition oversize_message (value : string) : string :=
  "Integer value " ++ value
  ++ " is larger than the maximum OTLP integer size of "
  ++ str_int OTLP_MAX_INT_SIZE
  ++ " (64-bits),  if you need support for sending larger integers, please open a feature request".

(** One iteration of the loop of [user_attributes] over
    [attributes.items()], on the locals [prepared] and [null_args].
    A [bool] is an [int] for [isinstance], so it takes the integer
    branch. *)
Definition user_attributes_step (st : dict pyval * list string) (item : string * pyval)
  : M (dict pyval * list string) :=
  let '(prepared, null_args) := st in
  let '(key, value) := item in
  match value with
  | VNone => ret (prepared, (null_args ++ [key])%list)
  | VInt z =>
      if z >? OTLP_MAX_INT_SIZE then
        warn (oversize_message (str_int z)) ;;;
        ret (dict_set key (VStr (str_int z)) prepared, null_args)
      else ret (dict_set key (VInt z) prepared, null_args)
  | VBool b =>
      if Z.b2z b >? OTLP_MAX_INT_SIZE then
        warn (oversize_message (str_bool b)) ;;;
        ret (dict_set key (VStr (str_bool b)) prepared, null_args)
      else ret (dict_set key (VBool b) prepared, null_args)
  | VStr _ | VFloat _ => ret (dict_set key value prepared, null_args)
  | VList _ | VTuple _ | VOther _ =>
      ret (dict_set key (VStr (logfire_json_dumps value)) prepared, null_args)
  end.

Fixpoint user_attributes_loop (items : dict pyval) (st : dict pyval * list string)
  : M (dict pyval * list string) :=
  match items with
  | [] => ret st
  | item :: rest =>
      st' <- user_attributes_step st item ;;
      user_attributes_loop rest st'
  end.

Definition user_attributes (attributes : dict pyval) : M (dict pyval) :=
  st <- user_attributes_loop attributes ([], []) ;;
  let '(prepared, null_args) := st in
  match null_args with
  | _ :: _ => ret (dict_set NULL_ARGS_KEY (VTuple null_args) prepared)
  | [] => ret prepared
  end.

End Encoding.

(** The notions the properties of the encoding are stated with: the
    values the wire protocol has ([bool], [int], [float], [str]), and the
    keys of a dictionary that are bound to [None], in the order of the
    dictionary. *)
Definition is_primitive (v : pyval) : bool :=
  match v with
  | VBool _ | VInt _ | VFloat _ | VStr _ => true
  | _ => false
  end.

Definition null_keys (d : dict pyval) : list string :=
  keys (filter (fun kv => is_None (snd kv)) d).

Definition non_null (d : dict pyval) : dict pyval :=
  filter (fun kv => ¬ is_None (snd kv)) d.

(** What the encoding writes for a value that is not [None], and the
    warnings it gives for it. *)
Definition encode_value {E : Externals} (value : pyval) : pyval :=
  match value with
  | VNone => VNone
  | VInt z => if z >? OTLP_MAX_INT_SIZE then VStr (str_int z) else VInt z
  | VBool b => if Z.b2z b >? OTLP_MAX_INT_SIZE then VStr (str_bool b) else VBool b
  | VStr _ | VFloat _ => value
  | VList _ | VTuple _ | VOther _ => VStr (logfire_json_dumps value)
  end.

Definition oversize_warnings (value : pyval) : list warning :=
  match value with
  | VInt z =>
      if z >? OTLP_MAX_INT_SIZE then [UserWarning (oversize_message (str_int z))] else []
  | VBool b =>
      if Z.b2z b >? OTLP_MAX_INT_SIZE then [UserWarning (oversize_message (str_bool b))]
      else []
  | _ => []
  end.

(** ** The underlying tracer

    The span handle of the tracing SDK and the context manager are
    external collaborators (section 6 of the specification).  A span
    records until it is ended; a mutation of an ended span is dropped;
    the first [end] sets the end time and hands the span to the span
    processor; [end] on an ended span is dropped too, and the SDK notes
    it in its log. *)

(** Modelled from the spec: [Span.is_recording()] of the SDK. *)
Definition is_recording (s : Span) : bool :=
  match sp_end_time s with None => true | Some _ => false end.

(** Modelled from the spec: [Span.set_status(status)] of the SDK. *)
Definition Span_set_status (st : Status) (s : Span) : Span :=
  if is_recording s then
    mkSpan (sp_name s) (sp_attributes s) st (sp_events s) (sp_start_time s) (sp_end_time s)
  else s.

(** Modelled from the spec: [Span.set_attribute(key, value)] of the SDK. *)
Definition Span_set_attribute (key : string) (value : pyval) (s : Span) : Span :=
  if is_recording s then
    mkSpan (sp_name s) (dict_set key value (sp_attributes s)) (sp_status s) (sp_events s)
           (sp_start_time s) (sp_end_time s)
  else s.

(** Modelled from the spec: [Span.record_exception(exception, attributes,
    escaped)] of the SDK, which adds an event to the span. *)
Definition Span_record_exception (e : exception) (attributes : dict pyval) (escaped : bool)
  (s : Span) : Span :=
  if is_recording s then
    mkSpan (sp_name s) (sp_attributes s) (sp_status s)
           (sp_events s ++ [mkEvent e attributes escaped]) (sp_start_time s) (sp_end_time s)
  else s.

(** Modelled from the spec: the clock ([time_ns], and the
    [ns_timestamp_generator] of the configuration); a reading advances
    it. *)
Definition time_ns : M Z :=
  fun w => (mkWorld (w_warnings w) (w_log w) (w_finished w) (w_context w) (w_clock w + 1),
            Ok (w_clock w)).

(** Modelled from the spec: a line in the SDK's log. *)
Definition sdk_log (msg : string) : M unit :=
  fun w => (mkWorld (w_warnings w) (w_log w ++ [msg]) (w_finished w) (w_context w) (w_clock w),
            Ok tt).

(** Modelled from the spec: the span processor receives a span that
    ends. *)
Definition on_end (s : Span) : M unit :=
  fun w => (mkWorld (w_warnings w) (w_log w) (w_finished w ++ [s]) (w_context w) (w_clock w),
            Ok tt).

(** Modelled from the spec: [Span.end(end_time)] of the SDK; without an
    end time the clock is read. *)
Definition Span_end (end_time : option Z) (s : Span) : M Span :=
  if is_recording s then
    t <- match end_time with Some t => ret t | None => time_ns end ;;
    let s' := mkSpan (sp_name s) (sp_attributes s) (sp_status s) (sp_events s)
                     (sp_start_time s) (Some t) in
    on_end s' ;;;
    ret s'
  else
    sdk_log "Calling end() on an ended span." ;;;
    ret s.

(** Modelled from the spec: [Tracer.start_span(name, attributes,
    start_time)] of the SDK; without a start time the clock is read. *)
Definition start_span (span_name : string) (attributes : dict pyval) (start_time : option Z)
  : M Span :=
  t <- match start_time with Some t => ret t | None => time_ns end ;;
  ret (mkSpan span_name attributes (mkStatus UNSET None) [] t None).

(** Modelled from the spec: [context_api.attach]; the token remembers
    the depth to return to. *)
Definition attach : M nat :=
  fun w => let token := length (w_context w) in
           (mkWorld (w_warnings w) (w_log w) (w_finished w) (token :: w_context w) (w_clock w),
            Ok token).

(** Modelled from the spec: [context_api.detach(token)]; back to the
    context [attach] found. *)
Definition detach (token : nat) : M unit :=
  fun w => (mkWorld (w_warnings w) (w_log w) (w_finished w)
                    (drop (length (w_context w) - token)%nat (w_context w)) (w_clock w),
            Ok tt).

(** ** Span exit *)

Definition OK_STATUS : Status := mkStatus OK None.

(** [s.endswith(suffix)] *)
Definition endswith (s suffix : string) : bool :=
  let n := String.length s in
  let m := String.length suffix in
  (m <=? n)%nat && String.eqb (String.substring (n - m) m s) suffix.

(** [s.startswith(p)] *)
Definition startswith (s p : string) : bool := String.prefix p s.

(** Filter out the [record_exception] call itself. *)
Definition _filter_frames (stack : Stack) : Stack :=
  mkStack (filter
             (fun f => ¬ (endswith (filename f) "logfire/_main.py" && startswith (name f) "_"))
             (frames stack)).

Section Exit.
Context {C : Constants} {E : Externals}.

(** [exc_type] is the exception class, of which the code reads
    [__name__]; both arguments are [None] on a normal exit. *)
Definition _exit_span (span : Span) (exc_type : option string) (exc_value : option exception)
  (tb : traceback) : Span :=
  if negb (is_recording span) then span
  else
    match exc_type, exc_value with
    | Some type_name, Some exc =>
        if exc_is_Exception exc then
          let span :=
            Span_set_status (mkStatus ERROR (Some (type_name ++ ": " ++ exc_str exc))) span in
          let trace := map _filter_frames (Traceback_from_exception type_name exc tb) in
          let attributes : dict pyval :=
            [("exception.logfire.trace", VStr (json_dumps_traceback trace))] in
          match exc_validation_json exc with
          | Some err_json =>
              let span := Span_set_attribute ATTRIBUTES_VALIDATION_ERROR_KEY (VStr err_json) span in
              let attributes :=
                dict_set ATTRIBUTES_VALIDATION_ERROR_KEY (VStr err_json) attributes in
              Span_record_exception exc attributes true span
          | None => Span_record_exception exc attributes true span
          end
        else Span_set_status OK_STATUS span
    | _, _ => Span_set_status OK_STATUS span
    end.

End Exit.

(** ** [LogfireSpan] *)

(** A call of [logfire_format]: the warnings it gives are issued like
    any other, and the message is returned. *)
Definition format_message {E : Externals} (template : string) (args : dict pyval)
  (fallback : option string) (level : Z) : M string :=
  let '(ws, msg) := logfire_format template args fallback level in
  fun w => (with_warnings w ws, Ok msg).

Record _FormatArgs : Type := mk_FormatArgs {
  format_string : string;
  kwargs : dict pyval;
  stacklevel : Z
}.

Module LogfireSpan.

Record t : Type := mk {
  _span_name : string;
  _otlp_attributes : dict pyval;
  _token : option nat;
  _format_args : _FormatArgs;
  _span : option Span;
  end_on_exit : bool
}.

Definition with_span (self : t) (span : option Span) : t :=
  mk (_span_name self) (_otlp_attributes self) (_token self) (_format_args self) span
     (end_on_exit self).

Definition with_token (self : t) (token : option nat) : t :=
  mk (_span_name self) (_otlp_attributes self) token (_format_args self) (_span self)
     (end_on_exit self).

Definition with_end_on_exit (self : t) (b : bool) : t :=
  mk (_span_name self) (_otlp_attributes self) (_token self) (_format_args self) (_span self) b.

Section Methods.
Context {C : Constants} {E : Externals}.

(** [LogfireSpan(span_name, otlp_attributes, tracer, format_args)] *)
Definition __init__ (span_name : string) (otlp_attributes : dict pyval)
  (format_args : _FormatArgs) : t :=
  mk span_name otlp_attributes None format_args None true.

Definition __enter__ (self : t) : M t :=
  let self := with_end_on_exit self true in
  self <- match _span self with
          | None =>
              span <- start_span (_span_name self) (_otlp_attributes self) None ;;
              ret (with_span self (Some span))
          | Some _ => ret self
          end ;;
  match _token self with
  | None => token <- attach ;; ret (with_token self (Some token))
  | Some _ => ret self
  end.

Definition __exit__ (self : t) (exc_type : option string) (exc_value : option exception)
  (tb : traceback) : M t :=
  match _token self with
  | None => ret self
  | Some token =>
      detach token ;;;
      let self := with_token self None in
      match _span self with
      | None => raise AssertionError
      | Some span =>
          let span := _exit_span span exc_type exc_value tb in
          let format_args := _format_args self in
          log_message <- format_message (format_string format_args)
                           (dict_update [("span_name", VStr (_span_name self))]
                                        (kwargs format_args))
                           None (stacklevel format_args) ;;
          let span := Span_set_attribute ATTRIBUTES_MESSAGE_KEY (VStr log_message) span in
          span <- (if end_on_exit self then Span_end None span else ret span) ;;
          ret (with_token (with_span self (Some span)) None)
      end
  end.

(** [LogfireSpan.end] ([end] is a keyword here). *)
Definition end_ (self : t) : M t :=
  match _span self with
  | None => raise (RuntimeError "Span has not been started")
  | Some span =>
      if is_recording span then
        span <- Span_end None span ;;
        ret (with_span self (Some span))
      else ret self
  end.

Definition set_attribute (self : t) (key : string) (value : pyval) : t :=
  let self :=
    match _span self with
    | None =>
        mk (_span_name self) (dict_set key value (_otlp_attributes self)) (_token self)
           (_format_args self) (_span self) (end_on_exit self)
    | Some span => with_span self (Some (Span_set_attribute key value span))
    end in
  let format_args := _format_args self in
  mk (_span_name self) (_otlp_attributes self) (_token self)
     (mk_FormatArgs (format_string format_args) (dict_set key value (kwargs format_args))
                    (stacklevel format_args))
     (_span self) (end_on_exit self).

End Methods.

(** What reading a property gives: a value, or the [AttributeError] of
    [getattr(None, 'attributes')] when the span has not been started. *)
Inductive property_result (A : Type) : Type :=
| Value (a : A)
| AttributeError.
Arguments Value {A} a.
Arguments AttributeError {A}.

Section Properties.
Context {C : Constants}.

(** [str(v)] for the values whose text the model has; [str_other] gives
    the text of the others (floats, lists, tuples, opaque objects). *)
Variable str_other : pyval -> string.

Definition py_str (v : pyval) : string :=
  match v with
  | VStr s => s
  | VInt z => str_int z
  | VBool b => str_bool b
  | VNone => "None"
  | _ => str_other v
  end.

Definition message_template (self : t) : property_result (option string) :=
  match _span self with
  | None => AttributeError
  | Some span =>
      match sp_attributes span with
      | [] => Value None
      | attributes =>
          match dict_get ATTRIBUTES_MESSAGE_TEMPLATE_KEY attributes with
          | None => Value None
          | Some v => Value (Some (py_str v))
          end
      end
  end.

Definition tags (self : t) : property_result pyval :=
  match _span self with
  | None => AttributeError
  | Some span =>
      match sp_attributes span with
      | [] => Value (VList [])
      | attributes =>
          match dict_get ATTRIBUTES_TAGS_KEY attributes with
          | None => Value (VList [])
          | Some v => Value v
          end
      end
  end.

End Properties.
End LogfireSpan.

(** ** [FastLogfireSpan] *)

Module FastLogfireSpan.

Record t : Type := mk {
  _span : Span;
  _token : nat
}.

Section Methods.
Context {C : Constants} {E : Externals}.

(** [FastLogfireSpan(span)]: the span is attached at once. *)
Definition __init__ (span : Span) : M t :=
  token <- attach ;;
  ret (mk span token).

Definition __enter__ (self : t) : t := self.

Definition __exit__ (self : t) (exc_type : option string) (exc_value : option exception)
  (tb : traceback) : M t :=
  detach (_token self) ;;;
  let span := _exit_span (_span self) exc_type exc_value tb in
  span <- Span_end None span ;;
  ret (mk span (_token self)).

End Methods.
End FastLogfireSpan.

(** ** [Logfire] *)

(** The range the specification gives for a sample rate (section 6):
    [0 < rate <= 1]. *)
Definition valid_sample_rate (rate : float) : bool :=
  PrimFloat.ltb 0 rate && PrimFloat.leb rate 1.

Module Logfire.

Record t : Type := mk {
  _tags : list string;
  _sample_rate : option float
}.

Definition with_tags (self : t) (tags : list string) : t :=
  mk (_tags self ++ tags) (_sample_rate self).

Definition with_trace_sample_rate (self : t) (sample_rate : float) : result t :=
  if PrimFloat.ltb 1 sample_rate || PrimFloat.ltb sample_rate 0 then
    Raise (ValueError "sample_rate must be between 0 and 1")
  else Ok (mk (_tags self) (Some sample_rate)).

Section Methods.
Context {C : Constants} {E : Externals}.

(** The sample rate to use and the attributes it leaves: the rate of
    the instance when it has one (the attributes are then not touched),
    else the rate popped from the attributes; the rate is written back
    unless it is [None] or equal to [1]. *)
Definition resolve_sample_rate (self : t) (otlp_attributes : dict pyval) : dict pyval :=
  let '(sample_rate, otlp_attributes) :=
    match _sample_rate self with
    | Some rate => (VFloat rate, otlp_attributes)
    | None => dict_pop ATTRIBUTES_SAMPLE_RATE_KEY VNone otlp_attributes
    end in
  if negb (is_None sample_rate) && py_ne_one sample_rate then
    dict_set ATTRIBUTES_SAMPLE_RATE_KEY sample_rate otlp_attributes
  else otlp_attributes.

(** [if attributes_json_schema := logfire_json_schema(attributes): ...] *)
Definition add_json_schema (attributes otlp_attributes : dict pyval) : dict pyval :=
  let attributes_json_schema := logfire_json_schema attributes in
  if String.eqb attributes_json_schema EmptyString then otlp_attributes
  else dict_set ATTRIBUTES_JSON_SCHEMA_KEY (VStr attributes_json_schema) otlp_attributes.

(** [if tags: otlp_attributes[ATTRIBUTES_TAGS_KEY] = tags] *)
Definition add_tags (tags : option (list string)) (otlp_attributes : dict pyval) : dict pyval :=
  match tags with
  | Some (tag :: rest) => dict_set ATTRIBUTES_TAGS_KEY (VList (tag :: rest)) otlp_attributes
  | _ => otlp_attributes
  end.

Definition _span (self : t) (msg_template : string) (attributes : dict pyval)
  (span_name : option string) (stacklevel : Z) (decorator : bool) : M LogfireSpan.t :=
  let stack_info := get_caller_stack_info stacklevel in
  let merged_attributes := dict_update stack_info attributes in
  let merged_attributes :=
    dict_set ATTRIBUTES_MESSAGE_TEMPLATE_KEY (VStr msg_template) merged_attributes in
  merged <- lift (_merge_tags_into_attributes merged_attributes (_tags self)) ;;
  let '(tags, merged_attributes) := merged in
  let span_name_ := match span_name with Some n => n | None => msg_template end in
  let format_kwargs := dict_update [("span_name", VStr span_name_)] merged_attributes in
  log_message <- format_message msg_template format_kwargs (Some "...") stacklevel ;;
  let merged_attributes := dict_set ATTRIBUTES_MESSAGE_KEY (VStr log_message) merged_attributes in
  otlp_attributes <- user_attributes merged_attributes ;;
  let otlp_attributes := add_json_schema attributes otlp_attributes in
  let otlp_attributes := add_tags tags otlp_attributes in
  let otlp_attributes := resolve_sample_rate self otlp_attributes in
  let exit_stacklevel := stacklevel + (if decorator then 2 else 1) in
  ret (LogfireSpan.__init__ span_name_ otlp_attributes
         (mk_FormatArgs msg_template merged_attributes exit_stacklevel)).

(** [any(k.startswith('_') for k in attributes)] *)
Definition any_underscore (attributes : dict pyval) : bool :=
  existsb (fun k => startswith k "_") (keys attributes).

Definition span (self : t) (msg_template : string) (span_name : option string)
  (attributes : dict pyval) : M LogfireSpan.t :=
  if any_underscore attributes then
    raise (ValueError "Attribute keys cannot start with an underscore.")
  else _span self msg_template attributes span_name 3 false.

Definition log (self : t) (level : string) (msg_template : string) (attributes : dict pyval)
  (stack_offset : Z) : M unit :=
  level <- (if dict_mem level LEVEL_NUMBERS then ret level
            else warn "Invalid log level" ;;; ret "error") ;;
  level_no <- match dict_get level LEVEL_NUMBERS with
              | Some n => ret n
              | None => raise (KeyError level)
              end ;;
  let stacklevel := stack_offset + 2 in
  let stack_info := get_caller_stack_info stacklevel in
  let merged_attributes := dict_update stack_info attributes in
  merged <- lift (_merge_tags_into_attributes merged_attributes (_tags self)) ;;
  let '(tags, merged_attributes) := merged in
  msg <- format_message msg_template merged_attributes None (stacklevel + 2) ;;
  otlp_attributes <- user_attributes merged_attributes ;;
  let otlp_attributes :=
    dict_update
      (dict_update []
         [(ATTRIBUTES_SPAN_TYPE_KEY, VStr "log");
          (ATTRIBUTES_LOG_LEVEL_NAME_KEY, VStr level);
          (ATTRIBUTES_LOG_LEVEL_NUM_KEY, VInt level_no);
          (ATTRIBUTES_MESSAGE_TEMPLATE_KEY, VStr msg_template);
          (ATTRIBUTES_MESSAGE_KEY, VStr msg)])
      otlp_attributes in
  let otlp_attributes := add_json_schema attributes otlp_attributes in
  let otlp_attributes := add_tags tags otlp_attributes in
  let otlp_attributes := resolve_sample_rate self otlp_attributes in
  start_time <- time_ns ;;
  span <- start_span msg otlp_attributes (Some start_time) ;;
  token <- attach ;;
  let span := Span_set_status (mkStatus OK None) span in
  span <- Span_end (Some start_time) span ;;
  detach token.

Definition trace (self : t) (msg_template : string) (attributes : dict pyval) : M unit :=
  if any_underscore attributes then
    raise (ValueError "Attribute keys cannot start with an underscore.")
  else log self "trace" msg_template attributes 1.

Definition debug (self : t) (msg_template : string) (attributes : dict pyval) : M unit :=
  if any_underscore attributes then
    raise (ValueError "Attribute keys cannot start with an underscore.")
  else log self "debug" msg_template attributes 1.

Definition info (self : t) (msg_template : string) (attributes : dict pyval) : M unit :=
  if any_underscore attributes then
    raise (ValueError "Attribute keys cannot start with an underscore.")
  else log self "info" msg_template attributes 1.

Definition notice (self : t) (msg_template : string) (attributes : dict pyval) : M unit :=
  if any_underscore attributes then
    raise (ValueError "Attribute keys cannot start with an underscore.")
  else log self "notice" msg_template attributes 1.

Definition warn (self : t) (msg_template : string) (attributes : dict pyval) : M unit :=
  if any_underscore attributes then
    raise (ValueError "Attribute keys cannot start with an underscore.")
  else log self "warn" msg_template attributes 1.

Definition error (self : t) (msg_template : string) (attributes : dict pyval) : M unit :=
  if any_underscore attributes then
    raise (ValueError "Attribute keys cannot start with an underscore.")
  else log self "error" msg_template attributes 1.

Definition fatal (self : t) (msg_template : string) (attributes : dict pyval) : M unit :=
  if any_underscore attributes then
    raise (ValueError "Attribute keys cannot start with an underscore.")
  else log self "fatal" msg_template attributes 1.

End Methods.

Section FastPath.
Context {C : Constants} {E : Externals}.

(** [get_filepath_attribute] of [_stack_info], which [_main.py]
    imports. *)
Variable get_filepath_attribute : string -> dict pyval.

(** A simple version of [_span] for auto-tracing. *)
Definition _fast_span (self : t) (msg : string) (attributes : dict pyval)
  : M FastLogfireSpan.t :=
  span <- start_span msg attributes None ;;
  FastLogfireSpan.__init__ span.

Definition _fast_span_attributes (self : t) (filename module_name function_name : string)
  (lineno : Z) : string * dict pyval :=
  let stack_info :=
    dict_update (dict_update [] (get_filepath_attribute filename))
      [("code.lineno", VInt lineno); ("code.function", VStr function_name)] in
  let msg := "Calling " ++ module_name ++ "." ++ function_name in
  let attributes :=
    dict_update (dict_update [] stack_info)
      [(ATTRIBUTES_MESSAGE_TEMPLATE_KEY, VStr msg);
       (ATTRIBUTES_MESSAGE_KEY, VStr msg);
       (ATTRIBUTES_TAGS_KEY, VTuple (uniquify_sequence (_tags self ++ ["auto-trace"])))] in
  let attributes :=
    match _sample_rate self with
    | None => attributes
    | Some rate =>
        if PrimFloat.eqb rate 1 then attributes
        else dict_set ATTRIBUTES_SAMPLE_RATE_KEY (VFloat rate) attributes
    end in
  (msg, attributes).

End FastPath.
End Logfire.

(** ** The fallback exporter

    [logfire/_internal/exporters/fallback.py] is not among the sources;
    only its test is.  The exporter is modelled from the specification
    (section 4.6), over any type of spans and of exceptions. *)

Inductive SpanExportResult : Type := SUCCESS | FAILURE.

Section Exporter.
Context {span exn : Type}.

(** What a call of a sink's [export] does: it returns a result or it
    raises. *)
Inductive outcome : Type :=
| Returned (r : SpanExportResult)
| Raised (e : exn).

(** A sink with states in [S] (section 6: [export(batch)], which may
    raise). *)
Record Sink (S : Type) : Type := mkSink {
  sink_export : S -> list span -> S * outcome
}.
Arguments sink_export {S} _ _ _.

Context {P F : Type} (primary : Sink P) (fallback : Sink F).

(** Modelled from the spec: [FallbackSpanExporter.export] is missing from
    the sources.  The primary sink is tried first.  If it raises, the
    fallback sink receives the same batch and the exception is raised
    again; if it returns a failure result, the fallback sink receives the
    batch and the call returns success; if it succeeds the fallback is
    not used.  The specification does not say what happens when the
    fallback's own [export] raises: that exception is let through. *)
Definition export (st : P * F) (batch : list span) : (P * F) * outcome :=
  let '(p, f) := st in
  match sink_export primary p batch with
  | (p', Raised e) =>
      match sink_export fallback f batch with
      | (f', Returned _) => ((p', f'), Raised e)
      | (f', Raised e') => ((p', f'), Raised e')
      end
  | (p', Returned FAILURE) =>
      match sink_export fallback f batch with
      | (f', Returned _) => ((p', f'), Returned SUCCESS)
      | (f', Raised e') => ((p', f'), Raised e')
      end
  | (p', Returned SUCCESS) => ((p', f), Returned SUCCESS)
  end.

End Exporter.
Arguments outcome : clear implicits.
Arguments Sink : clear implicits.
Arguments mkSink {span exn S} _.
Arguments sink_export {span exn S} _ _ _.

(** The sinks of [test_fallback_exporter.py]: one that raises, one that
    returns [FAILURE], and the recording [TestExporter], whose state is
    the list of the spans it has exported. *)
Definition ExceptionExporter {span : Type} : Sink span string unit :=
  mkSink (fun st _ => (st, Raised "Bad exporter")).

Definition FailureExporter {span exn : Type} : Sink span exn unit :=
  mkSink (fun st _ => (st, Returned FAILURE)).

Definition TestExporter {span exn : Type} : Sink span exn (list span) :=
  mkSink (fun exported_spans spans => ((exported_spans ++ spans)%list, Returned SUCCESS)).

Record SpanContext : Type := mkSpanContext {
  trace_id : Z;
  span_id : Z;
  is_remote : bool
}.

Record ReadableSpan : Type := mkReadableSpan {
  rs_name : string;
  rs_context : SpanContext;
  rs_parent : option SpanContext;
  rs_start_time : Z;
  rs_end_time : Z;
  rs_attributes : dict pyval
}.

Definition TEST_SPAN : ReadableSpan :=
  mkReadableSpan "test" (mkSpanContext 1 1 false) None 0 1 [].

(** ** Values for concrete runs

    The reserved keys and the level table as the package defines them,
    and simple stand-ins for the imported functions. *)

Definition example_constants : Constants := {|
  ATTRIBUTES_JSON_SCHEMA_KEY := "logfire.json_schema";
  ATTRIBUTES_LOG_LEVEL_NAME_KEY := "logfire.level_name";
  ATTRIBUTES_LOG_LEVEL_NUM_KEY := "logfire.level_num";
  ATTRIBUTES_MESSAGE_KEY := "logfire.msg";
  ATTRIBUTES_MESSAGE_TEMPLATE_KEY := "logfire.msg_template";
  ATTRIBUTES_SAMPLE_RATE_KEY := "logfire.sample_rate";
  ATTRIBUTES_SPAN_TYPE_KEY := "logfire.span_type";
  ATTRIBUTES_TAGS_KEY := "logfire.tags";
  ATTRIBUTES_VALIDATION_ERROR_KEY := "exception.logfire.data";
  NULL_ARGS_KEY := "logfire.null_args";
  LEVEL_NUMBERS :=
    [("trace", 1); ("debug", 5); ("info", 9); ("notice", 10); ("warn", 13); ("error", 17);
     ("fatal", 21)]
|}.

Definition example_externals : Externals := {|
  traceback := unit;
  get_caller_stack_info := fun _ =>
    [("code.filepath", VStr "app.py"); ("code.lineno", VInt 7); ("code.function", VStr "main")];
  logfire_format := fun template _ _ _ => ([], template);
  logfire_json_schema := fun _ => EmptyString;
  logfire_json_dumps := fun _ => "{}";
  json_dumps_traceback := fun _ => "[]";
  Traceback_from_exception := fun _ _ _ => []
|}.

Definition empty_world : World := mkWorld [] [] [] [] 0.

(** The reserved attribute keys, which the package keeps pairwise
    different. *)
Definition reserved_keys {C : Constants} : list string :=
  [ATTRIBUTES_JSON_SCHEMA_KEY; ATTRIBUTES_LOG_LEVEL_NAME_KEY; ATTRIBUTES_LOG_LEVEL_NUM_KEY;
   ATTRIBUTES_MESSAGE_KEY; ATTRIBUTES_MESSAGE_TEMPLATE_KEY; ATTRIBUTES_SAMPLE_RATE_KEY;
   ATTRIBUTES_SPAN_TYPE_KEY; ATTRIBUTES_TAGS_KEY; ATTRIBUTES_VALIDATION_ERROR_KEY;
   NULL_ARGS_KEY].

(** A stand-in for [get_filepath_attribute], for concrete runs. *)
Definition example_filepath_attribute (filename : string) : dict pyval :=
  [("code.filepath", VStr filename)].

(** ** Configuration parameters ([_config_params.py])

    A [str] is a sequence of characters; here a character is a code
    point below 256.  On these, [str.lower] changes the letters [A]-[Z]
    and the capital letters of the Latin-1 range, and the white space
    [str.strip] removes is the one [str.isspace] accepts. *)

Definition lower_char (c : ascii) : ascii :=
  let n := N_of_ascii c in
  if ((65 <=? n) && (n <=? 90) || (192 <=? n) && (n <=? 222) && negb (n =? 215))%N
  then ascii_of_N (n + 32)
  else c.

(** [s.lower()] *)
Fixpoint lower (s : string) : string :=
  match s with
  | EmptyString => EmptyString
  | String c rest => String (lower_char c) (lower rest)
  end.

(** [c.isspace()] *)
Definition isspace (c : ascii) : bool :=
  let n := N_of_ascii c in
  ((9 <=? n) && (n <=? 13) || (28 <=? n) && (n <=? 32) || (n =? 133) || (n =? 160))%N.

(** [s.lstrip()] *)
Fixpoint lstrip (s : string) : string :=
  match s with
  | EmptyString => EmptyString
  | String c rest => if isspace c then lstrip rest else s
  end.

(** [s.rstrip()] *)
Fixpoint rstrip (s : string) : string :=
  match s with
  | EmptyString => EmptyString
  | String c rest =>
      match rstrip rest with
      | EmptyString => if isspace c then EmptyString else String c EmptyString
      | rest' => String c rest'
      end
  end.

(** [s.strip()] *)
Definition strip (s : string) : string := rstrip (lstrip s).

(** [s.split(',')]: one piece more than there are commas. *)
Fixpoint split_comma (s : string) : list string :=
  match s with
  | EmptyString => [EmptyString]
  | String c rest =>
      if Ascii.eqb c "," then EmptyString :: split_comma rest
      else
        match split_comma rest with
        | piece :: pieces => String c piece :: pieces
        | [] => [String c EmptyString]
        end
  end.

(** The type of a parameter, [ConfigParam.tp]: [str], [bool], [Path], a
    [Literal[...]] of strings, [Set[str]], or any other type. *)
Inductive param_type : Type :=
| TStr
| TBool
| TPath
| TLiteral (literals : list string)
| TSetStr
| TOther (type_name : string).

(** The values a parameter takes ([Any] in the source): [None], a
    [bool], a [str], an [int], a [Path] made of a string, a set of
    strings; every other object is opaque. *)
Inductive config_value : Type :=
| CNone
| CBool (b : bool)
| CStr (s : string)
| CInt (z : Z)
| CPath (path : string)
| CSet (items : gset string)
| COther (handle : string).

(** The exceptions of [_config_params.py], with the values their
    messages are formatted from: [LogfireConfigError] for a value that is
    not of the parameter's type, [RuntimeError('Unexpected type ...')],
    the [KeyError] of [CONFIG_PARAMS[name]] and the [TypeError] of
    [Path(value)]. *)
Inductive config_error : Type :=
| LogfireConfigError (name : string) (expected : param_type) (got : config_value)
| UnexpectedType (tp : param_type)
| UnknownParam (name : string)
| PathTypeError (got : config_value).

Inductive loaded (A : Type) : Type :=
| Loaded (a : A)
| Failed (e : config_error).
Arguments Loaded {A} a.
Arguments Failed {A} e.

Record ConfigParam : Type := mkConfigParam {
  env_vars : list string;
  allow_file_config : bool;
  default_ : config_value;
  tp : param_type
}.

(** [value in literals]: only a [str] is equal to a string literal. *)
Definition in_literals (value : config_value) (literals : list string) : bool :=
  match value with
  | CStr s => existsb (String.eqb s) literals
  | _ => false
  end.

Definition _check_literal (value : config_value) (name : string) (literals : list string)
  : loaded config_value :=
  match value with
  | CNone => Loaded CNone
  | _ =>
      if negb (in_literals value literals) then
        Failed (LogfireConfigError name (TLiteral literals) value)
      else Loaded value
  end.

Definition _check_bool (value : config_value) (name : string) : loaded config_value :=
  match value with
  | CNone => Loaded CNone
  | CBool b => Loaded (CBool b)
  | CStr s =>
      if existsb (String.eqb (lower s)) ["1"; "true"; "t"] then Loaded (CBool true)
      else if existsb (String.eqb (lower s)) ["0"; "false"; "f"] then Loaded (CBool false)
      else Failed (LogfireConfigError name TBool value)
  | _ => Failed (LogfireConfigError name TBool value)
  end.

Definition _extract_set_of_str (value : config_value) : config_value :=
  match value with
  | CStr s => CSet (list_to_set (map strip (split_comma s)))
  | _ => value
  end.

(** [Path(value)]: of a string or of a path; [TypeError] otherwise. *)
Definition Path (value : config_value) : loaded config_value :=
  match value with
  | CStr s => Loaded (CPath s)
  | CPath p => Loaded (CPath p)
  | _ => Failed (PathTypeError value)
  end.

Definition _cast (value : config_value) (name : string) (tp : param_type)
  : loaded config_value :=
  match tp with
  | TStr => Loaded value
  | TLiteral literals => _check_literal value name literals
  | TBool => _check_bool value name
  | TPath => Path value
  | TSetStr => Loaded (_extract_set_of_str value)
  | TOther _ => Failed (UnexpectedType tp)
  end.

(** The two names [_config_params.py] imports: the default base URL and
    the literals of [ConsoleColorsValues]. *)
Class ConfigConstants : Type := {
  LOGFIRE_BASE_URL : string;
  ConsoleColorsValues : list string
}.

Definition ShowSummaryValues : list string := ["always"; "never"; "new-project"].

Section ConfigParams.
Context {K : ConfigConstants}.

Definition BASE_URL : ConfigParam :=
  mkConfigParam ["LOGFIRE_BASE_URL"; "OTEL_EXPORTER_OTLP_ENDPOINT"] true
    (CStr LOGFIRE_BASE_URL) TStr.
Definition SEND_TO_LOGFIRE : ConfigParam :=
  mkConfigParam ["LOGFIRE_SEND_TO_LOGFIRE"] true (CBool true) TBool.
Definition TOKEN : ConfigParam :=
  mkConfigParam ["LOGFIRE_TOKEN"] false CNone TStr.
Definition PROJECT_NAME : ConfigParam :=
  mkConfigParam ["LOGFIRE_PROJECT_NAME"] true CNone TStr.
Definition SERVICE_NAME : ConfigParam :=
  mkConfigParam ["LOGFIRE_SERVICE_NAME"; "OTEL_SERVICE_NAME"] true (CStr "unknown") TStr.
Definition SERVICE_VERSION : ConfigParam :=
  mkConfigParam ["LOGFIRE_SERVICE_VERSION"; "OTEL_SERVICE_VERSION"] true CNone TStr.
Definition SHOW_SUMMARY : ConfigParam :=
  mkConfigParam ["LOGFIRE_SHOW_SUMMARY"] true (CStr "new-project") (TLiteral ShowSummaryValues).
Definition CREDENTIALS_DIR : ConfigParam :=
  mkConfigParam ["LOGFIRE_CREDENTIALS_DIR"] true (CStr ".logfire") TPath.
Definition LOGFIRE_EXPORTER_FALLBACK_TO_LOCAL_FILE : ConfigParam :=
  mkConfigParam ["LOGFIRE_EXPORTER_FALLBACK_TO_LOCAL_FILE"] true (CBool true) TBool.
Definition COLLECT_SYSTEM_METRICS : ConfigParam :=
  mkConfigParam ["LOGFIRE_COLLECT_SYSTEM_METRICS"] true (CBool true) TBool.
Definition CONSOLE_ENABLED : ConfigParam :=
  mkConfigParam ["LOGFIRE_CONSOLE_ENABLED"] true (CBool true) TBool.
Definition CONSOLE_COLORS : ConfigParam :=
  mkConfigParam ["LOGFIRE_CONSOLE_COLORS"] true (CStr "auto") (TLiteral ConsoleColorsValues).
Definition CONSOLE_INDENT_SPAN : ConfigParam :=
  mkConfigParam ["LOGFIRE_CONSOLE_INDENT_SPAN"] true (CBool true) TBool.
Definition CONSOLE_INCLUDE_TIMESTAMP : ConfigParam :=
  mkConfigParam ["LOGFIRE_CONSOLE_INCLUDE_TIMESTAMP"] true (CBool true) TBool.
Definition CONSOLE_VERBOSE : ConfigParam :=
  mkConfigParam ["LOGFIRE_CONSOLE_VERBOSE"] true (CBool false) TBool.
Definition DISABLE_PYDANTIC_PLUGIN : ConfigParam :=
  mkConfigParam ["LOGFIRE_DISABLE_PYDANTIC_PLUGIN"] true (CBool false) TBool.
Definition PYDANTIC_PLUGIN_INCLUDE : ConfigParam :=
  mkConfigParam ["LOGFIRE_PYDANTIC_PLUGIN_INCLUDE"] true (CSet ∅) TSetStr.
Definition PYDANTIC_PLUGIN_EXCLUDE : ConfigParam :=
  mkConfigParam ["LOGFIRE_PYDANTIC_PLUGIN_EXCLUDE"] true (CSet ∅) TSetStr.

Definition CONFIG_PARAMS : dict ConfigParam :=
  [("base_url", BASE_URL);
   ("send_to_logfire", SEND_TO_LOGFIRE);
   ("token", TOKEN);
   ("project_name", PROJECT_NAME);
   ("service_name", SERVICE_NAME);
   ("service_version", SERVICE_VERSION);
   ("show_summary", SHOW_SUMMARY);
   ("data_dir", CREDENTIALS_DIR);
   ("exporter_fallback_to_local_file", LOGFIRE_EXPORTER_FALLBACK_TO_LOCAL_FILE);
   ("collect_system_metrics", COLLECT_SYSTEM_METRICS);
   ("console_enabled", CONSOLE_ENABLED);
   ("console_colors", CONSOLE_COLORS);
   ("console_indent_span", CONSOLE_INDENT_SPAN);
   ("console_include_timestamp", CONSOLE_INCLUDE_TIMESTAMP);
   ("console_verbose", CONSOLE_VERBOSE);
   ("disable_pydantic_plugin", DISABLE_PYDANTIC_PLUGIN);
   ("pydantic_plugin_include", PYDANTIC_PLUGIN_INCLUDE);
   ("pydantic_plugin_exclude", PYDANTIC_PLUGIN_EXCLUDE)].

(** The loop of [load_param] over [param.env_vars], in an environment
    [environ] ([os.getenv]): the first variable that is set decides;
    [otherwise] is what follows the loop. *)
Fixpoint load_from_env (environ : gmap string string) (name : string) (tp : param_type)
  (env_vars : list string) (otherwise : loaded config_value) : loaded config_value :=
  match env_vars with
  | [] => otherwise
  | env_var :: rest =>
      match environ !! env_var with
      | Some value => _cast (CStr value) name tp
      | None => load_from_env environ name tp rest otherwise
      end
  end.

(** [ParamManager.load_param]; [config_from_file] is the field of the
    manager. *)
Definition load_param (config_from_file : gmap string config_value)
  (environ : gmap string string) (name : string) (runtime : config_value)
  : loaded config_value :=
  match runtime with
  | CNone =>
      match dict_get name CONFIG_PARAMS with
      | None => Failed (UnknownParam name)
      | Some param =>
          load_from_env environ name (tp param) (env_vars param)
            (match (if allow_file_config param then config_from_file !! name else None) with
             | Some CNone | None => _cast (default_ param) name (tp param)
             | Some value => _cast value name (tp param)
             end)
      end
  | _ => Loaded runtime
  end.

End ConfigParams.

(** A value of the type a parameter declares, for the types [_cast]
    checks: a [bool], one of the literals, a [Path].  ([str] and
    [Set[str]] parameters are not checked.) *)
Definition well_typed (v : config_value) (tp : param_type) : Prop :=
  match tp with
  | TBool => exists b, v = CBool b
  | TLiteral literals => exists s, v = CStr s /\ s ∈ literals
  | TPath => exists path, v = CPath path
  | _ => True
  end.

(** The literals of [ConsoleColorsValues] as the console exporter
    declares them, and a base URL, for concrete runs. *)
Definition example_config_constants : ConfigConstants := {|
  LOGFIRE_BASE_URL := "https://api.logfire.dev";
  ConsoleColorsValues := ["auto"; "always"; "never"]
|}.

(** * Properties *)

(** ** Dictionaries *)

Section DictFacts.
Context {V : Type}.
Implicit Types (d : dict V) (k : string) (v : V).

Lemma dict_get_None k d : dict_get k d = None <-> k ∉ keys d.
Proof.
  induction d as [|[k' v'] d IH]; simpl.
  - split; [intros _; apply not_elem_of_nil | done].
  - destruct (String.eqb_spec k k') as [->|Hne].
    + split; [done | intros Hn; exfalso; apply Hn; left].
    + rewrite IH, not_elem_of_cons. tauto.
Qed.

Lemma dict_get_Some_elem k v d : dict_get k d = Some v -> (k, v) ∈ d.
Proof.
  induction d as [|[k' v'] d IH]; simpl; [done|].
  destruct (String.eqb_spec k k') as [->|Hne].
  - intros [= ->]. left.
  - intros Hd. right. auto.
Qed.

Lemma dict_get_elem k v d : NoDup (keys d) -> (k, v) ∈ d -> dict_get k d = Some v.
Proof.
  induction d as [|[k' v'] d IH]; simpl; intros Hnd Hin.
  - by apply elem_of_nil in Hin.
  - apply NoDup_cons in Hnd as [Hk' Hnd].
    apply elem_of_cons in Hin as [[= -> ->]|Hin].
    + by rewrite String.eqb_refl.
    + destruct (String.eqb_spec k k') as [->|Hne]; [|auto].
      exfalso. apply Hk'. unfold keys. apply list_elem_of_fmap. by exists (k', v).
Qed.

Lemma dict_get_set_eq k v d : dict_get k (dict_set k v d) = Some v.
Proof.
  induction d as [|[k' v'] d IH]; simpl.
  - by rewrite String.eqb_refl.
  - destruct (String.eqb_spec k k') as [->|Hne]; simpl.
    + by rewrite String.eqb_refl.
    + by destruct (String.eqb_spec k k').
Qed.

Lemma dict_get_set_ne k k' v d : k ≠ k' -> dict_get k' (dict_set k v d) = dict_get k' d.
Proof.
  intros Hne. induction d as [|[k0 v0] d IH]; simpl.
  - by destruct (String.eqb_spec k' k) as [->|].
  - destruct (String.eqb_spec k k0) as [->|Hne0]; simpl.
    + by destruct (String.eqb_spec k' k0) as [->|].
    + by rewrite IH.
Qed.

Lemma keys_dict_set k v d :
  keys (dict_set k v d) = if dict_mem k d then keys d else (keys d ++ [k])%list.
Proof.
  unfold dict_mem. induction d as [|[k' v'] d IH]; simpl; [done|].
  destruct (String.eqb_spec k k') as [->|Hne]; simpl; [done|].
  rewrite IH. by destruct (dict_get k d).
Qed.

Lemma dict_mem_true k d : dict_mem k d = true <-> k ∈ keys d.
Proof.
  unfold dict_mem. destruct (dict_get k d) eqn:Hg.
  - split; [intros _ | done].
    apply dict_get_Some_elem in Hg. unfold keys. apply list_elem_of_fmap. by exists (k, v).
  - apply dict_get_None in Hg. split; [done | intros; contradiction].
Qed.

Lemma elem_of_keys_dict_set k k' v d : k' ∈ keys (dict_set k v d) <-> k' = k ∨ k' ∈ keys d.
Proof.
  rewrite keys_dict_set. destruct (dict_mem k d) eqn:Hm.
  - apply dict_mem_true in Hm. split; [intros ?; by right | by intros [->|?]].
  - rewrite elem_of_app, list_elem_of_singleton. tauto.
Qed.

Lemma NoDup_keys_dict_set k v d : NoDup (keys d) -> NoDup (keys (dict_set k v d)).
Proof.
  intros Hnd. rewrite keys_dict_set. destruct (dict_mem k d) eqn:Hm; [done|].
  apply NoDup_app. split_and!; [done| |apply NoDup_singleton].
  intros x Hx ->%list_elem_of_singleton.
  apply dict_mem_true in Hx. congruence.
Qed.

Lemma Forall_dict_set (P : string * V -> Prop) k v d :
  P (k, v) -> (forall k' v', P (k', v') -> P (k', v)) -> Forall P d -> Forall P (dict_set k v d).
Proof.
  intros HP Hrepl. induction 1 as [|[k' v'] d Hx Hd IH]; simpl.
  - by constructor.
  - destruct (String.eqb_spec k k') as [->|Hne]; constructor; eauto.
Qed.

Lemma keys_dict_without key d : keys (dict_without key d) = filter (fun k => k ≠ key) (keys d).
Proof.
  unfold dict_without, keys. induction d as [|[k v] d IH]; [done|].
  rewrite fmap_cons, !filter_cons. simpl. destruct (decide (k ≠ key)); simpl; by rewrite IH.
Qed.

Lemma dict_get_without_eq key d : dict_get key (dict_without key d) = None.
Proof.
  apply dict_get_None. rewrite keys_dict_without, list_elem_of_filter. tauto.
Qed.

Lemma dict_get_without_ne key k d : k ≠ key -> dict_get k (dict_without key d) = dict_get k d.
Proof.
  intros Hne. unfold dict_without. induction d as [|[k' v'] d IH]; [done|].
  rewrite filter_cons. simpl. destruct (decide (k' ≠ key)) as [Hk|Hk]; simpl.
  - by rewrite IH.
  - apply dec_stable in Hk. subst k'. rewrite IH.
    by destruct (String.eqb_spec k key).
Qed.

End DictFacts.

(** ** Tags: [uniquify_sequence] and [_merge_tags_into_attributes] *)

Section UniquifyFacts.
Context {T : Type} `{Countable T}.
Implicit Types (seq : list T) (seen : gset T).

Lemma dedup_first_filter (P : T -> Prop) `{!forall x, Decision (P x)} seq :
  dedup_first (filter P seq) = filter P (dedup_first seq).
Proof.
  induction seq as [|x seq IH]; [done|].
  rewrite filter_cons. simpl. destruct (decide (P x)) as [HP|HP]; simpl.
  - rewrite filter_cons_True by done. f_equal.
    rewrite IH, !list_filter_filter. apply list_filter_iff. tauto.
  - rewrite filter_cons_False by done. rewrite IH.
    rewrite list_filter_filter. apply list_filter_iff.
    intros y. split; [|tauto]. intros HPy. split; [done|]. by intros ->.
Qed.

(** The loop with its [seen] set computes the first occurrences of the
    elements that were not seen before. *)
Lemma uniquify_loop_dedup seen seq :
  uniquify_loop seen seq = dedup_first (filter (fun x => x ∉ seen) seq).
Proof.
  revert seen. induction seq as [|x seq IH]; intros seen; [done|].
  simpl. rewrite filter_cons. destruct (decide (x ∈ seen)) as [Hin|Hin].
  - rewrite decide_False by tauto. apply IH.
  - rewrite decide_True by done. simpl. f_equal.
    rewrite IH, <- dedup_first_filter, list_filter_filter. f_equal.
    apply list_filter_iff. intros y. rewrite elem_of_union, elem_of_singleton. tauto.
Qed.

Lemma uniquify_sequence_dedup seq : uniquify_sequence seq = dedup_first seq.
Proof.
  unfold uniquify_sequence. rewrite uniquify_loop_dedup. f_equal.
  induction seq as [|x seq IH]; [done|].
  rewrite filter_cons_True by apply not_elem_of_empty. by rewrite IH.
Qed.

Lemma elem_of_dedup_first x seq : x ∈ dedup_first seq <-> x ∈ seq.
Proof.
  induction seq as [|y seq IH]; [done|].
  simpl. rewrite !elem_of_cons, list_elem_of_filter, IH.
  destruct (decide (x = y)); tauto.
Qed.

Lemma NoDup_dedup_first seq : NoDup (dedup_first seq).
Proof.
  induction seq as [|y seq IH]; simpl; [constructor|].
  apply NoDup_cons. split.
  - rewrite list_elem_of_filter. tauto.
  - by apply NoDup_filter.
Qed.

(** The elements of a prefix keep their places: what comes after them
    are the new elements of the rest. *)
Lemma dedup_first_app seq1 seq2 :
  dedup_first (seq1 ++ seq2) = (dedup_first seq1 ++ filter (fun x => x ∉ seq1) (dedup_first seq2))%list.
Proof.
  induction seq1 as [|y seq1 IH]; simpl.
  - symmetry. induction (dedup_first seq2) as [|z l IHl]; [done|].
    rewrite filter_cons_True by apply not_elem_of_nil. by rewrite IHl.
  - f_equal. rewrite IH, filter_app. f_equal.
    rewrite list_filter_filter. apply list_filter_iff.
    intros x. rewrite not_elem_of_cons. tauto.
Qed.

Lemma dedup_first_nil seq : dedup_first seq = [] <-> seq = [].
Proof. destruct seq; simpl; split; congruence. Qed.

End UniquifyFacts.

Example uniquify_sequence_example :
  uniquify_sequence ["a"; "b"; "a"; "c"; "b"] = ["a"; "b"; "c"].
Proof. vm_compute. reflexivity. Qed.

Section MergeTagsFacts.
Context {C : Constants}.

(** C5.  Tag merge.  For an attribute dictionary whose tag attribute is
    [a] (absent, or a list of tags) and scope tags [b], the merge
    succeeds and returns the first-occurrence deduplication of [a ++ b]:
    it has no duplicates, holds exactly the tags of [a ++ b], starts with
    the deduplicated tags of [a] followed by the new tags of [b], and is
    [None] exactly when [a ++ b] is empty; merging no attribute with no
    scope tags gives [None]. *)
Theorem merge_tags_dedup (attributes : dict pyval) (a : option (list string))
  (b : list string) :
  dict_get ATTRIBUTES_TAGS_KEY attributes = VList <$> a ->
  let merged := (default [] a ++ b)%list in
  exists tags attributes',
    _merge_tags_into_attributes attributes b = Ok (tags, attributes') /\
    tags = (if decide (merged = []) then None else Some (dedup_first merged)) /\
    (tags = None <-> merged = []) /\
    (forall t, tags = Some t ->
       NoDup t /\ (forall x, x ∈ t <-> x ∈ merged) /\
       t = (dedup_first (default [] a)
            ++ filter (fun x => x ∉ default [] a) (dedup_first b))%list) /\
    (a = None -> b = [] -> tags = None).
Proof.
  intros Hget merged.
  assert (Hres : exists attributes',
             _merge_tags_into_attributes attributes b
             = Ok (match merged with
                   | [] => None
                   | _ :: _ => Some (uniquify_sequence merged)
                   end, attributes')).
  { unfold _merge_tags_into_attributes. rewrite Hget.
    destruct a as [l|]; simpl; subst merged; simpl.
    - destruct (l ++ b)%list; eauto.
    - destruct b; eauto. }
  destruct Hres as [attributes' Hres].
  eexists _, attributes'. split; [exact Hres|].
  assert (Htags : match merged with
                  | [] => None
                  | _ :: _ => Some (uniquify_sequence merged)
                  end
                  = if decide (merged = []) then None else Some (dedup_first merged)).
  { rewrite uniquify_sequence_dedup. by destruct merged. }
  rewrite Htags. clear Hres Htags.
  destruct (decide (merged = [])) as [Hm|Hm]; split_and!; try done.
  - intros t [= <-]. split_and!.
    + apply NoDup_dedup_first.
    + intros y. apply elem_of_dedup_first.
    + apply dedup_first_app.
  - intros -> ->. by destruct Hm.
Qed.

End MergeTagsFacts.

Lemma merge_tags_dedup_witness :
  exists attributes',
    _merge_tags_into_attributes (C := example_constants)
      [("x", VInt 1); ("logfire.tags", VList ["a"; "b"])] ["b"; "c"; "a"]
    = Ok (Some ["a"; "b"; "c"], attributes').
Proof.
  destruct (merge_tags_dedup (C := example_constants)
              [("x", VInt 1); ("logfire.tags", VList ["a"; "b"])]
              (Some ["a"; "b"]) ["b"; "c"; "a"] eq_refl)
    as (tags & attributes' & Hrun & Htags & _).
  exists attributes'. rewrite Hrun, Htags. reflexivity.
Defined.

(** ** Attribute encoding: [user_attributes] *)

Lemma with_warnings_nil w : with_warnings w [] = w.
Proof. destruct w. unfold with_warnings. simpl. by rewrite app_nil_r. Qed.

Lemma with_warnings_app w ws1 ws2 :
  with_warnings (with_warnings w ws1) ws2 = with_warnings w (ws1 ++ ws2).
Proof. unfold with_warnings. simpl. by rewrite app_assoc. Qed.

Lemma elem_of_null_keys (m : dict pyval) k :
  NoDup (keys m) -> k ∈ null_keys m <-> dict_get k m = Some VNone.
Proof.
  intros Hnd. unfold null_keys, keys. rewrite list_elem_of_fmap. split.
  - intros ([k' v] & -> & [Hv Hin]%list_elem_of_filter). simpl in *.
    destruct v; try done. by apply dict_get_elem.
  - intros Hget%dict_get_Some_elem. exists (k, VNone). split; [done|].
    by apply list_elem_of_filter.
Qed.

Lemma elem_of_keys_non_null (m : dict pyval) k :
  NoDup (keys m) -> k ∈ keys (non_null m) ->
  exists v, dict_get k m = Some v /\ is_None v = false.
Proof.
  intros Hnd. unfold non_null, keys. rewrite list_elem_of_fmap.
  intros ([k' v] & -> & [Hv Hin]%list_elem_of_filter). simpl in *.
  exists v. split; [by apply dict_get_elem|]. by destruct (is_None v).
Qed.

Lemma NoDup_null_keys (m : dict pyval) : NoDup (keys m) -> NoDup (null_keys m).
Proof.
  unfold null_keys, keys. induction m as [|[k v] m IH]; [done|].
  rewrite fmap_cons, filter_cons. simpl. intros [Hk Hnd]%NoDup_cons.
  destruct (decide (is_None v)); [|auto].
  rewrite fmap_cons. apply NoDup_cons. split; [|auto].
  intros ([k' v'] & Heq & [_ Hin]%list_elem_of_filter)%list_elem_of_fmap.
  simpl in Heq. subst k'. apply Hk. apply list_elem_of_fmap. by exists (k, v').
Qed.

Section EncodingFacts.
Context {C : Constants} {E : Externals}.

(** An entry that is not [None] is written to [prepared] as a primitive
    value, with at most one warning; the call goes on. *)
Lemma user_attributes_step_value prepared null_args key value w :
  is_None value = false ->
  exists v' ws,
    user_attributes_step (prepared, null_args) (key, value) w
    = (with_warnings w ws, Ok (dict_set key v' prepared, null_args)) /\
    is_primitive v' = true.
Proof.
  intros Hv. unfold user_attributes_step.
  destruct value as [|b|z|f|s|l|l|h]; try discriminate Hv.
  - destruct (Z.b2z b >? OTLP_MAX_INT_SIZE).
    + eexists _, [_]. split; [reflexivity|done].
    + eexists _, []. rewrite with_warnings_nil. split; [reflexivity|done].
  - destruct (z >? OTLP_MAX_INT_SIZE).
    + eexists _, [_]. split; [reflexivity|done].
    + eexists _, []. rewrite with_warnings_nil. split; [reflexivity|done].
  - eexists _, []. rewrite with_warnings_nil. split; [reflexivity|done].
  - eexists _, []. rewrite with_warnings_nil. split; [reflexivity|done].
  - eexists _, []. rewrite with_warnings_nil. split; [reflexivity|done].
  - eexists _, []. rewrite with_warnings_nil. split; [reflexivity|done].
  - eexists _, []. rewrite with_warnings_nil. split; [reflexivity|done].
Qed.

(** The loop never raises.  It appends the null keys of the items to
    [null_args] in order, and binds in [prepared] the keys of the other
    items, to primitive values. *)
Lemma user_attributes_loop_spec items prepared null_args w :
  exists prepared' ws,
    user_attributes_loop items (prepared, null_args) w
    = (with_warnings w ws, Ok (prepared', (null_args ++ null_keys items)%list)) /\
    (Forall (fun kv => is_primitive (snd kv)) prepared ->
     Forall (fun kv => is_primitive (snd kv)) prepared') /\
    (forall k, k ∈ keys prepared' <-> k ∈ keys prepared \/ k ∈ keys (non_null items)) /\
    (NoDup (keys prepared) -> NoDup (keys prepared')).
Proof.
  revert prepared null_args w.
  induction items as [|[key value] items IH]; intros prepared null_args w.
  - exists prepared, []. rewrite with_warnings_nil. unfold null_keys, non_null. simpl.
    rewrite app_nil_r. split_and!; try done.
    intros k. rewrite elem_of_nil. tauto.
  - cbn [user_attributes_loop]. unfold bind at 1.
    destruct (is_None value) eqn:Hv.
    + destruct value; try discriminate Hv. cbn [user_attributes_step ret].
      destruct (IH prepared (null_args ++ [key])%list w)
        as (prepared' & ws & Hrun & Hprim & Hkeys & Hnd).
      exists prepared', ws. rewrite Hrun. unfold null_keys, non_null in *.
      rewrite filter_cons_True by done. rewrite filter_cons_False by (simpl; tauto).
      simpl. rewrite <- app_assoc. by split_and!.
    + destruct (user_attributes_step_value prepared null_args key value w Hv)
        as (v' & ws1 & Hstep & Hv').
      rewrite Hstep.
      destruct (IH (dict_set key v' prepared) null_args (with_warnings w ws1))
        as (prepared' & ws & Hrun & Hprim & Hkeys & Hnd).
      exists prepared', (ws1 ++ ws)%list. rewrite Hrun, with_warnings_app.
      unfold null_keys, non_null in *.
      rewrite filter_cons_False by (simpl; rewrite Hv; tauto).
      rewrite filter_cons_True by (simpl; rewrite Hv; tauto).
      split_and!; [done| | |].
      * intros Hp. apply Hprim.
        apply Forall_dict_set; [by simpl; rewrite Hv'|by intros; simpl; rewrite Hv'|done].
      * intros k. rewrite Hkeys, elem_of_keys_dict_set. simpl.
        rewrite elem_of_cons. tauto.
      * intros Hp. apply Hnd. by apply NoDup_keys_dict_set.
Qed.

(** C4.  Null arguments.  For every attribute dictionary [m] the
    encoding succeeds; no value of the result is [None]; the result binds
    the null-args key to a tuple exactly when [m] binds some key to
    [None], and that tuple is then the tuple of the keys of [m] bound to
    [None], each once, in the order of [m]; a key bound to [None] is not
    written to the primary map [prepared], and is absent from the result
    unless it is the null-args key itself; the keys of the result are
    unique. *)
Theorem user_attributes_null_args (m : dict pyval) (w : World) :
  NoDup (keys m) ->
  exists ws prepared encoded,
    user_attributes_loop m ([], []) w = (with_warnings w ws, Ok (prepared, null_keys m)) /\
    user_attributes m w = (with_warnings w ws, Ok encoded) /\
    (forall k v, dict_get k encoded = Some v -> v ≠ VNone) /\
    ((exists l, dict_get NULL_ARGS_KEY encoded = Some (VTuple l))
     <-> (exists k, dict_get k m = Some VNone)) /\
    ((exists k, dict_get k m = Some VNone) ->
     dict_get NULL_ARGS_KEY encoded = Some (VTuple (null_keys m))) /\
    (forall k, k ∈ null_keys m <-> dict_get k m = Some VNone) /\
    NoDup (null_keys m) /\
    (forall k, dict_get k m = Some VNone ->
       dict_get k prepared = None /\ (k ≠ NULL_ARGS_KEY -> dict_get k encoded = None)) /\
    NoDup (keys encoded).
Proof.
  intros Hnd.
  destruct (user_attributes_loop_spec m [] [] w) as (prepared & ws & Hrun & Hprim & Hkeys & Hnd').
  simpl in Hrun.
  assert (Hp : forall k v, dict_get k prepared = Some v -> is_primitive v = true).
  { intros k v Hget%dict_get_Some_elem.
    specialize (Hprim (List.Forall_nil _)). rewrite Forall_forall in Hprim.
    specialize (Hprim _ Hget). simpl in Hprim. by destruct (is_primitive v). }
  assert (Habsent : forall k, dict_get k m = Some VNone -> dict_get k prepared = None).
  { intros k Hget. apply dict_get_None. rewrite Hkeys. intros [Hin|Hin].
    - by apply elem_of_nil in Hin.
    - apply elem_of_keys_non_null in Hin as (v & Hget' & Hv); [|done].
      rewrite Hget in Hget'. by injection Hget' as <-. }
  pose proof (fun k => elem_of_null_keys m k Hnd) as Hnull.
  exists ws, prepared.
  unfold user_attributes, bind. rewrite Hrun.
  destruct (null_keys m) as [|k0 l] eqn:Hnk.
  - assert (Hnone : forall k, dict_get k m ≠ Some VNone).
    { intros k Hget%Hnull. by apply elem_of_nil in Hget. }
    exists prepared. split_and!.
    + done.
    + done.
    + intros k v Hget%Hp ->. done.
    + split.
      * intros [l' Hget%Hp]. done.
      * intros [k Hget]. by destruct (Hnone k).
    + intros [k Hget]. by destruct (Hnone k).
    + apply Hnull.
    + constructor.
    + intros k Hget. by destruct (Hnone k).
    + apply Hnd'. constructor.
  - exists (dict_set NULL_ARGS_KEY (VTuple (k0 :: l)) prepared).
    assert (Hsome : exists k, dict_get k m = Some VNone).
    { exists k0. apply Hnull. left. }
    split_and!.
    + done.
    + done.
    + intros k v. destruct (decide (NULL_ARGS_KEY = k)) as [<-|Hne].
      * rewrite dict_get_set_eq. by intros [= <-].
      * rewrite dict_get_set_ne by done. intros Hget%Hp ->. done.
    + rewrite dict_get_set_eq. split; eauto.
    + intros _. apply dict_get_set_eq.
    + apply Hnull.
    + rewrite <- Hnk. by apply NoDup_null_keys.
    + intros k Hget. split; [auto|]. intros Hne.
      rewrite dict_get_set_ne by done. auto.
    + apply NoDup_keys_dict_set. apply Hnd'. constructor.
Qed.

End EncodingFacts.

Lemma user_attributes_null_args_witness :
  exists w,
    user_attributes (C := example_constants) (E := example_externals)
      [("a", VNone); ("b", VInt 3); ("c", VNone)] empty_world
    = (w, Ok [("b", VInt 3); ("logfire.null_args", VTuple ["a"; "c"])]).
Proof.
  assert (Hnd : NoDup (keys [("a", VNone); ("b", VInt 3); ("c", VNone)]))
    by (apply (bool_decide_unpack _); vm_compute; exact I).
  destruct (user_attributes_null_args (C := example_constants) (E := example_externals)
              [("a", VNone); ("b", VInt 3); ("c", VNone)] empty_world Hnd)
    as (ws & prepared & encoded & _ & Hrun & _).
  exists (with_warnings empty_world ws).
  rewrite Hrun. vm_compute in Hrun. injection Hrun as _ <-. reflexivity.
Defined.

(** The numeral [str] gives for an integer reads back as that integer. *)
Lemma str_int_exact (z : Z) :
  exists d, NilZero.int_of_string (str_int z) = Some d /\ Z.of_int d = z.
Proof.
  exists (Z.to_int z). split; [|apply DecimalZ.of_to].
  unfold str_int. apply NilZero.isi; destruct z; simpl; try discriminate.
  - intros [= Hp]. by apply DecimalPos.Unsigned.to_uint_nonnil in Hp.
  - intros [= Hp]. by apply DecimalPos.Unsigned.to_uint_nonnil in Hp.
Qed.

Section IntegerFacts.
Context {C : Constants} {E : Externals}.

Lemma dict_set_fresh {V} (k : string) (v : V) (d : dict V) :
  k ∉ keys d -> dict_set k v d = (d ++ [(k, v)])%list.
Proof.
  induction d as [|[k' v'] d IH]; simpl; [done|].
  intros [Hne Hk]%not_elem_of_cons.
  destruct (String.eqb_spec k k'); [done|]. by rewrite IH.
Qed.

Lemma user_attributes_step_exact prepared null_args key value w :
  is_None value = false ->
  user_attributes_step (prepared, null_args) (key, value) w
  = (with_warnings w (oversize_warnings value),
     Ok (dict_set key (encode_value value) prepared, null_args)).
Proof.
  intros Hv. unfold user_attributes_step, encode_value, oversize_warnings.
  destruct value as [|b|z|f|s|l|l|h]; try discriminate Hv;
    try (by rewrite with_warnings_nil).
  - by destruct (Z.b2z b >? OTLP_MAX_INT_SIZE); [|rewrite with_warnings_nil].
  - by destruct (z >? OTLP_MAX_INT_SIZE); [|rewrite with_warnings_nil].
Qed.

Lemma user_attributes_loop_exact items prepared null_args w :
  NoDup (keys prepared ++ keys items) ->
  user_attributes_loop items (prepared, null_args) w
  = (with_warnings w (flat_map (fun kv => oversize_warnings (snd kv)) items),
     Ok ((prepared ++ map (fun kv => (fst kv, encode_value (snd kv))) (non_null items))%list,
         (null_args ++ null_keys items)%list)).
Proof.
  revert prepared null_args w.
  induction items as [|[key value] items IH]; intros prepared null_args w Hnd.
  - simpl. unfold ret, null_keys, non_null. simpl.
    by rewrite with_warnings_nil, !app_nil_r.
  - cbn [user_attributes_loop]. unfold bind at 1. unfold keys in Hnd. simpl in Hnd.
    apply NoDup_app in Hnd as (Hp & Hdisj & [Hkey Hitems]%NoDup_cons).
    destruct (is_None value) eqn:Hv.
    + destruct value; try discriminate Hv. cbn [user_attributes_step ret].
      rewrite IH.
      * unfold null_keys, non_null. rewrite !filter_cons. simpl.
        by rewrite <- app_assoc.
      * apply NoDup_app. split_and!; [done| |done].
        intros x Hx Hx'. apply (Hdisj x Hx). by right.
    + rewrite user_attributes_step_exact by done.
      assert (Hfresh : key ∉ keys prepared).
      { intros Hin. apply (Hdisj key Hin). by left. }
      rewrite dict_set_fresh by done.
      rewrite IH.
      * unfold null_keys, non_null. rewrite !filter_cons. simpl. rewrite Hv. simpl.
        by rewrite with_warnings_app, <- app_assoc.
      * unfold keys. rewrite fmap_app. simpl. rewrite <- app_assoc. simpl.
        apply NoDup_app. split_and!; [done| |by apply NoDup_cons].
        intros x Hx Hx'. by apply (Hdisj x Hx).
Qed.

(** The encoding of a dictionary, in one equation: the entries that are
    not [None], encoded one by one and in order, followed by the
    null-args entry when some entry is [None]; the warnings are those of
    the oversized integers, in order. *)
Lemma user_attributes_exact (m : dict pyval) (w : World) :
  NoDup (keys m) ->
  user_attributes m w
  = (with_warnings w (flat_map (fun kv => oversize_warnings (snd kv)) m),
     Ok (let prepared := map (fun kv => (fst kv, encode_value (snd kv))) (non_null m) in
         match null_keys m with
         | [] => prepared
         | key :: rest => dict_set NULL_ARGS_KEY (VTuple (key :: rest)) prepared
         end)).
Proof.
  intros Hnd. unfold user_attributes, bind.
  rewrite user_attributes_loop_exact by done. simpl.
  by destruct (null_keys m).
Qed.

(** An integer below the signed 64-bit range passes through as well:
    only the upper bound is tested. *)
Lemma user_attributes_int_below_range (k : string) (w : World) :
  user_attributes [(k, VInt (- 2 ^ 63 - 1))] w = (w, Ok [(k, VInt (- 2 ^ 63 - 1))]).
Proof. unfold user_attributes, bind. simpl. unfold ret. reflexivity. Qed.

(** C3, as the code has it.  For every key [k] and every integer [v]
    above [2^63 - 1], the encoding of [{k: v}] succeeds, maps [k] to the
    decimal numeral of [v], which reads back as [v], and issues one
    warning; every integer of the signed 64-bit range passes through
    unchanged and without a warning. *)
Theorem user_attributes_int (k : string) (v : Z) (w : World) :
  (v > 2 ^ 63 - 1 ->
     user_attributes [(k, VInt v)] w
     = (with_warnings w [UserWarning (oversize_message (str_int v))],
        Ok [(k, VStr (str_int v))]) /\
     exists d, NilZero.int_of_string (str_int v) = Some d /\ Z.of_int d = v) /\
  (- 2 ^ 63 <= v <= 2 ^ 63 - 1 ->
     user_attributes [(k, VInt v)] w = (w, Ok [(k, VInt v)])).
Proof.
  split.
  - intros Hv. split; [|apply str_int_exact].
    unfold user_attributes, bind. simpl. unfold bind.
    change (2 ^ 63 - 1) with OTLP_MAX_INT_SIZE in Hv.
    apply Z.gtb_gt in Hv. by rewrite Hv.
  - intros [_ Hv]. unfold user_attributes, bind. simpl. unfold bind.
    change (2 ^ 63 - 1) with OTLP_MAX_INT_SIZE in Hv.
    destruct (Z.gtb_spec v OTLP_MAX_INT_SIZE); [lia|done].
Qed.

End IntegerFacts.

Lemma user_attributes_int_witness :
  user_attributes (C := example_constants) (E := example_externals)
    [("n", VInt (2 ^ 63))] empty_world
  = (with_warnings empty_world [UserWarning (oversize_message "9223372036854775808")],
     Ok [("n", VStr "9223372036854775808")])
  /\ user_attributes (C := example_constants) (E := example_externals)
       [("n", VInt (2 ^ 63 - 1))] empty_world
     = (empty_world, Ok [("n", VInt (2 ^ 63 - 1))]).
Proof.
  split.
  - destruct (user_attributes_int (C := example_constants) (E := example_externals)
                "n" (2 ^ 63) empty_world) as [Habove _].
    destruct Habove as [Hrun _]; [reflexivity|]. exact Hrun.
  - destruct (user_attributes_int (C := example_constants) (E := example_externals)
                "n" (2 ^ 63 - 1) empty_world) as [_ Hin].
    apply Hin. split; discriminate.
Defined.

(** C3 as stated does not hold.  The integer [-2^63] has an absolute
    value above [2^63 - 1]; it is in the signed 64-bit range, and the
    encoding returns it unchanged, as an integer, without a warning. *)
Lemma user_attributes_int_counterexample :
  Z.abs (- 2 ^ 63) > 2 ^ 63 - 1 /\
  user_attributes (C := example_constants) (E := example_externals)
    [("n", VInt (- 2 ^ 63))] empty_world
  = (empty_world, Ok [("n", VInt (- 2 ^ 63))]) /\
  VInt (- 2 ^ 63) ≠ VStr (str_int (- 2 ^ 63)).
Proof. split_and!; [reflexivity|reflexivity|discriminate]. Qed.

(** ** Span exit: [_exit_span] *)

Section ExitFacts.
Context {C : Constants} {E : Externals}.

Lemma sp_events_set_status st span : sp_events (Span_set_status st span) = sp_events span.
Proof. unfold Span_set_status. by destruct (is_recording span). Qed.

Lemma is_recording_set_status st span :
  is_recording (Span_set_status st span) = is_recording span.
Proof. unfold Span_set_status. by destruct (is_recording span) eqn:Hr. Qed.

Lemma is_recording_set_attribute k v span :
  is_recording (Span_set_attribute k v span) = is_recording span.
Proof. unfold Span_set_attribute. by destruct (is_recording span) eqn:Hr. Qed.

(** A span that is no longer recording is left as it is. *)
Lemma exit_span_not_recording span exc_type exc_value tb :
  is_recording span = false -> _exit_span span exc_type exc_value tb = span.
Proof. intros Hr. unfold _exit_span. by rewrite Hr. Qed.

(** C6.  Exception capture.  On a span that is still recording, exit
    with an exception of class [type_name] and message [exc_str exc]:
    when the exception is an instance of [Exception], the status becomes
    [ERROR] with the description "type_name: message" and one event for
    this exception, marked as escaped, is appended; when it is only a
    [BaseException] (a cancellation-class exception), no event is added
    and the status is set to [OK], not to [ERROR]. *)
Theorem exit_span_exception (span : Span) (type_name : string) (exc : exception)
  (tb : traceback) :
  is_recording span = true ->
  let span' := _exit_span span (Some type_name) (Some exc) tb in
  (exc_is_Exception exc = true ->
     sp_status span' = mkStatus ERROR (Some (type_name ++ ": " ++ exc_str exc)) /\
     exists attributes,
       sp_events span' = (sp_events span ++ [mkEvent exc attributes true])%list) /\
  (exc_is_Exception exc = false ->
     sp_status span' = OK_STATUS /\
     status_code (sp_status span') ≠ ERROR /\
     sp_events span' = sp_events span).
Proof.
  intros Hr span'. subst span'.
  destruct span as [nm attrs st evs t0 [t1|]]; [discriminate Hr|]. clear Hr.
  unfold _exit_span. simpl. split.
  - intros ->. destruct (exc_validation_json exc) as [err_json|]; simpl.
    + split; [reflexivity|]. eexists. reflexivity.
    + split; [reflexivity|]. eexists. reflexivity.
  - intros ->. simpl. done.
Qed.

(** The same through the scope exit of a [LogfireSpan] that is active
    and whose span still records: the span leaves with the error status,
    and the exception event is on it. *)
Lemma exit_scope_exception (self : LogfireSpan.t) (token : nat) (span : Span)
  (type_name : string) (exc : exception) (tb : traceback) (w : World) :
  LogfireSpan._token self = Some token ->
  LogfireSpan._span self = Some span ->
  is_recording span = true ->
  exc_is_Exception exc = true ->
  exists w' self' span' attributes,
    LogfireSpan.__exit__ self (Some type_name) (Some exc) tb w = (w', Ok self') /\
    LogfireSpan._token self' = None /\
    LogfireSpan._span self' = Some span' /\
    sp_status span' = mkStatus ERROR (Some (type_name ++ ": " ++ exc_str exc)) /\
    sp_events span' = (sp_events span ++ [mkEvent exc attributes true])%list.
Proof.
  intros Htoken Hspan Hr Hexc.
  destruct (exit_span_exception span type_name exc tb Hr) as [Herr _].
  destruct (Herr Hexc) as (Hstatus & attributes & Hevents).
  assert (Hr' : is_recording (_exit_span span (Some type_name) (Some exc) tb) = true).
  { destruct span as [nm attrs st evs t0 [t1|]]; [discriminate Hr|].
    unfold _exit_span. simpl. rewrite Hexc.
    by destruct (exc_validation_json exc). }
  unfold LogfireSpan.__exit__. rewrite Htoken. unfold bind at 1. simpl. rewrite Hspan.
  unfold bind at 1. unfold format_message.
  destruct (logfire_format _ _ _ _) as [ws msg].
  set (exited := _exit_span span (Some type_name) (Some exc) tb) in *.
  destruct exited as [nm attrs st evs t0 [t1|]] eqn:Hexited; [discriminate Hr'|].
  simpl in Hstatus, Hevents. subst st evs.
  unfold bind. destruct (LogfireSpan.end_on_exit self); simpl;
    eexists _, _, _, attributes; split_and!; reflexivity.
Qed.

End ExitFacts.

Lemma exit_span_exception_witness :
  sp_status (_exit_span (C := example_constants) (E := example_externals)
               (mkSpan "work" [] (mkStatus UNSET None) [] 0 None)
               (Some "ValueError") (Some (mkException "boom" true None)) tt)
  = mkStatus ERROR (Some "ValueError: boom").
Proof.
  pose proof (exit_span_exception (C := example_constants) (E := example_externals)
                (mkSpan "work" [] (mkStatus UNSET None) [] 0 None)
                "ValueError" (mkException "boom" true None) tt eq_refl) as [Herr _].
  destruct (Herr eq_refl) as [Hstatus _]. exact Hstatus.
Defined.

(** ** The life cycle of a [LogfireSpan]: [end] *)

Lemma Span_end_recording (span : Span) (w : World) :
  is_recording span = true ->
  exists w' span',
    Span_end None span w = (w', Ok span') /\
    is_recording span' = false /\
    sp_end_time span' = Some (w_clock w) /\
    w_finished w' = (w_finished w ++ [span'])%list /\
    w_log w' = w_log w /\ w_warnings w' = w_warnings w.
Proof.
  intros Hr. unfold Span_end. rewrite Hr.
  eexists _, _. split; [reflexivity|]. simpl. done.
Qed.

(** [__enter__] starts the span: afterwards [_span] is set. *)
Lemma enter_starts (self : LogfireSpan.t) (w : World) :
  exists w' self' span,
    LogfireSpan.__enter__ self w = (w', Ok self') /\ LogfireSpan._span self' = Some span.
Proof.
  unfold LogfireSpan.__enter__.
  destruct self as [nm attrs [token|] fa [span|] eoe]; simpl;
    eexists _, _, _; (split; [reflexivity|]); simpl; reflexivity.
Qed.

(** C7.  [end].  On a span that has been started ([_span] is set, which
    is what [__enter__] does), [end] succeeds, and a second [end] right
    after it changes nothing at all: not the span, not the spans handed
    to the span processor, not the SDK's log, not the warnings.  On a
    span that has never been started, as [__init__] leaves it, [end]
    raises [RuntimeError] and changes nothing. *)
Theorem end_twice (self : LogfireSpan.t) (w : World) :
  (forall span, LogfireSpan._span self = Some span ->
     exists w1 self1,
       LogfireSpan.end_ self w = (w1, Ok self1) /\
       LogfireSpan.end_ self1 w1 = (w1, Ok self1)) /\
  (LogfireSpan._span self = None ->
     LogfireSpan.end_ self w = (w, Raise (RuntimeError "Span has not been started"))) /\
  (forall span_name otlp_attributes format_args,
     LogfireSpan.end_ (LogfireSpan.__init__ span_name otlp_attributes format_args) w
     = (w, Raise (RuntimeError "Span has not been started"))).
Proof.
  split_and!.
  - intros span Hspan. unfold LogfireSpan.end_ at 1. rewrite Hspan.
    destruct (is_recording span) eqn:Hr.
    + destruct (Span_end_recording span w Hr) as (w' & span' & Hend & Hr' & _).
      unfold bind. rewrite Hend. eexists _, _. split; [reflexivity|].
      unfold LogfireSpan.end_. simpl. by rewrite Hr'.
    + eexists _, _. split; [reflexivity|].
      unfold LogfireSpan.end_. by rewrite Hspan, Hr.
  - intros Hspan. unfold LogfireSpan.end_. by rewrite Hspan.
  - reflexivity.
Qed.

Lemma end_twice_witness :
  exists w1 self1,
    LogfireSpan.end_
      (LogfireSpan.mk "work" [] (Some 0%nat) (mk_FormatArgs "work" [] 4)
         (Some (mkSpan "work" [] (mkStatus UNSET None) [] 0 None)) true)
      empty_world = (w1, Ok self1) /\
    LogfireSpan.end_ self1 w1 = (w1, Ok self1).
Proof.
  destruct (end_twice
              (LogfireSpan.mk "work" [] (Some 0%nat) (mk_FormatArgs "work" [] 4)
                 (Some (mkSpan "work" [] (mkStatus UNSET None) [] 0 None)) true)
              empty_world) as [Hstarted _].
  exact (Hstarted _ eq_refl).
Defined.

(** ** Usage errors *)

Lemma any_underscore_true (attributes : dict pyval) :
  Logfire.any_underscore attributes = true
  <-> exists k, k ∈ keys attributes /\ startswith k "_" = true.
Proof.
  unfold Logfire.any_underscore. rewrite existsb_exists.
  split; intros (k & Hin & Hk); exists k; (split; [|done]); by apply list_elem_of_In.
Qed.

(** C8, as the code has it.  [span] and the seven level methods raise
    [ValueError] when a key of the attributes starts with an underscore,
    and nothing else has happened by then: no warning, no span, no
    context change.  [with_trace_sample_rate] raises [ValueError] for
    every rate above [1] or below [0], and accepts every other rate, [0]
    included. *)
Theorem usage_errors_fail_fast {C : Constants} {E : Externals} (self : Logfire.t)
  (msg_template : string) (span_name : option string) (attributes : dict pyval)
  (rate : float) (w : World) :
  ((exists k, k ∈ keys attributes /\ startswith k "_" = true) ->
     let err := ValueError "Attribute keys cannot start with an underscore." in
     Logfire.span self msg_template span_name attributes w = (w, Raise err) /\
     Logfire.trace self msg_template attributes w = (w, Raise err) /\
     Logfire.debug self msg_template attributes w = (w, Raise err) /\
     Logfire.info self msg_template attributes w = (w, Raise err) /\
     Logfire.notice self msg_template attributes w = (w, Raise err) /\
     Logfire.warn self msg_template attributes w = (w, Raise err) /\
     Logfire.error self msg_template attributes w = (w, Raise err) /\
     Logfire.fatal self msg_template attributes w = (w, Raise err)) /\
  (PrimFloat.ltb 1 rate = true \/ PrimFloat.ltb rate 0 = true ->
     Logfire.with_trace_sample_rate self rate
     = Raise (ValueError "sample_rate must be between 0 and 1")) /\
  (PrimFloat.ltb 1 rate = false -> PrimFloat.ltb rate 0 = false ->
     Logfire.with_trace_sample_rate self rate
     = Ok (Logfire.mk (Logfire._tags self) (Some rate))) /\
  Logfire.with_trace_sample_rate self 0
  = Ok (Logfire.mk (Logfire._tags self) (Some 0%float)).
Proof.
  split_and!.
  - intros Hk%any_underscore_true err.
    unfold Logfire.span, Logfire.trace, Logfire.debug, Logfire.info, Logfire.notice,
      Logfire.warn, Logfire.error, Logfire.fatal.
    rewrite Hk. by split_and!.
  - unfold Logfire.with_trace_sample_rate. by intros [-> | ->]; [|rewrite orb_true_r].
  - unfold Logfire.with_trace_sample_rate. by intros -> ->.
  - reflexivity.
Qed.

Lemma usage_errors_fail_fast_witness :
  Logfire.info (C := example_constants) (E := example_externals)
    (Logfire.mk [] None) "hello" [("a", VInt 1); ("_b", VInt 2)] empty_world
  = (empty_world, Raise (ValueError "Attribute keys cannot start with an underscore."))
  /\ Logfire.with_trace_sample_rate (Logfire.mk [] None) 1.5
     = Raise (ValueError "sample_rate must be between 0 and 1")
  /\ Logfire.with_trace_sample_rate (Logfire.mk [] None) 0.5
     = Ok (Logfire.mk [] (Some 0.5%float)).
Proof.
  destruct (usage_errors_fail_fast (C := example_constants) (E := example_externals)
              (Logfire.mk [] None) "hello" None [("a", VInt 1); ("_b", VInt 2)] 1.5
              empty_world) as (Hkeys & Hout & _).
  destruct (usage_errors_fail_fast (C := example_constants) (E := example_externals)
              (Logfire.mk [] None) "hello" None [] 0.5 empty_world) as (_ & _ & Hin & _).
  split_and!.
  - apply Hkeys. exists "_b". split; [|reflexivity].
    apply list_elem_of_In. simpl. tauto.
  - apply Hout. left. reflexivity.
  - apply Hin; reflexivity.
Defined.

(** C8 as stated does not hold.  The rate [0] is outside [(0, 1]] and
    [with_trace_sample_rate] accepts it; and the public [log] raises
    nothing for a key that starts with an underscore: it emits the
    record. *)
Lemma usage_errors_counterexample :
  valid_sample_rate 0 = false /\
  Logfire.with_trace_sample_rate (Logfire.mk [] None) 0 = Ok (Logfire.mk [] (Some 0%float)) /\
  Logfire.any_underscore [("_b", VInt 2)] = true /\
  exists w span,
    Logfire.log (C := example_constants) (E := example_externals)
      (Logfire.mk [] None) "info" "hello" [("_b", VInt 2)] 0 empty_world = (w, Ok tt) /\
    w_finished w = [span] /\
    dict_get "_b" (sp_attributes span) = Some (VInt 2).
Proof.
  split_and!; try reflexivity.
  eexists _, _. split_and!; vm_compute; reflexivity.
Qed.

(** ** Sample rate *)

Section SampleRateFacts.
Context {C : Constants} {E : Externals}.

(** Without a rate on the instance, the rate found in the attributes is
    taken out, and written back unless it is [None] or [1]. *)
Lemma resolve_sample_rate_inline (self : Logfire.t) (otlp_attributes : dict pyval) :
  Logfire._sample_rate self = None ->
  dict_get ATTRIBUTES_SAMPLE_RATE_KEY (Logfire.resolve_sample_rate self otlp_attributes)
  = match dict_get ATTRIBUTES_SAMPLE_RATE_KEY otlp_attributes with
    | Some v => if negb (is_None v) && py_ne_one v then Some v else None
    | None => None
    end.
Proof.
  intros Hrate. unfold Logfire.resolve_sample_rate, dict_pop. rewrite Hrate.
  destruct (dict_get ATTRIBUTES_SAMPLE_RATE_KEY otlp_attributes) as [v|] eqn:Hget.
  - destruct (negb (is_None v) && py_ne_one v).
    + apply dict_get_set_eq.
    + apply dict_get_without_eq.
  - simpl. exact Hget.
Qed.

(** A rate on the instance other than [1] is written over whatever the
    attributes hold. *)
Lemma resolve_sample_rate_instance (self : Logfire.t) (rate : float)
  (otlp_attributes : dict pyval) :
  Logfire._sample_rate self = Some rate ->
  PrimFloat.eqb rate 1 = false ->
  dict_get ATTRIBUTES_SAMPLE_RATE_KEY (Logfire.resolve_sample_rate self otlp_attributes)
  = Some (VFloat rate).
Proof.
  intros Hrate Hne. unfold Logfire.resolve_sample_rate. rewrite Hrate. simpl.
  rewrite Hne. simpl. apply dict_get_set_eq.
Qed.

(** A rate of [1] on the instance leaves the attributes as they are: a
    rate they hold is neither taken out nor replaced. *)
Lemma resolve_sample_rate_instance_one (self : Logfire.t) (rate : float)
  (otlp_attributes : dict pyval) :
  Logfire._sample_rate self = Some rate ->
  PrimFloat.eqb rate 1 = true ->
  Logfire.resolve_sample_rate self otlp_attributes = otlp_attributes.
Proof.
  intros Hrate Heq. unfold Logfire.resolve_sample_rate. rewrite Hrate. simpl.
  by rewrite Heq.
Qed.

End SampleRateFacts.

(** C9 (the code departs from the claim).  With the rate [1] on the
    instance, which [with_trace_sample_rate] accepts, and a rate among the
    attributes, [log] and [span] emit the rate of the attributes: a rate
    of exactly [1] is emitted under the sample-rate key, and so is an
    inline [0.5] over which the instance's [1] should have had
    precedence. *)
Theorem sample_rate_one_emitted :
  let C := example_constants in
  let E := example_externals in
  forall self, Logfire.with_trace_sample_rate (Logfire.mk [] None) 1 = Ok self ->
  (exists w span,
     Logfire.log self "info" "hello" [("logfire.sample_rate", VFloat 1)] 0 empty_world
     = (w, Ok tt) /\
     w_finished w = [span] /\
     dict_get ATTRIBUTES_SAMPLE_RATE_KEY (sp_attributes span) = Some (VFloat 1)) /\
  (exists w span,
     Logfire.log self "info" "hello" [("logfire.sample_rate", VFloat 0.5)] 0 empty_world
     = (w, Ok tt) /\
     w_finished w = [span] /\
     dict_get ATTRIBUTES_SAMPLE_RATE_KEY (sp_attributes span) = Some (VFloat 0.5)) /\
  (exists w logfire_span,
     Logfire.span self "hello" None [("logfire.sample_rate", VFloat 1)] empty_world
     = (w, Ok logfire_span) /\
     dict_get ATTRIBUTES_SAMPLE_RATE_KEY (LogfireSpan._otlp_attributes logfire_span)
     = Some (VFloat 1)).
Proof.
  intros C E self [= <-].
  split_and!; eexists _, _; split_and!; vm_compute; reflexivity.
Qed.

Lemma sample_rate_one_emitted_witness :
  exists w span,
    Logfire.log (C := example_constants) (E := example_externals)
      (Logfire.mk [] (Some 1%float)) "info" "hello" [("logfire.sample_rate", VFloat 1)] 0
      empty_world = (w, Ok tt) /\
    w_finished w = [span] /\
    dict_get "logfire.sample_rate" (sp_attributes span) = Some (VFloat 1).
Proof.
  destruct (sample_rate_one_emitted (Logfire.mk [] (Some 1%float)) eq_refl) as [Hlog _].
  exact Hlog.
Defined.

(** ** Log levels *)

Section LogFacts.
Context {C : Constants} {E : Externals}.

Lemma user_attributes_total (m : dict pyval) (w : World) :
  exists ws encoded, user_attributes m w = (with_warnings w ws, Ok encoded).
Proof.
  destruct (user_attributes_loop_spec m [] [] w) as (prepared & ws & Hrun & _).
  exists ws. unfold user_attributes, bind. rewrite Hrun.
  destruct ([] ++ null_keys m)%list; eauto.
Qed.

(** The merge raises only when the tag attribute is not a list. *)
Lemma merge_tags_total (attributes : dict pyval) (tags : list string) :
  (forall v, dict_get ATTRIBUTES_TAGS_KEY attributes = Some v -> exists l, v = VList l) ->
  exists merged_tags attributes',
    _merge_tags_into_attributes attributes tags = Ok (merged_tags, attributes').
Proof.
  intros Htags. unfold _merge_tags_into_attributes.
  destruct (dict_get ATTRIBUTES_TAGS_KEY attributes) as [v|].
  - destruct (Htags v eq_refl) as [l ->]. simpl. destruct (l ++ tags)%list; eauto.
  - destruct tags; eauto.
Qed.

(** C10.  Unknown level.  When [level] is not a key of the level table
    (and the table has the level "error", with number [n]), [log] issues
    the warning "Invalid log level" and goes on exactly as [log] with the
    level "error" does.  Unless the tag attribute is ill-typed, in which
    case [log] raises whatever the level, the call succeeds: the warning
    is the first one issued, and one record is emitted, closed at its
    start time with status [OK], whose attributes are built with the
    level name "error" and the level number [n]. *)
Theorem log_invalid_level (self : Logfire.t) (level msg_template : string)
  (attributes : dict pyval) (stack_offset : Z) (w : World) (n : Z) :
  dict_mem level LEVEL_NUMBERS = false ->
  dict_get "error" LEVEL_NUMBERS = Some n ->
  Logfire.log self level msg_template attributes stack_offset w
  = Logfire.log self "error" msg_template attributes stack_offset
      (with_warnings w [UserWarning "Invalid log level"]) /\
  ((forall v,
      dict_get ATTRIBUTES_TAGS_KEY
        (dict_update (get_caller_stack_info (stack_offset + 2)) attributes) = Some v ->
      exists l, v = VList l) ->
   exists ws tags encoded msg span,
     Logfire.log self level msg_template attributes stack_offset w
     = (mkWorld (w_warnings w ++ UserWarning "Invalid log level" :: ws) (w_log w)
                (w_finished w ++ [span]) (w_context w) (w_clock w + 1), Ok tt) /\
     sp_name span = msg /\
     sp_status span = OK_STATUS /\
     sp_start_time span = w_clock w /\
     sp_end_time span = Some (w_clock w) /\
     sp_attributes span
     = Logfire.resolve_sample_rate self
         (Logfire.add_tags tags
            (Logfire.add_json_schema attributes
               (dict_update
                  (dict_update []
                     [(ATTRIBUTES_SPAN_TYPE_KEY, VStr "log");
                      (ATTRIBUTES_LOG_LEVEL_NAME_KEY, VStr "error");
                      (ATTRIBUTES_LOG_LEVEL_NUM_KEY, VInt n);
                      (ATTRIBUTES_MESSAGE_TEMPLATE_KEY, VStr msg_template);
                      (ATTRIBUTES_MESSAGE_KEY, VStr msg)])
                  encoded)))).
Proof.
  intros Hlevel Herror.
  assert (Hmem : dict_mem "error" LEVEL_NUMBERS = true) by (unfold dict_mem; by rewrite Herror).
  assert (Heq : Logfire.log self level msg_template attributes stack_offset w
                = Logfire.log self "error" msg_template attributes stack_offset
                    (with_warnings w [UserWarning "Invalid log level"])).
  { unfold Logfire.log. rewrite Hlevel, Hmem. reflexivity. }
  split; [exact Heq|].
  intros Htags. rewrite Heq. clear Heq.
  set (w0 := with_warnings w [UserWarning "Invalid log level"]).
  unfold Logfire.log. rewrite Hmem.
  unfold bind at 1. cbn [ret].
  unfold bind at 1. rewrite Herror. cbn [ret].
  destruct (merge_tags_total _ (Logfire._tags self) Htags) as (tags & merged & Hmerge).
  unfold bind at 1. unfold lift. rewrite Hmerge.
  unfold bind at 1. unfold format_message.
  destruct (logfire_format msg_template merged None (stack_offset + 2 + 2)) as [ws1 msg].
  destruct (user_attributes_total merged (with_warnings w0 ws1)) as (ws2 & encoded & Hua).
  unfold bind at 1. rewrite Hua.
  set (otlp_attributes := Logfire.resolve_sample_rate self _).
  exists (ws1 ++ ws2)%list, tags, encoded, msg.
  exists (mkSpan msg otlp_attributes OK_STATUS [] (w_clock w) (Some (w_clock w))).
  split; [|done].
  unfold bind, time_ns, start_span, attach, detach, Span_end, Span_set_status, on_end, ret.
  simpl. f_equal. f_equal.
  - rewrite <- !app_assoc. reflexivity.
  - replace (S (length (w_context w)) - length (w_context w))%nat with 1%nat by lia.
    reflexivity.
Qed.

End LogFacts.

Lemma log_invalid_level_witness :
  Logfire.log (C := example_constants) (E := example_externals)
    (Logfire.mk ["t"] None) "loud" "hello" [("x", VInt 1)] 0 empty_world
  = Logfire.log (C := example_constants) (E := example_externals)
      (Logfire.mk ["t"] None) "error" "hello" [("x", VInt 1)] 0
      (with_warnings empty_world [UserWarning "Invalid log level"]) /\
  exists w ws span,
    Logfire.log (C := example_constants) (E := example_externals)
      (Logfire.mk ["t"] None) "loud" "hello" [("x", VInt 1)] 0 empty_world = (w, Ok tt) /\
    w_warnings w = UserWarning "Invalid log level" :: ws /\
    w_finished w = [span] /\
    sp_status span = OK_STATUS.
Proof.
  destruct (log_invalid_level (C := example_constants) (E := example_externals)
              (Logfire.mk ["t"] None) "loud" "hello" [("x", VInt 1)] 0 empty_world 17
              eq_refl eq_refl) as [Heq Hrun].
  split; [exact Heq|].
  destruct Hrun as (ws & tags & encoded & msg & span & Hlog & _ & Hstatus & _).
  { intros v Hget. vm_compute in Hget. discriminate Hget. }
  eexists _, ws, span. split; [exact Hlog|]. split_and!; [reflexivity|reflexivity|exact Hstatus].
Defined.

(** The record of that run carries the level "error" and its number. *)
Example log_invalid_level_example :
  exists w span,
    Logfire.log (C := example_constants) (E := example_externals)
      (Logfire.mk ["t"] None) "loud" "hello" [("x", VInt 1)] 0 empty_world = (w, Ok tt) /\
    w_warnings w = [UserWarning "Invalid log level"] /\
    w_finished w = [span] /\
    dict_get "logfire.level_name" (sp_attributes span) = Some (VStr "error") /\
    dict_get "logfire.level_num" (sp_attributes span) = Some (VInt 17).
Proof. eexists _, _. split_and!; vm_compute; reflexivity. Qed.

(** ** The fallback exporter *)

(** C1.  Primary sink raises.  Whatever the batch, when the primary
    sink's [export] raises [e], the fallback sink's [export] is run on
    that very batch before the call ends, and, the fallback write having
    returned, the call raises the same [e].  With the recording sink as
    fallback, the spans it has recorded afterwards are the ones it had
    followed by the batch, unchanged. *)
Theorem export_primary_raises {span exn P F : Type} (primary : Sink span exn P)
  (fallback : Sink span exn F) (p p' : P) (f : F) (batch : list span) (e : exn) :
  sink_export primary p batch = (p', Raised e) ->
  fst (export primary fallback (p, f) batch) = (p', fst (sink_export fallback f batch)) /\
  (forall r, snd (sink_export fallback f batch) = Returned r ->
     snd (export primary fallback (p, f) batch) = Raised e) /\
  (forall recorded : list span,
     export primary TestExporter (p, recorded) batch
     = ((p', (recorded ++ batch)%list), Raised e)).
Proof.
  intros Hprimary. split_and!.
  - unfold export. rewrite Hprimary.
    by destruct (sink_export fallback f batch) as [f' [r|e']].
  - intros r. unfold export. rewrite Hprimary.
    destruct (sink_export fallback f batch) as [f' [r'|e']]; simpl; [done|discriminate].
  - intros recorded. unfold export. by rewrite Hprimary.
Qed.

Lemma export_primary_raises_witness :
  export ExceptionExporter TestExporter (tt, []) [TEST_SPAN]
  = ((tt, [TEST_SPAN]), Raised "Bad exporter").
Proof.
  destruct (export_primary_raises ExceptionExporter TestExporter tt tt []
              [TEST_SPAN] "Bad exporter" eq_refl) as (_ & _ & Hrecorded).
  exact (Hrecorded []).
Defined.

(** C2.  Primary sink returns a failure.  Whatever the batch, when the
    primary sink's [export] returns [FAILURE] without raising, the
    fallback sink's [export] is run on that very batch, and, the fallback
    write having returned, the call returns [SUCCESS].  With the
    recording sink as fallback, the spans it has recorded afterwards are
    the ones it had followed by the batch, unchanged. *)
Theorem export_primary_fails {span exn P F : Type} (primary : Sink span exn P)
  (fallback : Sink span exn F) (p p' : P) (f : F) (batch : list span) :
  sink_export primary p batch = (p', Returned FAILURE) ->
  fst (export primary fallback (p, f) batch) = (p', fst (sink_export fallback f batch)) /\
  (forall r, snd (sink_export fallback f batch) = Returned r ->
     snd (export primary fallback (p, f) batch) = Returned SUCCESS) /\
  (forall recorded : list span,
     export primary TestExporter (p, recorded) batch
     = ((p', (recorded ++ batch)%list), Returned SUCCESS)).
Proof.
  intros Hprimary. split_and!.
  - unfold export. rewrite Hprimary.
    by destruct (sink_export fallback f batch) as [f' [r|e']].
  - intros r. unfold export. rewrite Hprimary.
    destruct (sink_export fallback f batch) as [f' [r'|e']]; simpl; [done|discriminate].
  - intros recorded. unfold export. by rewrite Hprimary.
Qed.

Lemma export_primary_fails_witness :
  export (exn := string) FailureExporter TestExporter (tt, []) [TEST_SPAN]
  = ((tt, [TEST_SPAN]), Returned SUCCESS).
Proof.
  destruct (export_primary_fails (exn := string) FailureExporter TestExporter tt tt []
              [TEST_SPAN] eq_refl) as (_ & _ & Hrecorded).
  exact (Hrecorded []).
Defined.

(** A primary sink that succeeds is the only one used. *)
Lemma export_primary_succeeds {span exn P F : Type} (primary : Sink span exn P)
  (fallback : Sink span exn F) (p p' : P) (f : F) (batch : list span) :
  sink_export primary p batch = (p', Returned SUCCESS) ->
  export primary fallback (p, f) batch = ((p', f), Returned SUCCESS).
Proof. intros Hprimary. unfold export. by rewrite Hprimary. Qed.

(** ** Configuration parameters: [_check_bool] *)

Lemma lower_char_idempotent (c : ascii) : lower_char (lower_char c) = lower_char c.
Proof. destruct c as [[] [] [] [] [] [] [] []]; reflexivity. Qed.

Lemma lower_idempotent (s : string) : lower (lower s) = lower s.
Proof. induction s as [|c s IH]; simpl; [done|]. by rewrite lower_char_idempotent, IH. Qed.

Lemma existsb_eqb_true (s : string) (l : list string) :
  existsb (String.eqb s) l = true <-> s ∈ l.
Proof.
  rewrite existsb_exists, list_elem_of_In. split.
  - intros (x & Hin & Heq). apply String.eqb_eq in Heq. by subst x.
  - intros Hin. exists s. split; [done|apply String.eqb_refl].
Qed.

(** X1.  [_check_bool] reads back what [str] writes for a [bool], and
    accepts its own results unchanged: checking twice is checking
    once. *)
Theorem check_bool_round_trip (value : config_value) (name : string) :
  (forall b, _check_bool (CStr (str_bool b)) name = Loaded (CBool b)) /\
  (forall v, _check_bool value name = Loaded v -> _check_bool v name = Loaded v).
Proof.
  split.
  - by intros [].
  - intros v. destruct value as [|b|s|z|p|items|h]; unfold _check_bool; try discriminate.
    + by intros [= <-].
    + by intros [= <-].
    + destruct (existsb _ ["1"; "true"; "t"]); [by intros [= <-]|].
      destruct (existsb _ ["0"; "false"; "f"]); [by intros [= <-]|discriminate].
Qed.

Lemma check_bool_round_trip_witness :
  _check_bool (CBool true) "console_verbose" = Loaded (CBool true).
Proof.
  destruct (check_bool_round_trip (CStr "TRUE") "console_verbose") as [_ Hagain].
  apply Hagain. reflexivity.
Defined.


(** ** Configuration parameters: [_extract_set_of_str] *)

Lemma split_comma_nonempty (s : string) : split_comma s ≠ [].
Proof.
  destruct s as [|c s]; simpl; [done|].
  destruct (Ascii.eqb c ","); [done|]. by destruct (split_comma s).
Qed.

Lemma split_comma_no_comma (s piece : string) :
  piece ∈ split_comma s -> ","%char ∉ list_ascii_of_string piece.
Proof.
  revert piece. induction s as [|c s IH]; intros piece; simpl.
  - intros ->%list_elem_of_singleton. apply not_elem_of_nil.
  - destruct (Ascii.eqb_spec c ",") as [->|Hc].
    + intros [->|Hin]%elem_of_cons; [apply not_elem_of_nil|by apply IH].
    + destruct (split_comma s) as [|first pieces] eqn:Hs.
      * intros ->%list_elem_of_singleton. simpl.
        apply not_elem_of_cons. split; [congruence|apply not_elem_of_nil].
      * intros [->|Hin]%elem_of_cons.
        -- simpl. apply not_elem_of_cons. split; [congruence|]. apply IH. left.
        -- apply IH. by right.
Qed.

Lemma split_comma_single (x : string) :
  ","%char ∉ list_ascii_of_string x -> split_comma x = [x].
Proof.
  induction x as [|c x IH]; simpl; [done|].
  intros [Hc Hx]%not_elem_of_cons.
  destruct (Ascii.eqb_spec c ","); [congruence|]. by rewrite IH.
Qed.

Lemma split_comma_app (x rest : string) :
  ","%char ∉ list_ascii_of_string x ->
  split_comma (x ++ String "," rest) = x :: split_comma rest.
Proof.
  induction x as [|c x IH]; simpl; [done|].
  intros [Hc Hx]%not_elem_of_cons.
  destruct (Ascii.eqb_spec c ","); [congruence|]. by rewrite IH.
Qed.

Lemma split_comma_concat (l : list string) :
  l ≠ [] -> Forall (fun x => ","%char ∉ list_ascii_of_string x) l ->
  split_comma (String.concat "," l) = l.
Proof.
  induction l as [|x l IH]; [done|]. intros _ [Hx Hl]%Forall_cons.
  destruct l as [|y l].
  - simpl. by apply split_comma_single.
  - change (String.concat "," (x :: y :: l))
      with (x ++ String "," (String.concat "," (y :: l))).
    rewrite split_comma_app by done. by rewrite IH.
Qed.

Lemma lstrip_chars (s : string) (c : ascii) :
  c ∈ list_ascii_of_string (lstrip s) -> c ∈ list_ascii_of_string s.
Proof.
  induction s as [|a s IH]; simpl; [done|].
  destruct (isspace a); [|done]. intros Hin. right. auto.
Qed.

Lemma rstrip_chars (s : string) (c : ascii) :
  c ∈ list_ascii_of_string (rstrip s) -> c ∈ list_ascii_of_string s.
Proof.
  induction s as [|a s IH]; simpl; [done|].
  destruct (rstrip s) as [|b s'] eqn:Hs.
  - destruct (isspace a); simpl; [by intros ?%elem_of_nil|].
    intros ->%list_elem_of_singleton. left.
  - simpl. intros [->|Hin]%elem_of_cons; [left|]. right. apply IH. by simpl.
Qed.

Lemma lstrip_idempotent (s : string) : lstrip (lstrip s) = lstrip s.
Proof.
  induction s as [|a s IH]; simpl; [done|].
  destruct (isspace a) eqn:Ha; [done|]. simpl. by rewrite Ha.
Qed.

Lemma rstrip_idempotent (s : string) : rstrip (rstrip s) = rstrip s.
Proof.
  induction s as [|a s IH]; simpl; [done|].
  destruct (rstrip s) as [|b s'] eqn:Hs.
  - destruct (isspace a) eqn:Ha; simpl; [done|]. by rewrite Ha.
  - simpl in *. rewrite IH. done.
Qed.

(** Stripping on the right keeps a first character that is not white
    space, so nothing is left to strip on the left. *)
Lemma lstrip_rstrip_lstrip (s : string) : lstrip (rstrip (lstrip s)) = rstrip (lstrip s).
Proof.
  assert (Hhead : forall t, lstrip t = t -> lstrip (rstrip t) = rstrip t).
  { intros [|a t]; simpl; [done|].
    destruct (isspace a) eqn:Ha.
    - intros Heq. exfalso.
      assert (Hlen : (String.length (lstrip t) <= String.length t)%nat).
      { clear. induction t as [|b t IH]; simpl; [lia|]. destruct (isspace b); simpl; lia. }
      rewrite Heq in Hlen. simpl in Hlen. lia.
    - intros _. destruct (rstrip t); simpl; by rewrite Ha. }
  apply Hhead, lstrip_idempotent.
Qed.

Lemma strip_idempotent (s : string) : strip (strip s) = strip s.
Proof. unfold strip. by rewrite lstrip_rstrip_lstrip, rstrip_idempotent. Qed.

(** X3.  [_extract_set_of_str] of a string is never the empty set (the
    empty string gives the set of the empty string); no item of it holds
    a comma, and every item is stripped: stripping it again changes
    nothing.  A value that is not a string is returned as it is. *)
Theorem extract_set_of_str_items (s : string) :
  (exists items,
     _extract_set_of_str (CStr s) = CSet items /\
     items ≠ ∅ /\
     forall x, x ∈ items -> strip x = x /\ ","%char ∉ list_ascii_of_string x) /\
  _extract_set_of_str (CStr EmptyString) = CSet {[EmptyString]} /\
  (forall value, (forall s', value ≠ CStr s') -> _extract_set_of_str value = value).
Proof.
  split_and!.
  - eexists. split; [reflexivity|]. split.
    + destruct (split_comma s) as [|piece pieces] eqn:Hs; [by apply split_comma_nonempty in Hs|].
      simpl. set_solver.
    + intros x (piece & -> & Hin)%elem_of_list_to_set%list_elem_of_fmap. split.
      * apply strip_idempotent.
      * intros Hc. apply (split_comma_no_comma s piece Hin).
        unfold strip in Hc. by apply lstrip_chars, rstrip_chars.
  - simpl. f_equal; try set_solver.
  - intros value Hv. destruct value as [| |s'| | | |]; try done. by destruct (Hv s').
Qed.

(** X4.  Round trip with [','.join]: for a non-empty list of items
    without commas, the set extracted from the items joined by commas is
    the set of the stripped items, in whatever order and however often
    they were listed; for items that are already stripped it is the set
    of the items. *)
Theorem extract_set_of_str_join (l : list string) :
  l ≠ [] ->
  Forall (fun x => ","%char ∉ list_ascii_of_string x) l ->
  _extract_set_of_str (CStr (String.concat "," l)) = CSet (list_to_set (map strip l)) /\
  (Forall (fun x => strip x = x) l ->
   _extract_set_of_str (CStr (String.concat "," l)) = CSet (list_to_set l)).
Proof.
  intros Hne Hcomma.
  assert (Hrun : _extract_set_of_str (CStr (String.concat "," l))
                 = CSet (list_to_set (map strip l))).
  { unfold _extract_set_of_str. by rewrite split_comma_concat. }
  split; [exact Hrun|]. intros Hstripped. rewrite Hrun. do 2 f_equal.
  clear Hne Hcomma Hrun.
  induction Hstripped as [|x l' Hx Hl IH]; [done|].
  simpl. by rewrite Hx, IH.
Qed.

Lemma extract_set_of_str_join_witness :
  _extract_set_of_str (CStr "b,a,b") = CSet (list_to_set ["b"; "a"; "b"]).
Proof.
  assert (Hcomma : Forall (fun x => ","%char ∉ list_ascii_of_string x) ["b"; "a"; "b"]).
  { apply (bool_decide_unpack _). vm_compute. exact I. }
  destruct (extract_set_of_str_join ["b"; "a"; "b"] ltac:(discriminate) Hcomma)
    as [_ Hstripped].
  apply Hstripped. repeat constructor.
Defined.

(** ** Configuration parameters: [load_param] *)

Section LoadParamFacts.
Context {K : ConfigConstants}.

Lemma load_from_env_unset environ name tp env_vars otherwise :
  Forall (fun env_var => environ !! env_var = None) env_vars ->
  load_from_env environ name tp env_vars otherwise = otherwise.
Proof. induction 1 as [|env_var rest Hv _ IH]; simpl; [done|]. by rewrite Hv. Qed.

Lemma load_from_env_first environ name tp before env_var after value otherwise :
  Forall (fun env_var => environ !! env_var = None) before ->
  environ !! env_var = Some value ->
  load_from_env environ name tp (before ++ env_var :: after) otherwise
  = _cast (CStr value) name tp.
Proof.
  intros Hbefore Hvar. induction Hbefore as [|v rest Hv _ IH]; simpl.
  - by rewrite Hvar.
  - by rewrite Hv.
Qed.

(** X5.  Load order, first part.  A runtime value that is not [None] is
    returned as it is, unchecked, whatever the name.  Without one, the
    first environment variable of the parameter that is set decides:
    its value is cast to the parameter's type, and neither the later
    variables, nor the config file, nor the default are looked at, also
    when the cast fails. *)
Theorem load_param_env_first (config_from_file : gmap string config_value)
  (environ : gmap string string) (name : string) (runtime : config_value)
  (param : ConfigParam) (before after : list string) (env_var value : string) :
  (runtime ≠ CNone -> load_param config_from_file environ name runtime = Loaded runtime) /\
  (dict_get name CONFIG_PARAMS = Some param ->
   env_vars param = (before ++ env_var :: after)%list ->
   Forall (fun v => environ !! v = None) before ->
   environ !! env_var = Some value ->
   load_param config_from_file environ name CNone = _cast (CStr value) name (tp param)).
Proof.
  split.
  - by destruct runtime.
  - intros Hparam Hvars Hbefore Hvar. unfold load_param. rewrite Hparam, Hvars.
    by apply load_from_env_first.
Qed.

Lemma load_param_env_unset (config_from_file : gmap string config_value)
  (environ : gmap string string) (name : string) (param : ConfigParam) :
  dict_get name CONFIG_PARAMS = Some param ->
  Forall (fun v => environ !! v = None) (env_vars param) ->
  load_param config_from_file environ name CNone
  = match (if allow_file_config param then config_from_file !! name else None) with
    | Some CNone | None => _cast (default_ param) name (tp param)
    | Some value => _cast value name (tp param)
    end.
Proof.
  intros Hparam Henv. unfold load_param. rewrite Hparam.
  by rewrite load_from_env_unset.
Qed.

(** X6.  Load order, second part.  When no runtime value is given and
    none of the parameter's environment variables is set, the value of
    the config file is cast and returned if the parameter allows file
    configuration and the file binds the name to something other than
    [None]; in every other case the default is cast and returned. *)
Theorem load_param_file_then_default (config_from_file : gmap string config_value)
  (environ : gmap string string) (name : string) (param : ConfigParam) :
  dict_get name CONFIG_PARAMS = Some param ->
  Forall (fun v => environ !! v = None) (env_vars param) ->
  (forall value,
     allow_file_config param = true -> config_from_file !! name = Some value ->
     value ≠ CNone ->
     load_param config_from_file environ name CNone = _cast value name (tp param)) /\
  (allow_file_config param = false \/ config_from_file !! name = None
   \/ config_from_file !! name = Some CNone ->
   load_param config_from_file environ name CNone
   = _cast (default_ param) name (tp param)).
Proof.
  intros Hparam Henv. rewrite (load_param_env_unset _ _ _ _ Hparam Henv). split.
  - intros value -> -> Hvalue. by destruct value.
  - intros [-> | [-> | ->]]; [done| |]; by destruct (allow_file_config param).
Qed.

(** X7.  A parameter that does not allow file configuration never
    depends on the config file: with any two files the result is the
    same.  The token is such a parameter: it comes from the runtime
    value or from [LOGFIRE_TOKEN], and is [None] otherwise. *)
Theorem load_param_ignores_file (file1 file2 : gmap string config_value)
  (environ : gmap string string) (name : string) (runtime : config_value)
  (param : ConfigParam) :
  dict_get name CONFIG_PARAMS = Some param ->
  allow_file_config param = false ->
  load_param file1 environ name runtime = load_param file2 environ name runtime /\
  load_param file1 environ "token" CNone
  = match environ !! "LOGFIRE_TOKEN" with
    | Some value => Loaded (CStr value)
    | None => Loaded CNone
    end.
Proof.
  intros Hparam Hallow. split.
  - unfold load_param. rewrite Hparam, Hallow. done.
  - unfold load_param. simpl. by destruct (environ !! "LOGFIRE_TOKEN").
Qed.

Lemma cast_well_typed (value : config_value) (name : string) (tp : param_type)
  (v : config_value) :
  value ≠ CNone -> _cast value name tp = Loaded v -> well_typed v tp.
Proof.
  intros Hvalue. destruct tp as [| | |literals| |other]; simpl; try done.
  - destruct value as [|b|s|z|p|items|h]; unfold _check_bool; try done.
    + intros [= <-]. eauto.
    + destruct (existsb _ ["1"; "true"; "t"]); [intros [= <-]; eauto|].
      destruct (existsb _ ["0"; "false"; "f"]); [intros [= <-]; eauto|done].
  - destruct value as [|b|s|z|p|items|h]; simpl; try done.
    + intros [= <-]. eauto.
    + intros [= <-]. eauto.
  - unfold _check_literal.
    destruct value as [|b|s|z|p|items|h]; simpl; try done.
    destruct (existsb (String.eqb s) literals) eqn:Hin; simpl; [|done].
    intros [= <-]. exists s. split; [done|]. by apply existsb_eqb_true.
Qed.

(** Case analysis over the entries of [CONFIG_PARAMS]. *)
Ltac config_param_cases H :=
  unfold CONFIG_PARAMS in H; cbn [dict_get] in H;
  repeat match type of H with
         | context [String.eqb ?n ?k] =>
             destruct (String.eqb_spec n k) as [->|?]; simpl in H
         end;
  first [discriminate H | injection H as <-].

(** The default of every parameter passes the cast of its type. *)
Lemma default_well_typed (name : string) (param : ConfigParam) :
  "auto" ∈ ConsoleColorsValues ->
  dict_get name CONFIG_PARAMS = Some param ->
  exists v,
    _cast (default_ param) name (tp param) = Loaded v /\
    well_typed v (tp param) /\
    (tp param ≠ TPath -> v = default_ param) /\
    (tp param = TPath -> v = CPath ".logfire").
Proof.
  intros Hauto%existsb_eqb_true Hparam.
  config_param_cases Hparam;
    lazymatch goal with
    | |- context [CONSOLE_COLORS] =>
        unfold CONSOLE_COLORS; cbn [tp default_ _cast _check_literal in_literals];
        rewrite Hauto; cbn [negb];
        exists (CStr "auto"); split_and!; [done| |done|done];
        exists "auto"; split; [done|by apply existsb_eqb_true]
    | |- context [SHOW_SUMMARY] =>
        exists (CStr "new-project"); split_and!; [done| |done|done];
        exists "new-project"; split; [done|];
        apply list_elem_of_In; simpl; tauto
    | |- _ => simpl; eexists; split_and!; [reflexivity|simpl; eauto|done|done]
    end.
Qed.

(** X8.  Every default is valid.  For each of the parameters of the
    table, when nothing is given at run time, none of its environment
    variables is set and the file does not bind it, [load_param]
    succeeds and returns the default of the table (as a [Path] for the
    data directory), provided "auto" is one of the console colour
    values. *)
Theorem load_param_default (config_from_file : gmap string config_value)
  (environ : gmap string string) (name : string) (param : ConfigParam) :
  "auto" ∈ ConsoleColorsValues ->
  dict_get name CONFIG_PARAMS = Some param ->
  Forall (fun v => environ !! v = None) (env_vars param) ->
  config_from_file !! name = None ->
  exists v,
    load_param config_from_file environ name CNone = Loaded v /\
    (tp param ≠ TPath -> v = default_ param) /\
    (tp param = TPath -> v = CPath ".logfire").
Proof.
  intros Hauto Hparam Henv Hfile.
  rewrite (load_param_env_unset _ _ _ _ Hparam Henv), Hfile.
  destruct (default_well_typed name param Hauto Hparam) as (v & Hcast & _ & Hv).
  exists v. split; [|done]. by destruct (allow_file_config param).
Qed.

(** X9.  Checked types.  For a parameter of the table whose type is
    [bool], a literal type or [Path], whatever the environment and the
    config file hold, a [load_param] without runtime value that succeeds
    returns a value of that type: a [bool], one of the literals, a
    [Path] (provided "auto" is one of the console colour values). *)
Theorem load_param_well_typed (config_from_file : gmap string config_value)
  (environ : gmap string string) (name : string) (param : ConfigParam)
  (v : config_value) :
  "auto" ∈ ConsoleColorsValues ->
  dict_get name CONFIG_PARAMS = Some param ->
  load_param config_from_file environ name CNone = Loaded v ->
  well_typed v (tp param).
Proof.
  intros Hauto Hparam. unfold load_param. rewrite Hparam.
  assert (Hotherwise :
            forall otherwise,
              (otherwise = Loaded v -> well_typed v (tp param)) ->
              load_from_env environ name (tp param) (env_vars param) otherwise = Loaded v ->
              well_typed v (tp param)).
  { intros otherwise Hother. induction (env_vars param) as [|env_var rest IH]; simpl; [done|].
    destruct (environ !! env_var) as [value|]; [|done].
    by apply cast_well_typed. }
  apply Hotherwise.
  destruct (default_well_typed name param Hauto Hparam) as (v' & Hcast & Htyped & _).
  assert (Hdefault : _cast (default_ param) name (tp param) = Loaded v ->
                     well_typed v (tp param)).
  { rewrite Hcast. by intros [= <-]. }
  destruct (if allow_file_config param then config_from_file !! name else None)
    as [value|]; [|done].
  destruct value; try (by apply cast_well_typed). done.
Qed.

End LoadParamFacts.

Lemma load_param_env_first_witness :
  load_param (K := example_config_constants) {["console_verbose" := CBool false]}
    {["LOGFIRE_CONSOLE_VERBOSE" := "T"]} "console_verbose" CNone
  = Loaded (CBool true).
Proof.
  destruct (load_param_env_first (K := example_config_constants)
              {["console_verbose" := CBool false]} {["LOGFIRE_CONSOLE_VERBOSE" := "T"]}
              "console_verbose" CNone CONSOLE_VERBOSE [] [] "LOGFIRE_CONSOLE_VERBOSE" "T")
    as [_ Henv].
  rewrite Henv; [reflexivity|reflexivity|reflexivity|constructor|].
  apply lookup_singleton_eq.
Defined.

Lemma load_param_file_then_default_witness :
  load_param (K := example_config_constants) {["service_name" := CStr "shop"]} ∅
    "service_name" CNone
  = Loaded (CStr "shop").
Proof.
  destruct (load_param_file_then_default (K := example_config_constants)
              {["service_name" := CStr "shop"]} ∅ "service_name" SERVICE_NAME eq_refl)
    as [Hfile _].
  - repeat constructor.
  - rewrite (Hfile (CStr "shop")); [reflexivity|reflexivity| |discriminate].
    apply lookup_singleton_eq.
Defined.

Lemma load_param_ignores_file_witness :
  load_param (K := example_config_constants) {["token" := CStr "from-file"]} ∅ "token" CNone
  = load_param (K := example_config_constants) ∅ ∅ "token" CNone.
Proof.
  destruct (load_param_ignores_file (K := example_config_constants)
              {["token" := CStr "from-file"]} ∅ ∅ "token" CNone TOKEN eq_refl eq_refl)
    as [Hsame _].
  exact Hsame.
Defined.

Lemma load_param_default_witness :
  exists v,
    load_param (K := example_config_constants) ∅ ∅ "data_dir" CNone = Loaded v /\
    v = CPath ".logfire".
Proof.
  destruct (load_param_default (K := example_config_constants) ∅ ∅ "data_dir"
              CREDENTIALS_DIR) as (v & Hload & _ & Hpath).
  - apply list_elem_of_In. simpl. tauto.
  - reflexivity.
  - repeat constructor.
  - apply lookup_empty.
  - exists v. split; [exact Hload|]. by apply Hpath.
Defined.

Lemma load_param_well_typed_witness :
  well_typed (CBool false) TBool.
Proof.
  apply (load_param_well_typed (K := example_config_constants)
           ∅ {["LOGFIRE_SEND_TO_LOGFIRE" := "0"]} "send_to_logfire" SEND_TO_LOGFIRE).
  - apply list_elem_of_In. simpl. tauto.
  - reflexivity.
  - unfold load_param. simpl. rewrite lookup_singleton_eq. reflexivity.
Defined.

(** ** More on tags and frames *)

Lemma dedup_first_NoDup {T : Type} `{Countable T} (seq : list T) :
  NoDup seq -> dedup_first seq = seq.
Proof.
  induction 1 as [|x seq Hx Hnd IH]; simpl; [done|].
  rewrite IH. f_equal. clear IH Hnd.
  induction seq as [|y seq IH]; [done|].
  apply not_elem_of_cons in Hx as [Hxy Hx].
  rewrite filter_cons_True by congruence. by rewrite IH.
Qed.

Lemma dedup_first_sublist {T : Type} `{Countable T} (seq : list T) :
  dedup_first seq `sublist_of` seq.
Proof.
  induction seq as [|x seq IH]; simpl; [constructor|].
  apply sublist_skip. etrans; [apply sublist_filter|exact IH].
Qed.

(** X10.  [uniquify_sequence] is idempotent, leaves a list without
    duplicates as it is, and keeps the order of the sequence: its result
    is a subsequence of its argument. *)
Theorem uniquify_sequence_idempotent {T : Type} `{Countable T} (seq : list T) :
  uniquify_sequence (uniquify_sequence seq) = uniquify_sequence seq /\
  (NoDup seq -> uniquify_sequence seq = seq) /\
  uniquify_sequence seq `sublist_of` seq.
Proof.
  rewrite !uniquify_sequence_dedup. split_and!.
  - apply dedup_first_NoDup, NoDup_dedup_first.
  - apply dedup_first_NoDup.
  - apply dedup_first_sublist.
Qed.

Lemma uniquify_sequence_idempotent_witness :
  uniquify_sequence ["api"; "db"; "cache"] = ["api"; "db"; "cache"].
Proof.
  destruct (uniquify_sequence_idempotent ["api"; "db"; "cache"]) as (_ & Hfixed & _).
  apply Hfixed. apply (bool_decide_unpack _). vm_compute. exact I.
Defined.








(** ** More on span exit and the span life cycle *)

Section LifeCycleFacts.
Context {C : Constants} {E : Externals}.

(** X12.  What [_exit_span] records for an [Exception] on a recording
    span.  With a validation payload, the payload is set as the
    validation-error attribute of the span and is in the attributes of
    the exception event, next to the filtered traceback; without one,
    the attributes of the span are untouched and the event carries the
    filtered traceback alone.  On an exit without exception the status
    becomes [OK] and nothing else changes. *)
Theorem exit_span_records (span : Span) (type_name : string) (exc : exception)
  (tb : traceback) :
  is_recording span = true ->
  exc_is_Exception exc = true ->
  let trace :=
    VStr (json_dumps_traceback
            (map _filter_frames (Traceback_from_exception type_name exc tb))) in
  let span' := _exit_span span (Some type_name) (Some exc) tb in
  (forall err_json,
     exc_validation_json exc = Some err_json ->
     dict_get ATTRIBUTES_VALIDATION_ERROR_KEY (sp_attributes span') = Some (VStr err_json) /\
     exists attributes,
       sp_events span' = (sp_events span ++ [mkEvent exc attributes true])%list /\
       dict_get ATTRIBUTES_VALIDATION_ERROR_KEY attributes = Some (VStr err_json) /\
       (ATTRIBUTES_VALIDATION_ERROR_KEY ≠ "exception.logfire.trace" ->
        dict_get "exception.logfire.trace" attributes = Some trace)) /\
  (exc_validation_json exc = None ->
     sp_attributes span' = sp_attributes span /\
     sp_events span'
     = (sp_events span ++ [mkEvent exc [("exception.logfire.trace", trace)] true])%list) /\
  (let exited := _exit_span span None None tb in
   sp_status exited = OK_STATUS /\
   sp_attributes exited = sp_attributes span /\
   sp_events exited = sp_events span /\
   is_recording exited = true).
Proof.
  intros Hr Hexc trace span'. subst span'.
  destruct span as [nm attrs st evs t0 [t1|]]; [discriminate Hr|]. clear Hr.
  unfold _exit_span. cbn -[dict_set dict_get]. rewrite Hexc. split_and!.
  - intros err_json ->. cbn -[dict_set dict_get]. split; [apply dict_get_set_eq|].
    eexists. split; [reflexivity|]. split; [apply dict_get_set_eq|].
    intros Hne. rewrite dict_get_set_ne by done. reflexivity.
  - intros ->. cbn. done.
  - done.
  - done.
  - done.
  - done.
Qed.

(** X13.  A [with] block that ends normally.  Entering a span that has
    not been started and leaving it without exception starts one span at
    the first clock reading and ends it at the next, hands exactly that
    span to the span processor, with status [OK] and with the message
    attribute set to the message formatted on exit; the context is back
    to what it was, and the token is cleared. *)
Theorem with_block_normal (self : LogfireSpan.t) (tb : traceback) (w : World) :
  LogfireSpan._span self = None ->
  LogfireSpan._token self = None ->
  let format_args := LogfireSpan._format_args self in
  let formatted :=
    logfire_format (format_string format_args)
      (dict_update [("span_name", VStr (LogfireSpan._span_name self))] (kwargs format_args))
      None (stacklevel format_args) in
  let span :=
    mkSpan (LogfireSpan._span_name self)
      (dict_set ATTRIBUTES_MESSAGE_KEY (VStr (snd formatted))
         (LogfireSpan._otlp_attributes self))
      OK_STATUS [] (w_clock w) (Some (w_clock w + 1)) in
  (entered <- LogfireSpan.__enter__ self ;; LogfireSpan.__exit__ entered None None tb) w
  = (mkWorld (w_warnings w ++ fst formatted) (w_log w) (w_finished w ++ [span])
       (w_context w) (w_clock w + 1 + 1),
     Ok (LogfireSpan.mk (LogfireSpan._span_name self) (LogfireSpan._otlp_attributes self)
           None format_args (Some span) true)).
Proof.
  intros Hspan Htoken format_args formatted span.
  destruct self as [nm attrs token fa sp eoe]. simpl in *. subst sp token.
  subst format_args. subst span formatted.
  unfold LogfireSpan.__enter__, LogfireSpan.__exit__. simpl.
  unfold bind, start_span, time_ns, attach, detach, ret, format_message. simpl.
  destruct (logfire_format _ _ _ _) as [ws msg]. simpl.
  unfold Span_end, bind, time_ns, on_end, ret, with_warnings. simpl.
  replace (S (length (w_context w)) - length (w_context w))%nat with 1%nat by lia.
  reflexivity.
Qed.

(** X14.  Entering twice.  [__enter__] always succeeds and leaves the
    span started and attached; entering again right away changes
    nothing: no second span is started and no second token is taken. *)
Theorem enter_idempotent (self : LogfireSpan.t) (w : World) :
  exists w1 self1 span token,
    LogfireSpan.__enter__ self w = (w1, Ok self1) /\
    LogfireSpan._span self1 = Some span /\
    LogfireSpan._token self1 = Some token /\
    LogfireSpan.end_on_exit self1 = true /\
    LogfireSpan.__enter__ self1 w1 = (w1, Ok self1).
Proof.
  destruct self as [nm attrs [token|] fa [span|] eoe];
    unfold LogfireSpan.__enter__; simpl;
    unfold bind, start_span, time_ns, attach, ret; simpl;
    eexists _, _, _, _; split_and!; reflexivity.
Qed.


End LifeCycleFacts.

Lemma exit_span_records_witness :
  dict_get "exception.logfire.data"
    (sp_attributes
       (_exit_span (C := example_constants) (E := example_externals)
          (mkSpan "work" [] (mkStatus UNSET None) [] 0 None)
          (Some "ValidationError") (Some (mkException "1 error" true (Some "[]"))) tt))
  = Some (VStr "[]").
Proof.
  destruct (exit_span_records (C := example_constants) (E := example_externals)
              (mkSpan "work" [] (mkStatus UNSET None) [] 0 None)
              "ValidationError" (mkException "1 error" true (Some "[]")) tt
              eq_refl eq_refl) as [Hpayload _].
  destruct (Hpayload "[]" eq_refl) as [Hattribute _]. exact Hattribute.
Defined.

Lemma with_block_normal_witness :
  exists w self,
    (entered <- LogfireSpan.__enter__
                  (LogfireSpan.__init__ "work" [("a", VInt 1)] (mk_FormatArgs "work" [] 4)) ;;
     LogfireSpan.__exit__ (C := example_constants) (E := example_externals)
       entered None None tt) empty_world = (w, Ok self) /\
    length (w_finished w) = 1%nat /\
    w_context w = [].
Proof.
  pose proof (with_block_normal (C := example_constants) (E := example_externals)
                (LogfireSpan.__init__ "work" [("a", VInt 1)] (mk_FormatArgs "work" [] 4))
                tt empty_world eq_refl eq_refl) as Hrun.
  eexists _, _. split; [exact Hrun|]. split; reflexivity.
Defined.


Section MoreLifeCycleFacts.
Context {C : Constants} {E : Externals}.


(** X17.  A manual [end] inside the block.  On an active span that
    still records, [end] hands the span over as it is; the [__exit__]
    that follows, with or without an exception, clears the token and
    leaves the span and the spans handed over as they are: neither the
    exit status, nor the exception, nor the message formatted on exit
    reach the span. *)
Theorem exit_after_end (self : LogfireSpan.t) (token : nat) (span : Span)
  (exc_type : option string) (exc_value : option exception) (tb : traceback) (w : World) :
  LogfireSpan._token self = Some token ->
  LogfireSpan._span self = Some span ->
  is_recording span = true ->
  exists w1 self1 span1 w2 self2,
    LogfireSpan.end_ self w = (w1, Ok self1) /\
    LogfireSpan._span self1 = Some span1 /\
    w_finished w1 = (w_finished w ++ [span1])%list /\
    sp_status span1 = sp_status span /\
    sp_attributes span1 = sp_attributes span /\
    sp_events span1 = sp_events span /\
    LogfireSpan.__exit__ self1 exc_type exc_value tb w1 = (w2, Ok self2) /\
    LogfireSpan._span self2 = Some span1 /\
    LogfireSpan._token self2 = None /\
    w_finished w2 = w_finished w1.
Proof.
  intros Htoken Hspan Hr.
  destruct self as [nm attrs tk fa sp eoe]. simpl in *. subst tk sp.
  destruct span as [snm sattrs st evs t0 [t1|]]; [discriminate Hr|]. clear Hr.
  destruct (logfire_format (format_string fa)
              (dict_update [("span_name", VStr nm)] (kwargs fa)) None (stacklevel fa))
    as [ws msg] eqn:Hformat.
  set (span1 := mkSpan snm sattrs st evs t0 (Some (w_clock w))).
  set (w1 := mkWorld (w_warnings w) (w_log w) (w_finished w ++ [span1]) (w_context w)
               (w_clock w + 1)).
  assert (Hexit : exists w2,
             LogfireSpan.__exit__ (LogfireSpan.mk nm attrs (Some token) fa (Some span1) eoe)
               exc_type exc_value tb w1
             = (w2, Ok (LogfireSpan.mk nm attrs None fa (Some span1) eoe)) /\
             w_finished w2 = w_finished w1).
  { unfold LogfireSpan.__exit__. simpl.
    unfold bind, detach, format_message, ret. simpl. rewrite Hformat. simpl.
    destruct eoe; unfold Span_end, bind, sdk_log, ret; simpl; eexists; split; reflexivity. }
  destruct Hexit as (w2 & Hexit & Hfinished).
  exists w1, (LogfireSpan.mk nm attrs (Some token) fa (Some span1) eoe), span1, w2,
    (LogfireSpan.mk nm attrs None fa (Some span1) eoe).
  split_and!; try reflexivity; done.
Qed.

(** X18.  [set_attribute].  The binding always goes to the keyword
    arguments the exit message is formatted with.  Before the span is
    started it goes to the pending attributes, so the span that
    [__enter__] starts has it; on a started span that still records it
    goes to the span, and the other attributes stay; on a span that has
    ended the span is left as it is. *)
Theorem set_attribute_reaches_span (self : LogfireSpan.t) (key : string) (value : pyval)
  (w : World) :
  let self' := LogfireSpan.set_attribute self key value in
  dict_get key (kwargs (LogfireSpan._format_args self')) = Some value /\
  (LogfireSpan._span self = None ->
   exists w1 self1 span1,
     LogfireSpan.__enter__ self' w = (w1, Ok self1) /\
     LogfireSpan._span self1 = Some span1 /\
     dict_get key (sp_attributes span1) = Some value) /\
  (forall span,
     LogfireSpan._span self = Some span -> is_recording span = true ->
     exists span',
       LogfireSpan._span self' = Some span' /\
       dict_get key (sp_attributes span') = Some value /\
       forall k, k ≠ key ->
                 dict_get k (sp_attributes span') = dict_get k (sp_attributes span)) /\
  (forall span,
     LogfireSpan._span self = Some span -> is_recording span = false ->
     LogfireSpan._span self' = Some span).
Proof.
  intros self'. subst self'. destruct self as [nm attrs tk fa sp eoe].
  unfold LogfireSpan.set_attribute. simpl. split_and!.
  - destruct sp; simpl; apply dict_get_set_eq.
  - intros ->. unfold LogfireSpan.__enter__. simpl.
    unfold bind, start_span, time_ns, ret. simpl.
    destruct tk as [token|]; simpl;
      eexists _, _, _; (split; [reflexivity|]); (split; [reflexivity|]); simpl;
      apply dict_get_set_eq.
  - intros span -> Hr. simpl. unfold Span_set_attribute. rewrite Hr.
    eexists. split; [reflexivity|]. simpl. split; [apply dict_get_set_eq|].
    intros k Hk. by apply dict_get_set_ne.
  - intros span -> Hr. simpl. unfold Span_set_attribute. by rewrite Hr.
Qed.

(** X19.  The auto-tracing span.  [_fast_span] starts a span and
    attaches it at once; its [__exit__] detaches it, so that the context
    is what it was before, and always ends the span and hands it over,
    exactly once.  After a normal exit the span has the status [OK] and
    the attributes it was started with; after an [Exception] it has the
    status [ERROR] with the description "type: message". *)
Theorem fast_span_life_cycle (self : Logfire.t) (msg : string) (attributes : dict pyval)
  (exc_type : option string) (exc_value : option exception) (tb : traceback) (w : World) :
  exists w1 fast w2 fast' span,
    Logfire._fast_span self msg attributes w = (w1, Ok fast) /\
    w_context w1 = FastLogfireSpan._token fast :: w_context w /\
    w_finished w1 = w_finished w /\
    FastLogfireSpan.__exit__ (FastLogfireSpan.__enter__ fast) exc_type exc_value tb w1
    = (w2, Ok fast') /\
    FastLogfireSpan._span fast' = span /\
    w_context w2 = w_context w /\
    w_finished w2 = (w_finished w ++ [span])%list /\
    sp_name span = msg /\
    sp_start_time span = w_clock w /\
    sp_end_time span = Some (w_clock w + 1) /\
    (exc_type = None -> sp_status span = OK_STATUS /\ sp_attributes span = attributes) /\
    (forall type_name exc,
       exc_type = Some type_name -> exc_value = Some exc -> exc_is_Exception exc = true ->
       sp_status span = mkStatus ERROR (Some (type_name ++ ": " ++ exc_str exc))).
Proof.
  set (started := mkSpan msg attributes (mkStatus UNSET None) [] (w_clock w) None).
  assert (Hexited : exists st attrs evs,
             _exit_span started exc_type exc_value tb
             = mkSpan msg attrs st evs (w_clock w) None /\
             (exc_type = None -> st = OK_STATUS /\ attrs = attributes) /\
             (forall type_name exc,
                exc_type = Some type_name -> exc_value = Some exc ->
                exc_is_Exception exc = true ->
                st = mkStatus ERROR (Some (type_name ++ ": " ++ exc_str exc)))).
  { unfold _exit_span, started. cbn -[dict_set].
    destruct exc_type as [type_name|], exc_value as [exc|]; cbn -[dict_set].
    - destruct (exc_is_Exception exc) eqn:Hexc; cbn -[dict_set].
      + destruct (exc_validation_json exc); cbn -[dict_set];
          eexists _, _, _; (split; [reflexivity|]); (split; [done|]);
          by intros ? ? [= <-] [= <-] _.
      + eexists _, _, _. split; [reflexivity|]. split; [done|].
        intros ? ? [= <-] [= <-]. congruence.
    - eexists _, _, _. split; [reflexivity|]. split; [done|]. by intros ? ? _ [=].
    - eexists _, _, _. split; [reflexivity|]. split; [done|]. by intros ? ? [=].
    - eexists _, _, _. split; [reflexivity|]. split; [done|]. by intros ? ? [=]. }
  destruct Hexited as (st & attrs & evs & Hexited & Hnormal & Herror).
  set (span := mkSpan msg attrs st evs (w_clock w) (Some (w_clock w + 1))).
  exists (mkWorld (w_warnings w) (w_log w) (w_finished w)
            (length (w_context w) :: w_context w) (w_clock w + 1)),
    (FastLogfireSpan.mk started (length (w_context w))),
    (mkWorld (w_warnings w) (w_log w) (w_finished w ++ [span]) (w_context w)
       (w_clock w + 1 + 1)),
    (FastLogfireSpan.mk span (length (w_context w))), span.
  split_and!; try reflexivity; try done.
  unfold FastLogfireSpan.__exit__, FastLogfireSpan.__enter__. simpl.
  unfold bind at 1. unfold detach. simpl. rewrite Hexited.
  unfold Span_end, bind, time_ns, on_end, ret. simpl.
  replace (S (length (w_context w)) - length (w_context w))%nat with 1%nat by lia.
  reflexivity.
Qed.

End MoreLifeCycleFacts.


Lemma exit_after_end_witness :
  exists w1 self1 span1,
    LogfireSpan.end_
      (LogfireSpan.mk "work" [] (Some 0%nat) (mk_FormatArgs "work" [] 4)
         (Some (mkSpan "work" [] (mkStatus UNSET None) [] 0 None)) true)
      (mkWorld [] [] [] [0%nat] 1) = (w1, Ok self1) /\
    LogfireSpan._span self1 = Some span1 /\
    sp_status span1 = mkStatus UNSET None.
Proof.
  destruct (exit_after_end (C := example_constants) (E := example_externals)
              (LogfireSpan.mk "work" [] (Some 0%nat) (mk_FormatArgs "work" [] 4)
                 (Some (mkSpan "work" [] (mkStatus UNSET None) [] 0 None)) true)
              0%nat (mkSpan "work" [] (mkStatus UNSET None) [] 0 None)
              (Some "ValueError") (Some (mkException "boom" true None)) tt
              (mkWorld [] [] [] [0%nat] 1) eq_refl eq_refl eq_refl)
    as (w1 & self1 & span1 & w2 & self2 & Hend & Hspan & _ & Hstatus & _).
  exists w1, self1, span1. split; [exact Hend|]. split; [exact Hspan|exact Hstatus].
Defined.

(** ** More on dictionaries: [{**d1, **d2}] *)

Section DictUpdateFacts.
Context {V : Type}.
Implicit Types (d : dict V) (k : string) (v : V).

Lemma dict_update_app d d1 d2 :
  dict_update d (d1 ++ d2) = dict_update (dict_update d d1) d2.
Proof. unfold dict_update. apply fold_left_app. Qed.

Lemma elem_of_keys_dict_update k d1 d2 :
  k ∈ keys (dict_update d1 d2) <-> k ∈ keys d1 \/ k ∈ keys d2.
Proof.
  revert d1. induction d2 as [|[k' v'] d2 IH]; intros d1.
  - simpl. rewrite elem_of_nil. tauto.
  - change (dict_update d1 ((k', v') :: d2)) with (dict_update (dict_set k' v' d1) d2).
    rewrite IH, elem_of_keys_dict_set. simpl. rewrite elem_of_cons. tauto.
Qed.

Lemma NoDup_keys_dict_update d1 d2 : NoDup (keys d1) -> NoDup (keys (dict_update d1 d2)).
Proof.
  revert d1. induction d2 as [|[k' v'] d2 IH]; intros d1 Hnd; [done|].
  change (dict_update d1 ((k', v') :: d2)) with (dict_update (dict_set k' v' d1) d2).
  by apply IH, NoDup_keys_dict_set.
Qed.

Lemma dict_get_update_other k d1 d2 :
  k ∉ keys d2 -> dict_get k (dict_update d1 d2) = dict_get k d1.
Proof.
  revert d1. induction d2 as [|[k' v'] d2 IH]; intros d1; [done|].
  simpl. intros [Hne Hk]%not_elem_of_cons.
  change (dict_update d1 ((k', v') :: d2)) with (dict_update (dict_set k' v' d1) d2).
  rewrite IH by done. by apply dict_get_set_ne.
Qed.

(** In [{**d1, **d2}] the bindings of [d2] win. *)
Lemma dict_get_update k v d1 d2 :
  NoDup (keys d2) -> dict_get k d2 = Some v -> dict_get k (dict_update d1 d2) = Some v.
Proof.
  revert d1. induction d2 as [|[k' v'] d2 IH]; intros d1 Hnd; [done|].
  simpl in Hnd. apply NoDup_cons in Hnd as [Hk' Hnd].
  change (dict_update d1 ((k', v') :: d2)) with (dict_update (dict_set k' v' d1) d2).
  simpl. destruct (String.eqb_spec k k') as [->|Hne].
  - intros [= ->]. rewrite dict_get_update_other by done. apply dict_get_set_eq.
  - intros Hget. by apply IH.
Qed.

End DictUpdateFacts.

(** ** The auto-tracing attributes *)

(** X20.  [_fast_span_attributes].  The message is "Calling
    module.function" and the keys of the attributes are unique.  The tag
    attribute is the tuple of the instance tags in their order of first
    occurrence, followed by "auto-trace" unless it is among them: it has
    no duplicates and always holds "auto-trace".  A sample rate of the
    instance other than [1] is set under the sample-rate key; a rate of
    [1], or none, sets nothing, so that no rate is emitted when no other
    key is the sample-rate key. *)
Theorem fast_span_attributes_tags {C : Constants}
  (get_filepath_attribute : string -> dict pyval) (self : Logfire.t)
  (filename module_name function_name : string) (lineno : Z) :
  let result :=
    Logfire._fast_span_attributes get_filepath_attribute self filename module_name
      function_name lineno in
  let tags := dedup_first (Logfire._tags self ++ ["auto-trace"]) in
  fst result = "Calling " ++ module_name ++ "." ++ function_name /\
  NoDup (keys (snd result)) /\
  NoDup tags /\ "auto-trace" ∈ tags /\
  (forall t, t ∈ tags <-> t ∈ Logfire._tags self \/ t = "auto-trace") /\
  (ATTRIBUTES_TAGS_KEY ≠ ATTRIBUTES_SAMPLE_RATE_KEY ->
   dict_get ATTRIBUTES_TAGS_KEY (snd result) = Some (VTuple tags)) /\
  (forall rate,
     Logfire._sample_rate self = Some rate -> PrimFloat.eqb rate 1 = false ->
     dict_get ATTRIBUTES_SAMPLE_RATE_KEY (snd result) = Some (VFloat rate)) /\
  (ATTRIBUTES_SAMPLE_RATE_KEY
   ∉ (keys (get_filepath_attribute filename)
      ++ ["code.lineno"; "code.function"; ATTRIBUTES_MESSAGE_TEMPLATE_KEY;
          ATTRIBUTES_MESSAGE_KEY; ATTRIBUTES_TAGS_KEY])%list ->
   Logfire._sample_rate self = None \/
   (exists rate, Logfire._sample_rate self = Some rate /\ PrimFloat.eqb rate 1 = true) ->
   dict_get ATTRIBUTES_SAMPLE_RATE_KEY (snd result) = None).
Proof.
  intros result tags. subst result.
  unfold Logfire._fast_span_attributes. cbn [fst snd].
  rewrite uniquify_sequence_dedup. fold tags.
  set (stack_info := dict_update (dict_update [] (get_filepath_attribute filename)) _).
  set (literal := dict_update (dict_update [] stack_info) _).
  assert (Hnd : NoDup (keys literal)).
  { apply NoDup_keys_dict_update, NoDup_keys_dict_update. constructor. }
  assert (Htags : dict_get ATTRIBUTES_TAGS_KEY literal = Some (VTuple tags)).
  { unfold literal.
    change [(ATTRIBUTES_MESSAGE_TEMPLATE_KEY, VStr ("Calling " ++ module_name ++ "." ++ function_name));
            (ATTRIBUTES_MESSAGE_KEY, VStr ("Calling " ++ module_name ++ "." ++ function_name));
            (ATTRIBUTES_TAGS_KEY, VTuple tags)]
      with ([(ATTRIBUTES_MESSAGE_TEMPLATE_KEY,
              VStr ("Calling " ++ module_name ++ "." ++ function_name));
             (ATTRIBUTES_MESSAGE_KEY,
              VStr ("Calling " ++ module_name ++ "." ++ function_name))]
            ++ [(ATTRIBUTES_TAGS_KEY, VTuple tags)])%list.
    rewrite dict_update_app. apply dict_get_set_eq. }
  assert (Hkeys : forall k,
             k ∈ keys literal ->
             k ∈ (keys (get_filepath_attribute filename)
                  ++ ["code.lineno"; "code.function"; ATTRIBUTES_MESSAGE_TEMPLATE_KEY;
                      ATTRIBUTES_MESSAGE_KEY; ATTRIBUTES_TAGS_KEY])%list).
  { intros k. unfold literal, stack_info.
    rewrite !elem_of_keys_dict_update. simpl.
    rewrite elem_of_app, !elem_of_cons, !elem_of_nil. tauto. }
  split_and!.
  - reflexivity.
  - destruct (Logfire._sample_rate self) as [rate|]; [|done].
    destruct (PrimFloat.eqb rate 1); [done|]. by apply NoDup_keys_dict_set.
  - apply NoDup_dedup_first.
  - apply elem_of_dedup_first, elem_of_app. right. left.
  - intros t. unfold tags. rewrite elem_of_dedup_first, elem_of_app, list_elem_of_singleton.
    tauto.
  - intros Hne. destruct (Logfire._sample_rate self) as [rate|]; [|done].
    destruct (PrimFloat.eqb rate 1); [done|]. by rewrite dict_get_set_ne.
  - intros rate -> ->. apply dict_get_set_eq.
  - intros Hfresh Hrate.
    assert (Hnone : dict_get ATTRIBUTES_SAMPLE_RATE_KEY literal = None).
    { apply dict_get_None. intros Hin. by apply Hfresh, Hkeys. }
    destruct Hrate as [->|(rate & -> & ->)]; done.
Qed.

(** ** Creating a span *)

Section SpanCreationFacts.
Context {C : Constants} {E : Externals}.

Lemma _span_run (self : Logfire.t) (msg_template : string) (attributes : dict pyval)
  (span_name : option string) (level : Z) (decorator : bool) (w : World) :
  (exists e, Logfire._span self msg_template attributes span_name level decorator w
             = (w, Raise e)) \/
  (exists ws tags merged_attributes otlp,
     _merge_tags_into_attributes
       (dict_set ATTRIBUTES_MESSAGE_TEMPLATE_KEY (VStr msg_template)
          (dict_update (get_caller_stack_info level) attributes))
       (Logfire._tags self) = Ok (tags, merged_attributes) /\
     let span_name_ := match span_name with Some n => n | None => msg_template end in
     let formatted :=
       logfire_format msg_template
         (dict_update [("span_name", VStr span_name_)] merged_attributes) (Some "...")
         level in
     let kwargs_ :=
       dict_set ATTRIBUTES_MESSAGE_KEY (VStr (snd formatted)) merged_attributes in
     user_attributes kwargs_ (with_warnings w (fst formatted))
     = (with_warnings w ws, Ok otlp) /\
     Logfire._span self msg_template attributes span_name level decorator w
     = (with_warnings w ws,
        Ok (LogfireSpan.__init__ span_name_
              (Logfire.resolve_sample_rate self
                 (Logfire.add_tags tags (Logfire.add_json_schema attributes otlp)))
              (mk_FormatArgs msg_template kwargs_
                 (level + (if decorator then 2 else 1)))))).
Proof.
  unfold Logfire._span. unfold bind at 1. unfold lift.
  destruct (_merge_tags_into_attributes _ _) as [[tags merged]|e] eqn:Hmerge;
    [|left; eauto].
  right. unfold bind at 1. unfold format_message.
  destruct (logfire_format _ _ _ _) as [ws1 msg] eqn:Hformat.
  destruct (user_attributes_total
              (dict_set ATTRIBUTES_MESSAGE_KEY (VStr msg) merged) (with_warnings w ws1))
    as (ws2 & otlp & Hua).
  exists (ws1 ++ ws2)%list, tags, merged, otlp. split; [reflexivity|].
  rewrite Hformat. cbn [fst snd]. rewrite with_warnings_app in Hua.
  split; [exact Hua|]. unfold bind. rewrite Hua. reflexivity.
Qed.

(** X21.  Creating a span emits nothing.  Whether [span] returns or
    raises, no span has been started or handed over, the context and the
    clock are untouched and the SDK has logged nothing: only warnings
    may have been added.  The span it returns is not started, has no
    token, ends on exit, is named by [span_name], or by the template
    when no name is given, and formats its exit message from the
    template. *)
Theorem span_is_lazy (self : Logfire.t) (msg_template : string) (span_name : option string)
  (attributes : dict pyval) (w w' : World) (r : result LogfireSpan.t) :
  Logfire.span self msg_template span_name attributes w = (w', r) ->
  (exists ws, w' = with_warnings w ws) /\
  forall logfire_span,
    r = Ok logfire_span ->
    LogfireSpan._span logfire_span = None /\
    LogfireSpan._token logfire_span = None /\
    LogfireSpan.end_on_exit logfire_span = true /\
    LogfireSpan._span_name logfire_span
    = match span_name with Some n => n | None => msg_template end /\
    format_string (LogfireSpan._format_args logfire_span) = msg_template.
Proof.
  unfold Logfire.span. destruct (Logfire.any_underscore attributes).
  - intros [= <- <-]. split; [exists []; by rewrite with_warnings_nil|done].
  - destruct (_span_run self msg_template attributes span_name 3 false w)
      as [[e Hrun]|(ws & tags & merged & otlp & _ & _ & Hrun)];
      rewrite Hrun; intros [= <- <-].
    + split; [exists []; by rewrite with_warnings_nil|done].
    + split; [by exists ws|]. by intros ? [= <-].
Qed.

End SpanCreationFacts.

Lemma span_is_lazy_witness :
  exists ws,
    fst (Logfire.span (C := example_constants) (E := example_externals)
           (Logfire.mk ["t"] None) "hello {a}" None [("a", VInt (2 ^ 70))] empty_world)
    = with_warnings empty_world ws.
Proof.
  destruct (span_is_lazy (C := example_constants) (E := example_externals)
              (Logfire.mk ["t"] None) "hello {a}" None [("a", VInt (2 ^ 70))] empty_world
              _ _ (surjective_pairing _)) as [Hworld _].
  exact Hworld.
Defined.

(** ** Reading the template and the tags back *)

Section RoundTripFacts.
Context {C : Constants} {E : Externals}.

Lemma reserved_keys_distinct :
  NoDup reserved_keys ->
  ATTRIBUTES_MESSAGE_TEMPLATE_KEY ≠ ATTRIBUTES_MESSAGE_KEY /\
  ATTRIBUTES_MESSAGE_TEMPLATE_KEY ≠ ATTRIBUTES_TAGS_KEY /\
  ATTRIBUTES_MESSAGE_TEMPLATE_KEY ≠ ATTRIBUTES_JSON_SCHEMA_KEY /\
  ATTRIBUTES_MESSAGE_TEMPLATE_KEY ≠ ATTRIBUTES_SAMPLE_RATE_KEY /\
  ATTRIBUTES_MESSAGE_TEMPLATE_KEY ≠ NULL_ARGS_KEY /\
  ATTRIBUTES_TAGS_KEY ≠ ATTRIBUTES_MESSAGE_KEY /\
  ATTRIBUTES_TAGS_KEY ≠ ATTRIBUTES_JSON_SCHEMA_KEY /\
  ATTRIBUTES_TAGS_KEY ≠ ATTRIBUTES_SAMPLE_RATE_KEY /\
  ATTRIBUTES_TAGS_KEY ≠ NULL_ARGS_KEY.
Proof.
  unfold reserved_keys. rewrite !NoDup_cons, !not_elem_of_cons.
  intros Hnd. split_and!; intros Heq; rewrite Heq in Hnd; tauto.
Qed.

Lemma dict_get_resolve_sample_rate_other (self : Logfire.t) (k : string) (d : dict pyval) :
  k ≠ ATTRIBUTES_SAMPLE_RATE_KEY ->
  dict_get k (Logfire.resolve_sample_rate self d) = dict_get k d.
Proof.
  intros Hk. unfold Logfire.resolve_sample_rate, dict_pop.
  destruct (Logfire._sample_rate self) as [rate|].
  - destruct (negb _ && _); [by apply dict_get_set_ne|done].
  - destruct (dict_get ATTRIBUTES_SAMPLE_RATE_KEY d) as [v|] eqn:Hget.
    + destruct (negb _ && _).
      * rewrite dict_get_set_ne by done. by apply dict_get_without_ne.
      * by apply dict_get_without_ne.
    + simpl. done.
Qed.

Lemma dict_get_add_tags_other (tags : option (list string)) (k : string) (d : dict pyval) :
  k ≠ ATTRIBUTES_TAGS_KEY -> dict_get k (Logfire.add_tags tags d) = dict_get k d.
Proof.
  intros Hk. unfold Logfire.add_tags. destruct tags as [[|tag rest]|]; try done.
  by apply dict_get_set_ne.
Qed.

Lemma dict_get_add_json_schema_other (attributes : dict pyval) (k : string)
  (d : dict pyval) :
  k ≠ ATTRIBUTES_JSON_SCHEMA_KEY ->
  dict_get k (Logfire.add_json_schema attributes d) = dict_get k d.
Proof.
  intros Hk. unfold Logfire.add_json_schema.
  destruct (String.eqb _ _); [done|]. by apply dict_get_set_ne.
Qed.

Lemma dict_get_encoded_entries (k : string) (m : dict pyval) :
  dict_get k (map (fun kv => (fst kv, encode_value (snd kv))) (non_null m))
  = match dict_get k (non_null m) with
    | Some v => Some (encode_value v)
    | None => None
    end.
Proof.
  induction (non_null m) as [|[k' v'] l IH]; simpl; [done|].
  by destruct (String.eqb k k').
Qed.

Lemma dict_get_non_null (k : string) (m : dict pyval) :
  NoDup (keys m) ->
  dict_get k (non_null m)
  = match dict_get k m with
    | Some v => if is_None v then None else Some v
    | None => None
    end.
Proof.
  unfold non_null. induction m as [|[k' v'] m IH]; [done|].
  simpl. intros [Hk' Hnd]%NoDup_cons. rewrite filter_cons. simpl.
  destruct (String.eqb_spec k k') as [->|Hne].
  - destruct (is_None v') eqn:Hv; simpl.
    + rewrite IH by done. apply dict_get_None in Hk'. by rewrite Hk'.
    + by rewrite String.eqb_refl.
  - destruct (decide (¬ is_None v')); simpl; [|by apply IH].
    destruct (String.eqb_spec k k'); [done|by apply IH].
Qed.

(** A key other than the null-args key is bound in the encoding to the
    encoded value it had, and is unbound when it was unbound or [None]. *)
Lemma dict_get_user_attributes (k : string) (m encoded : dict pyval) (w w' : World) :
  NoDup (keys m) ->
  k ≠ NULL_ARGS_KEY ->
  user_attributes m w = (w', Ok encoded) ->
  dict_get k encoded
  = match dict_get k m with
    | Some v => if is_None v then None else Some (encode_value v)
    | None => None
    end.
Proof.
  intros Hnd Hk. rewrite user_attributes_exact by done. intros [= _ <-].
  assert (Hprepared :
            dict_get k (map (fun kv => (fst kv, encode_value (snd kv))) (non_null m))
            = match dict_get k m with
              | Some v => if is_None v then None else Some (encode_value v)
              | None => None
              end).
  { rewrite dict_get_encoded_entries, dict_get_non_null by done.
    destruct (dict_get k m) as [v|]; [|done]. by destruct (is_None v). }
  destruct (null_keys m); [done|]. by rewrite dict_get_set_ne.
Qed.

Lemma merge_tags_attributes (attributes attributes' : dict pyval) (tags : list string)
  (merged_tags : option (list string)) :
  _merge_tags_into_attributes attributes tags = Ok (merged_tags, attributes') ->
  attributes' = dict_without ATTRIBUTES_TAGS_KEY attributes /\
  exists a,
    dict_get ATTRIBUTES_TAGS_KEY attributes = VList <$> a /\
    merged_tags
    = match (default [] a ++ tags)%list with
      | [] => None
      | tag :: rest => Some (dedup_first (default [] a ++ tags))
      end.
Proof.
  unfold _merge_tags_into_attributes.
  destruct (dict_get ATTRIBUTES_TAGS_KEY attributes) as [v|] eqn:Hget.
  - destruct v as [| | | | |l| |]; simpl; try discriminate.
    destruct (l ++ tags)%list as [|tag rest] eqn:Hl; intros [= <- <-];
      (split; [done|]); exists (Some l); simpl; rewrite Hl; [done|].
    by rewrite uniquify_sequence_dedup.
  - assert (Hsame : dict_without ATTRIBUTES_TAGS_KEY attributes = attributes).
    { apply dict_get_None in Hget. unfold dict_without.
      clear -Hget. induction attributes as [|[k v] d IH]; [done|].
      simpl in Hget. apply not_elem_of_cons in Hget as [Hne Hd].
      rewrite filter_cons_True by (simpl; congruence). by rewrite IH. }
    destruct tags as [|tag rest] eqn:Htags; intros [= <- <-];
      (split; [done|]); exists None; simpl; [done|].
    by rewrite uniquify_sequence_dedup.
Qed.

Lemma NoDup_keys_dict_without {V} (key : string) (d : dict V) :
  NoDup (keys d) -> NoDup (keys (dict_without key d)).
Proof. rewrite keys_dict_without. apply NoDup_filter. Qed.

(** X22.  Round trip of the template and of the tags.  When the
    reserved keys are pairwise different (and the stack information is a
    dictionary), a span that [span] has created and that has been
    entered gives back, as [message_template], the template it was
    created with, whatever the attributes were; and, as [tags], the tags
    of the tag attribute followed by the tags of the instance, without
    duplicates (the empty list when there is none). *)
Theorem span_template_and_tags_round_trip (str_other : pyval -> string) (self : Logfire.t)
  (msg_template : string) (span_name : option string) (attributes : dict pyval)
  (w w1 w2 : World) (logfire_span entered : LogfireSpan.t) :
  NoDup reserved_keys ->
  NoDup (keys (get_caller_stack_info 3)) ->
  Logfire.span self msg_template span_name attributes w = (w1, Ok logfire_span) ->
  LogfireSpan.__enter__ logfire_span w1 = (w2, Ok entered) ->
  LogfireSpan.message_template str_other entered = LogfireSpan.Value (Some msg_template) /\
  exists a,
    dict_get ATTRIBUTES_TAGS_KEY (dict_update (get_caller_stack_info 3) attributes)
    = VList <$> a /\
    LogfireSpan.tags entered
    = LogfireSpan.Value (VList (dedup_first (default [] a ++ Logfire._tags self))).
Proof.
  intros Hreserved Hstack Hspan Henter.
  destruct (reserved_keys_distinct Hreserved)
    as (Htm & Htt & Htj & Hts & Htn & Hgm & Hgj & Hgs & Hgn).
  unfold Logfire.span in Hspan.
  destruct (Logfire.any_underscore attributes); [discriminate Hspan|].
  destruct (_span_run self msg_template attributes span_name 3 false w)
    as [[e Hrun]|(ws & tags & merged & otlp & Hmerge & Hua & Hrun)];
    rewrite Hrun in Hspan; [discriminate Hspan|].
  injection Hspan as <- <-. clear Hrun.
  apply merge_tags_attributes in Hmerge as (-> & a & Hexisting & ->).
  rewrite dict_get_set_ne in Hexisting by done.
  set (merged0 := dict_set ATTRIBUTES_MESSAGE_TEMPLATE_KEY (VStr msg_template)
                    (dict_update (get_caller_stack_info 3) attributes)) in *.
  set (merged := dict_without ATTRIBUTES_TAGS_KEY merged0) in *.
  cbn [fst snd] in Hua.
  set (kwargs_ := dict_set ATTRIBUTES_MESSAGE_KEY _ merged) in *.
  assert (Hnd : NoDup (keys kwargs_)).
  { apply NoDup_keys_dict_set, NoDup_keys_dict_without, NoDup_keys_dict_set.
    by apply NoDup_keys_dict_update. }
  assert (Htemplate : dict_get ATTRIBUTES_MESSAGE_TEMPLATE_KEY otlp
                      = Some (VStr msg_template)).
  { rewrite (dict_get_user_attributes _ _ _ _ _ Hnd Htn Hua).
    unfold kwargs_, merged, merged0.
    rewrite dict_get_set_ne by done. rewrite dict_get_without_ne by done.
    by rewrite dict_get_set_eq. }
  assert (Hnotags : dict_get ATTRIBUTES_TAGS_KEY otlp = None).
  { rewrite (dict_get_user_attributes _ _ _ _ _ Hnd Hgn Hua).
    unfold kwargs_, merged. rewrite dict_get_set_ne by done.
    by rewrite dict_get_without_eq. }
  set (final := Logfire.resolve_sample_rate self _) in *.
  assert (Hfinal_template : dict_get ATTRIBUTES_MESSAGE_TEMPLATE_KEY final
                            = Some (VStr msg_template)).
  { unfold final. rewrite dict_get_resolve_sample_rate_other by done.
    rewrite dict_get_add_tags_other by done.
    by rewrite dict_get_add_json_schema_other. }
  assert (Hfinal_tags :
            dict_get ATTRIBUTES_TAGS_KEY final
            = match (default [] a ++ Logfire._tags self)%list with
              | [] => None
              | tag :: rest => Some (VList (dedup_first (default [] a ++ Logfire._tags self)))
              end).
  { unfold final. rewrite dict_get_resolve_sample_rate_other by done.
    destruct (default [] a ++ Logfire._tags self)%list as [|tag rest] eqn:Hl.
    - simpl. by rewrite dict_get_add_json_schema_other.
    - unfold Logfire.add_tags. simpl. apply dict_get_set_eq. }
  unfold LogfireSpan.__enter__, LogfireSpan.__init__ in Henter. simpl in Henter.
  unfold bind, start_span, time_ns, attach, ret in Henter. simpl in Henter.
  injection Henter as _ <-.
  unfold LogfireSpan.message_template, LogfireSpan.tags. cbn [LogfireSpan._span sp_attributes].
  split.
  - destruct final as [|entry rest]; [discriminate Hfinal_template|].
    cbn -[dict_get]. by rewrite Hfinal_template.
  - exists a. split; [exact Hexisting|].
    destruct final as [|entry rest]; [discriminate Hfinal_template|].
    cbn -[dict_get dedup_first default]. rewrite Hfinal_tags.
    by destruct (default [] a ++ Logfire._tags self)%list.
Qed.

End RoundTripFacts.

Lemma span_template_and_tags_round_trip_witness :
  exists w1 logfire_span w2 entered,
    Logfire.span (C := example_constants) (E := example_externals)
      (Logfire.mk ["api"] None) "hello {a}" None
      [("a", VInt 1); ("logfire.msg_template", VStr "forged")] empty_world
    = (w1, Ok logfire_span) /\
    LogfireSpan.__enter__ logfire_span w1 = (w2, Ok entered) /\
    LogfireSpan.message_template (C := example_constants) (fun _ => EmptyString) entered
    = LogfireSpan.Value (Some "hello {a}").
Proof.
  eexists _, _, _, _.
  split; [vm_compute; reflexivity|]. split; [vm_compute; reflexivity|].
  eapply (span_template_and_tags_round_trip (C := example_constants)
            (E := example_externals) (fun _ => EmptyString) (Logfire.mk ["api"] None)
            "hello {a}" None [("a", VInt 1); ("logfire.msg_template", VStr "forged")]
            empty_world).
  - apply (bool_decide_unpack _). vm_compute. exact I.
  - apply (bool_decide_unpack _). vm_compute. exact I.
  - vm_compute. reflexivity.
  - vm_compute. reflexivity.
Defined.

(** ** More on the encoding and on [log] *)

Section MoreEncodingFacts.
Context {C : Constants} {E : Externals}.

Lemma keys_encoded_entries (l : dict pyval) :
  keys (map (fun kv => (fst kv, encode_value (snd kv))) l) = keys l.
Proof. unfold keys. rewrite map_map. by apply map_ext. Qed.

(** X23.  The encoding keeps the order and is the identity on what is
    already encoded.  For a dictionary that does not use the null-args
    key, the keys of the result are the keys of the entries that are not
    [None], in their order, followed by the null-args key when some
    entry is [None].  A dictionary whose values are all strings, floats,
    booleans or integers not above the bound is returned as it is,
    without any warning, so that encoding twice is encoding once. *)
Theorem user_attributes_order_and_identity (m : dict pyval) (w : World) :
  NoDup (keys m) ->
  (NULL_ARGS_KEY ∉ keys m ->
   exists ws encoded,
     user_attributes m w = (with_warnings w ws, Ok encoded) /\
     keys encoded
     = (keys (non_null m)
        ++ match null_keys m with [] => [] | _ :: _ => [NULL_ARGS_KEY] end)%list) /\
  (Forall (fun kv => is_primitive (snd kv) /\
                     forall z, snd kv = VInt z -> z <= OTLP_MAX_INT_SIZE) m ->
   user_attributes m w = (w, Ok m)).
Proof.
  intros Hnd. rewrite user_attributes_exact by done. split.
  - intros Hfresh. eexists _, _. split; [reflexivity|].
    assert (Hfresh' : NULL_ARGS_KEY
                      ∉ keys (map (fun kv => (fst kv, encode_value (snd kv))) (non_null m))).
    { rewrite keys_encoded_entries. intros Hin. apply Hfresh.
      unfold non_null, keys in *. apply list_elem_of_fmap in Hin as (kv & -> & Hin).
      apply list_elem_of_filter in Hin as [_ Hin]. apply list_elem_of_fmap. eauto. }
    destruct (null_keys m) as [|key rest].
    + by rewrite keys_encoded_entries, app_nil_r.
    + rewrite dict_set_fresh by done.
      rewrite <- (keys_encoded_entries (non_null m)).
      unfold keys. by rewrite map_app.
  - intros Hencoded. clear Hnd.
    assert (Hall : flat_map (fun kv => oversize_warnings (snd kv)) m = []
                   /\ non_null m = m /\ null_keys m = []
                   /\ map (fun kv => (fst kv, encode_value (snd kv))) m = m).
    { unfold non_null, null_keys.
      induction Hencoded as [|[k v] m' [Hprim Hint] _ (IH1 & IH2 & IH3 & IH4)];
        [done|].
      simpl in Hprim, Hint.
      assert (Hv : is_None v = false) by (by destruct v).
      assert (Hw : oversize_warnings v = [] /\ encode_value v = v).
      { destruct v as [|b|z|f|s|l|l|h]; try done; simpl.
        - destruct b; done.
        - specialize (Hint z eq_refl).
          destruct (Z.gtb_spec z OTLP_MAX_INT_SIZE); [lia|done]. }
      destruct Hw as [Hw1 Hw2].
      rewrite !filter_cons. simpl. rewrite Hv, Hw1, Hw2. simpl.
      rewrite IH1, IH2, IH4. split_and!; done. }
    destruct Hall as (-> & -> & -> & ->). by rewrite with_warnings_nil.
Qed.

Lemma log_run (self : Logfire.t) (level msg_template : string) (attributes : dict pyval)
  (stack_offset : Z) (w : World) (n : Z) (tags : option (list string))
  (merged : dict pyval) :
  dict_get level LEVEL_NUMBERS = Some n ->
  _merge_tags_into_attributes
    (dict_update (get_caller_stack_info (stack_offset + 2)) attributes)
    (Logfire._tags self) = Ok (tags, merged) ->
  exists ws encoded,
    let formatted := logfire_format msg_template merged None (stack_offset + 2 + 2) in
    user_attributes merged (with_warnings w (fst formatted))
    = (with_warnings w ws, Ok encoded) /\
    Logfire.log self level msg_template attributes stack_offset w
    = (mkWorld (w_warnings w ++ ws) (w_log w)
         (w_finished w
          ++ [mkSpan (snd formatted)
                (Logfire.resolve_sample_rate self
                   (Logfire.add_tags tags
                      (Logfire.add_json_schema attributes
                         (dict_update
                            (dict_update []
                               [(ATTRIBUTES_SPAN_TYPE_KEY, VStr "log");
                                (ATTRIBUTES_LOG_LEVEL_NAME_KEY, VStr level);
                                (ATTRIBUTES_LOG_LEVEL_NUM_KEY, VInt n);
                                (ATTRIBUTES_MESSAGE_TEMPLATE_KEY, VStr msg_template);
                                (ATTRIBUTES_MESSAGE_KEY, VStr (snd formatted))])
                            encoded))))
                OK_STATUS [] (w_clock w) (Some (w_clock w))])
         (w_context w) (w_clock w + 1), Ok tt).
Proof.
  intros Hlevel Hmerge.
  assert (Hmem : dict_mem level LEVEL_NUMBERS = true) by (unfold dict_mem; by rewrite Hlevel).
  destruct (logfire_format msg_template merged None (stack_offset + 2 + 2))
    as [ws1 msg] eqn:Hformat.
  destruct (user_attributes_total merged (with_warnings w ws1)) as (ws2 & encoded & Hua).
  exists (ws1 ++ ws2)%list, encoded. cbn [fst snd].
  rewrite with_warnings_app in Hua. split; [exact Hua|].
  unfold Logfire.log. rewrite Hmem.
  unfold bind at 1. cbn [ret].
  unfold bind at 1. rewrite Hlevel. cbn [ret].
  unfold bind at 1. unfold lift. rewrite Hmerge.
  unfold bind at 1. unfold format_message. rewrite Hformat.
  unfold bind at 1. rewrite Hua.
  set (otlp_attributes := Logfire.resolve_sample_rate self _).
  unfold bind, time_ns, start_span, attach, detach, Span_end, Span_set_status, on_end, ret,
    with_warnings.
  simpl. f_equal. f_equal.
  replace (S (length (w_context w)) - length (w_context w))%nat with 1%nat by lia.
  reflexivity.
Qed.

(** X24.  [log] with a level of the table.  When the tag attribute, if
    there is one, is a list, [log] succeeds and hands exactly one span to
    the span processor: it is named by the formatted message, has the
    status [OK], starts and ends at the same clock reading, and the
    context is left as it was.  When the tag attribute is not a list,
    [log] raises [TypeError] and nothing has happened. *)
Theorem log_known_level (self : Logfire.t) (level msg_template : string)
  (attributes : dict pyval) (stack_offset : Z) (w : World) (n : Z) :
  dict_get level LEVEL_NUMBERS = Some n ->
  let merged := dict_update (get_caller_stack_info (stack_offset + 2)) attributes in
  ((forall v, dict_get ATTRIBUTES_TAGS_KEY merged = Some v -> exists l, v = VList l) ->
   exists w' span,
     Logfire.log self level msg_template attributes stack_offset w = (w', Ok tt) /\
     w_finished w' = (w_finished w ++ [span])%list /\
     w_context w' = w_context w /\
     w_clock w' = w_clock w + 1 /\
     w_log w' = w_log w /\
     sp_status span = OK_STATUS /\
     sp_events span = [] /\
     sp_start_time span = w_clock w /\
     sp_end_time span = Some (w_clock w) /\
     exists tags merged',
       _merge_tags_into_attributes merged (Logfire._tags self) = Ok (tags, merged') /\
       sp_name span = snd (logfire_format msg_template merged' None (stack_offset + 2 + 2))) /\
  (forall v,
     dict_get ATTRIBUTES_TAGS_KEY merged = Some v -> (forall l, v ≠ VList l) ->
     Logfire.log self level msg_template attributes stack_offset w = (w, Raise TypeError)).
Proof.
  intros Hlevel merged. split.
  - intros Htags.
    destruct (merge_tags_total merged (Logfire._tags self) Htags)
      as (tags & merged' & Hmerge).
    destruct (log_run self level msg_template attributes stack_offset w n tags merged'
                Hlevel Hmerge) as (ws & encoded & _ & Hrun).
    eexists _, _. split; [exact Hrun|]. simpl. split_and!; try reflexivity.
    exists tags, merged'. split; [exact Hmerge|reflexivity].
  - intros v Hget Hv.
    assert (Hmem : dict_mem level LEVEL_NUMBERS = true)
      by (unfold dict_mem; by rewrite Hlevel).
    unfold Logfire.log. rewrite Hmem.
    unfold bind at 1. cbn [ret]. unfold bind at 1. rewrite Hlevel. cbn [ret].
    unfold bind at 1. unfold lift, _merge_tags_into_attributes.
    fold merged. rewrite Hget.
    destruct v as [| | | | |l| |]; try reflexivity. by destruct (Hv l).
Qed.

(** X25.  The sample rate of the instance.  For an instance obtained
    from [with_trace_sample_rate] with a rate other than [1], every
    record [log] emits and every span [span] creates carries that rate
    under the sample-rate key, whatever rate the attributes of the call
    hold. *)
Theorem instance_sample_rate_wins (self0 self : Logfire.t) (rate : float)
  (level msg_template : string) (span_name : option string) (attributes : dict pyval)
  (stack_offset : Z) (w : World) (n : Z) :
  Logfire.with_trace_sample_rate self0 rate = Ok self ->
  PrimFloat.eqb rate 1 = false ->
  (dict_get level LEVEL_NUMBERS = Some n ->
   forall w',
     Logfire.log self level msg_template attributes stack_offset w = (w', Ok tt) ->
     exists span,
       w_finished w' = (w_finished w ++ [span])%list /\
       dict_get ATTRIBUTES_SAMPLE_RATE_KEY (sp_attributes span) = Some (VFloat rate)) /\
  (forall w' logfire_span,
     Logfire.span self msg_template span_name attributes w = (w', Ok logfire_span) ->
     dict_get ATTRIBUTES_SAMPLE_RATE_KEY (LogfireSpan._otlp_attributes logfire_span)
     = Some (VFloat rate)).
Proof.
  intros Hself Hrate.
  assert (Hinstance : Logfire._sample_rate self = Some rate).
  { unfold Logfire.with_trace_sample_rate in Hself.
    destruct (_ || _); [discriminate Hself|]. by injection Hself as <-. }
  split.
  - intros Hlevel w' Hlog.
    destruct (_merge_tags_into_attributes
                (dict_update (get_caller_stack_info (stack_offset + 2)) attributes)
                (Logfire._tags self)) as [[tags merged]|e] eqn:Hmerge.
    + destruct (log_run self level msg_template attributes stack_offset w n tags merged
                  Hlevel Hmerge) as (ws & encoded & _ & Hrun).
      rewrite Hrun in Hlog. injection Hlog as <-.
      eexists. split; [reflexivity|]. simpl.
      by apply resolve_sample_rate_instance.
    + exfalso. revert Hlog.
      assert (Hmem : dict_mem level LEVEL_NUMBERS = true)
        by (unfold dict_mem; by rewrite Hlevel).
      unfold Logfire.log. rewrite Hmem.
      unfold bind at 1. cbn [ret]. unfold bind at 1. rewrite Hlevel. cbn [ret].
      unfold bind at 1. unfold lift. rewrite Hmerge. discriminate.
  - intros w' logfire_span. unfold Logfire.span.
    destruct (Logfire.any_underscore attributes); [discriminate|].
    destruct (_span_run self msg_template attributes span_name 3 false w)
      as [[e Hrun]|(ws & tags & merged & otlp & _ & _ & Hrun)];
      rewrite Hrun; [discriminate|].
    intros [= _ <-]. simpl. by apply resolve_sample_rate_instance.
Qed.

End MoreEncodingFacts.

Section LogRecordFacts.
Context {C : Constants} {E : Externals}.

Lemma NoDup_keys_user_attributes (m encoded : dict pyval) (w w' : World) :
  NoDup (keys m) ->
  user_attributes m w = (w', Ok encoded) ->
  NoDup (keys encoded).
Proof.
  intros Hnd. rewrite user_attributes_exact by done. intros [= _ <-].
  assert (Hprepared :
            NoDup (keys (map (fun kv => (fst kv, encode_value (snd kv))) (non_null m)))).
  { rewrite keys_encoded_entries. unfold non_null, keys.
    eapply sublist_NoDup; [exact Hnd|]. apply fmap_sublist, sublist_filter. }
  destruct (null_keys m); [done|]. by apply NoDup_keys_dict_set.
Qed.

(** X26.  The fixed fields of a log record.  Let the reserved keys be
    pairwise different and the dictionaries have no duplicate key.  For
    a level of the table, the record [log] emits maps the span-type key
    to "log", the level-name key to the level, the level-number key to
    its number, the template key to the template and the message key to
    the name of the span, for each of these keys that neither the
    caller's stack information nor the attributes use.  A string the
    attributes give under one of these keys replaces the field: the
    attributes of the user are spread over the fixed fields. *)
Theorem log_record_fields (self : Logfire.t) (level msg_template : string)
  (attributes : dict pyval) (stack_offset : Z) (w w' : World) (n : Z) :
  NoDup reserved_keys ->
  NoDup (keys (get_caller_stack_info (stack_offset + 2))) ->
  NoDup (keys attributes) ->
  dict_get level LEVEL_NUMBERS = Some n ->
  Logfire.log self level msg_template attributes stack_offset w = (w', Ok tt) ->
  exists span,
    w_finished w' = (w_finished w ++ [span])%list /\
    forall k v,
      dict_get k [(ATTRIBUTES_SPAN_TYPE_KEY, VStr "log");
                  (ATTRIBUTES_LOG_LEVEL_NAME_KEY, VStr level);
                  (ATTRIBUTES_LOG_LEVEL_NUM_KEY, VInt n);
                  (ATTRIBUTES_MESSAGE_TEMPLATE_KEY, VStr msg_template);
                  (ATTRIBUTES_MESSAGE_KEY, VStr (sp_name span))] = Some v ->
      (k ∉ keys (get_caller_stack_info (stack_offset + 2)) -> k ∉ keys attributes ->
       dict_get k (sp_attributes span) = Some v) /\
      (forall s, dict_get k attributes = Some (VStr s) ->
                 dict_get k (sp_attributes span) = Some (VStr s)).
Proof.
  intros Hreserved Hstack Hattributes Hlevel Hlog.
  set (merged := dict_update (get_caller_stack_info (stack_offset + 2)) attributes).
  assert (Hmem : dict_mem level LEVEL_NUMBERS = true)
    by (unfold dict_mem; by rewrite Hlevel).
  destruct (_merge_tags_into_attributes merged (Logfire._tags self))
    as [[tags merged']|e] eqn:Hmerge; cycle 1.
  { exfalso. revert Hlog. unfold Logfire.log. rewrite Hmem.
    unfold bind at 1. cbn [ret]. unfold bind at 1. rewrite Hlevel. cbn [ret].
    unfold bind at 1. unfold lift. fold merged. rewrite Hmerge. discriminate. }
  destruct (log_run self level msg_template attributes stack_offset w n tags merged'
              Hlevel Hmerge) as (ws & encoded & Hua & Hrun).
  cbn zeta in Hua, Hrun. rewrite Hrun in Hlog. injection Hlog as <-.
  eexists. split; [reflexivity|]. cbv beta iota delta [sp_name sp_attributes].
  set (msg := snd (logfire_format msg_template merged' None (stack_offset + 2 + 2))) in *.
  set (fixed := [(ATTRIBUTES_SPAN_TYPE_KEY, VStr "log");
                 (ATTRIBUTES_LOG_LEVEL_NAME_KEY, VStr level);
                 (ATTRIBUTES_LOG_LEVEL_NUM_KEY, VInt n);
                 (ATTRIBUTES_MESSAGE_TEMPLATE_KEY, VStr msg_template);
                 (ATTRIBUTES_MESSAGE_KEY, VStr msg)]).
  apply merge_tags_attributes in Hmerge as [-> _].
  assert (Hmerged : NoDup (keys (dict_without ATTRIBUTES_TAGS_KEY merged))).
  { apply NoDup_keys_dict_without. by apply NoDup_keys_dict_update. }
  pose proof (NoDup_keys_user_attributes _ _ _ _ Hmerged Hua) as Hencoded.
  assert (Hfixed : NoDup (keys fixed)).
  { unfold reserved_keys in Hreserved. revert Hreserved. unfold fixed. simpl.
    rewrite !NoDup_cons, !not_elem_of_cons. intros. split_and!; try tauto.
    all: try apply not_elem_of_nil. all: try apply NoDup_nil_2.
    all: intros Heq; symmetry in Heq; tauto. }
  intros k v Hk.
  assert (Hin : k ∈ keys fixed).
  { apply dict_get_Some_elem in Hk. unfold keys. apply list_elem_of_fmap.
    by exists (k, v). }
  assert (Hother : k ≠ ATTRIBUTES_TAGS_KEY /\ k ≠ ATTRIBUTES_SAMPLE_RATE_KEY /\
                   k ≠ ATTRIBUTES_JSON_SCHEMA_KEY /\ k ≠ NULL_ARGS_KEY).
  { unfold reserved_keys in Hreserved. revert Hreserved Hin. unfold fixed. simpl.
    rewrite !NoDup_cons, !not_elem_of_cons, !elem_of_cons.
    intros Hr Hin. split_and!; intros ->.
    all: repeat (destruct Hin as [Hin|Hin]; [intuition congruence|]).
    all: by apply not_elem_of_nil in Hin. }
  destruct Hother as (Htags & Hrate & Hschema & Hnull).
  rewrite dict_get_resolve_sample_rate_other, dict_get_add_tags_other,
    dict_get_add_json_schema_other by done.
  pose proof (dict_get_user_attributes k _ _ _ _ Hmerged Hnull Hua) as Hget.
  rewrite dict_get_without_ne in Hget by done.
  split.
  - intros Hk1 Hk2.
    assert (Hnone : dict_get k merged = None).
    { unfold merged. rewrite dict_get_update_other by done. by apply dict_get_None. }
    rewrite Hnone in Hget. apply dict_get_None in Hget.
    change (dict_get k (dict_update (dict_update [] fixed) encoded) = Some v).
    rewrite dict_get_update_other by done.
    by apply dict_get_update.
  - intros s Hs.
    assert (Hsome : dict_get k merged = Some (VStr s))
      by (by apply dict_get_update).
    rewrite Hsome in Hget. simpl in Hget.
    change (dict_get k (dict_update (dict_update [] fixed) encoded) = Some (VStr s)).
    by apply dict_get_update.
Qed.

End LogRecordFacts.

Lemma user_attributes_order_and_identity_witness :
  NoDup (keys [("a", VInt 1); ("b", VStr "x"); ("c", VBool true)]) /\
  user_attributes (C := example_constants) (E := example_externals)
    [("a", VInt 1); ("b", VStr "x"); ("c", VBool true)] empty_world
  = (empty_world, Ok [("a", VInt 1); ("b", VStr "x"); ("c", VBool true)]).
Proof.
  assert (Hnd : NoDup (keys [("a", VInt 1); ("b", VStr "x"); ("c", VBool true)])).
  { apply (bool_decide_unpack _). vm_compute. exact I. }
  split; [exact Hnd|].
  apply (proj2 (user_attributes_order_and_identity (C := example_constants)
                  (E := example_externals) _ empty_world Hnd)).
  repeat apply Forall_cons_2; try apply Forall_nil_2; simpl;
    (split; [exact I|intros z Hz; try discriminate Hz]).
  injection Hz as <-. vm_compute. discriminate.
Defined.

Lemma log_known_level_witness :
  exists w' span,
    Logfire.log (C := example_constants) (E := example_externals)
      (Logfire.mk ["t"] None) "info" "hello" [("x", VInt 1)] 0 empty_world = (w', Ok tt) /\
    w_finished w' = [span] /\
    sp_status span = OK_STATUS /\
    sp_end_time span = Some 0.
Proof.
  destruct (log_known_level (C := example_constants) (E := example_externals)
              (Logfire.mk ["t"] None) "info" "hello" [("x", VInt 1)] 0 empty_world 9
              eq_refl) as [Hrun _].
  destruct Hrun as (w' & span & Hlog & Hfinished & _ & _ & _ & Hstatus & _ & _ & Hend & _).
  { intros v Hget. vm_compute in Hget. discriminate Hget. }
  exists w', span. split_and!; [exact Hlog|exact Hfinished|exact Hstatus|exact Hend].
Defined.

Lemma instance_sample_rate_wins_witness :
  exists w' logfire_span,
    Logfire.span (C := example_constants) (E := example_externals)
      (Logfire.mk [] (Some 0.5%float)) "hello" None
      [("logfire.sample_rate", VFloat 0.25)] empty_world = (w', Ok logfire_span) /\
    dict_get "logfire.sample_rate" (LogfireSpan._otlp_attributes logfire_span)
    = Some (VFloat 0.5).
Proof.
  pose (run := Logfire.span (C := example_constants) (E := example_externals)
                 (Logfire.mk [] (Some 0.5%float)) "hello" None
                 [("logfire.sample_rate", VFloat 0.25)] empty_world).
  destruct (snd run) as [logfire_span|e] eqn:Hresult; [|vm_compute in Hresult; discriminate].
  assert (Hrun : run = (fst run, Ok logfire_span))
    by (rewrite <- Hresult; by destruct run).
  exists (fst run), logfire_span. split; [exact Hrun|].
  exact (proj2 (instance_sample_rate_wins (C := example_constants) (E := example_externals)
                  (Logfire.mk [] None) (Logfire.mk [] (Some 0.5%float)) 0.5%float
                  "info" "hello" None [("logfire.sample_rate", VFloat 0.25)] 0
                  empty_world 9 eq_refl eq_refl) (fst run) logfire_span Hrun).
Defined.

Lemma log_record_fields_witness :
  exists w' span,
    Logfire.log (C := example_constants) (E := example_externals)
      (Logfire.mk [] None) "info" "hello" [("logfire.level_name", VStr "fatal")] 0
      empty_world = (w', Ok tt) /\
    w_finished w' = [span] /\
    dict_get "logfire.level_name" (sp_attributes span) = Some (VStr "fatal") /\
    dict_get "logfire.level_num" (sp_attributes span) = Some (VInt 9).
Proof.
  pose (run := Logfire.log (C := example_constants) (E := example_externals)
                 (Logfire.mk [] None) "info" "hello"
                 [("logfire.level_name", VStr "fatal")] 0 empty_world).
  assert (Hrun : run = (fst run, Ok tt)) by (vm_compute; reflexivity).
  assert (Hreserved : NoDup (reserved_keys (C := example_constants))).
  { apply (bool_decide_unpack _). vm_compute. exact I. }
  assert (Hstack : NoDup (keys (get_caller_stack_info (Externals := example_externals)
                                  (0 + 2)))).
  { apply (bool_decide_unpack _). vm_compute. exact I. }
  assert (Hattributes : NoDup (keys [("logfire.level_name", VStr "fatal")])).
  { apply (bool_decide_unpack _). vm_compute. exact I. }
  destruct (log_record_fields (C := example_constants) (E := example_externals)
              (Logfire.mk [] None) "info" "hello"
              [("logfire.level_name", VStr "fatal")] 0 empty_world (fst run) 9
              Hreserved Hstack Hattributes eq_refl Hrun) as (span & Hfinished & Hfields).
  exists (fst run), span. split_and!; [exact Hrun|exact Hfinished| |].
  - apply (Hfields "logfire.level_name" (VStr "info") eq_refl). reflexivity.
  - apply (Hfields "logfire.level_num" (VInt 9) eq_refl).
    + intros Hin. apply list_elem_of_In in Hin. vm_compute in Hin. intuition discriminate.
    + intros Hin. apply list_elem_of_In in Hin. vm_compute in Hin. intuition discriminate.
Defined.

Section LogTagFacts.
Context {C : Constants} {E : Externals}.

(** X27.  The tags of a log record.  Let the reserved keys be pairwise
    different and the caller's stack information have no duplicate key.
    For an instance obtained from [with_tags], a level of the table and
    a tag attribute that is absent or a list, [log] emits one record; its
    tag attribute holds the tags of the attribute, then the tags of the
    instance, then the tags given to [with_tags], each once and in the
    order of its first occurrence.  When there is no tag at all the
    record has no tag attribute. *)
Theorem log_record_tags (self : Logfire.t) (more : list string) (level msg_template : string)
  (attributes : dict pyval) (stack_offset : Z) (w : World) (n : Z)
  (attribute_tags : option (list string)) :
  NoDup reserved_keys ->
  NoDup (keys (get_caller_stack_info (stack_offset + 2))) ->
  dict_get level LEVEL_NUMBERS = Some n ->
  dict_get ATTRIBUTES_TAGS_KEY
    (dict_update (get_caller_stack_info (stack_offset + 2)) attributes)
  = VList <$> attribute_tags ->
  exists w' span,
    Logfire.log (Logfire.with_tags self more) level msg_template attributes stack_offset w
    = (w', Ok tt) /\
    w_finished w' = (w_finished w ++ [span])%list /\
    dict_get ATTRIBUTES_TAGS_KEY (sp_attributes span)
    = match (default [] attribute_tags ++ Logfire._tags self ++ more)%list with
      | [] => None
      | tag :: rest =>
          Some (VList (dedup_first (default [] attribute_tags ++ Logfire._tags self ++ more)))
      end.
Proof.
  intros Hreserved Hstack Hlevel Htags.
  set (merged := dict_update (get_caller_stack_info (stack_offset + 2)) attributes) in *.
  destruct (merge_tags_total merged (Logfire._tags (Logfire.with_tags self more)))
    as (tags & merged' & Hmerge).
  { intros v Hv. rewrite Htags in Hv. destruct attribute_tags as [l|]; [|done].
    injection Hv as <-. by exists l. }
  destruct (log_run (Logfire.with_tags self more) level msg_template attributes stack_offset
              w n tags merged' Hlevel Hmerge) as (ws & encoded & Hua & Hrun).
  cbn zeta in Hua, Hrun.
  eexists _, _. split; [exact Hrun|]. split; [reflexivity|].
  cbv beta iota delta [sp_attributes w_finished]. clear Hrun.
  apply merge_tags_attributes in Hmerge as (-> & a & Ha & ->).
  rewrite Htags in Ha.
  assert (Heq : default [] a = default [] attribute_tags).
  { destruct attribute_tags, a; simpl in Ha; congruence. }
  rewrite Heq. clear Ha Heq a. cbn [Logfire.with_tags Logfire._tags].
  assert (Hother : ATTRIBUTES_TAGS_KEY ≠ ATTRIBUTES_SAMPLE_RATE_KEY /\
                   ATTRIBUTES_TAGS_KEY ≠ ATTRIBUTES_JSON_SCHEMA_KEY /\
                   ATTRIBUTES_TAGS_KEY ≠ NULL_ARGS_KEY /\
                   ATTRIBUTES_TAGS_KEY
                   ∉ [ATTRIBUTES_SPAN_TYPE_KEY; ATTRIBUTES_LOG_LEVEL_NAME_KEY;
                      ATTRIBUTES_LOG_LEVEL_NUM_KEY; ATTRIBUTES_MESSAGE_TEMPLATE_KEY;
                      ATTRIBUTES_MESSAGE_KEY]).
  { unfold reserved_keys in Hreserved. revert Hreserved.
    rewrite !NoDup_cons, !not_elem_of_cons. intros Hr.
    split_and!; try apply not_elem_of_nil; intros Heq;
      first [tauto | symmetry in Heq; tauto]. }
  destruct Hother as (Hrate & Hschema & Hnull & Hfixed).
  rewrite dict_get_resolve_sample_rate_other by done.
  destruct (default [] attribute_tags ++ Logfire._tags self ++ more)%list
    as [|tag rest] eqn:Hall.
  - unfold Logfire.add_tags.
    rewrite dict_get_add_json_schema_other by done.
    assert (Hmerged : NoDup (keys (dict_without ATTRIBUTES_TAGS_KEY merged))).
    { apply NoDup_keys_dict_without. by apply NoDup_keys_dict_update. }
    pose proof (dict_get_user_attributes ATTRIBUTES_TAGS_KEY _ _ _ _ Hmerged Hnull Hua)
      as Hget.
    rewrite dict_get_without_eq in Hget. apply dict_get_None in Hget.
    match goal with
    | |- dict_get _ (dict_update ?d _) = _ =>
        change d with (dict_update []
                         [(ATTRIBUTES_SPAN_TYPE_KEY, VStr "log");
                          (ATTRIBUTES_LOG_LEVEL_NAME_KEY, VStr level);
                          (ATTRIBUTES_LOG_LEVEL_NUM_KEY, VInt n);
                          (ATTRIBUTES_MESSAGE_TEMPLATE_KEY, VStr msg_template);
                          (ATTRIBUTES_MESSAGE_KEY,
                           VStr (snd (logfire_format msg_template
                                        (dict_without ATTRIBUTES_TAGS_KEY merged) None
                                        (stack_offset + 2 + 2))))])
    end.
    rewrite !dict_get_update_other by done. reflexivity.
  - unfold Logfire.add_tags.
    destruct (dedup_first (tag :: rest)) as [|tag' rest'] eqn:Hdedup.
    + exfalso. assert (Hin : tag ∈ dedup_first (tag :: rest))
        by (apply elem_of_dedup_first; left).
      rewrite Hdedup in Hin. by apply not_elem_of_nil in Hin.
    + by rewrite dict_get_set_eq.
Qed.

End LogTagFacts.

Lemma log_record_tags_witness :
  exists w' span,
    Logfire.log (C := example_constants) (E := example_externals)
      (Logfire.with_tags (Logfire.mk ["api"] None) ["db"; "api"]) "info" "hello"
      [("logfire.tags", VList ["db"; "cache"])] 0 empty_world = (w', Ok tt) /\
    w_finished w' = [span] /\
    dict_get "logfire.tags" (sp_attributes span) = Some (VList ["db"; "cache"; "api"]).
Proof.
  assert (Hreserved : NoDup (reserved_keys (C := example_constants))).
  { apply (bool_decide_unpack _). vm_compute. exact I. }
  assert (Hstack : NoDup (keys (get_caller_stack_info (Externals := example_externals)
                                  (0 + 2)))).
  { apply (bool_decide_unpack _). vm_compute. exact I. }
  destruct (log_record_tags (C := example_constants) (E := example_externals)
              (Logfire.mk ["api"] None) ["db"; "api"] "info" "hello"
              [("logfire.tags", VList ["db"; "cache"])] 0 empty_world 9
              (Some ["db"; "cache"]) Hreserved Hstack eq_refl eq_refl)
    as (w' & span & Hlog & Hfinished & Htags).
  exists w', span. split_and!; [exact Hlog|exact Hfinished|].
  etrans; [exact Htags|]. vm_compute. reflexivity.
Defined.
